(** * snaplogic-cache: the request pipeline of the caching worker

    A shallow embedding of [fetch] (the worker's only handler) together
    with the platform pieces it calls: JavaScript strings and regular
    expressions, the URL record with its setters, [Headers], SHA-256
    (FIPS 180-4) for [crypto.subtle.digest], the cache as a finite map and
    the race between the upstream call and the timer. *)

From Stdlib Require Import ZArith NArith Ascii String List Bool Lia.
From stdpp Require Import base option gmap strings.
Import ListNotations.

Local Open Scope string_scope.
Local Open Scope Z_scope.

(** ** JavaScript strings

    Strings are sequences of 8-bit code units.  Methods, header values and
    serialized URLs are byte strings, on which [toUpperCase] and
    [toLowerCase] only move the ASCII letters into the ASCII range. *)

Module JsString.

Definition upper_ascii (c : ascii) : ascii :=
  let n := N_of_ascii c in
  if ((97 <=? n) && (n <=? 122))%N then ascii_of_N (n - 32) else c.

Definition lower_ascii (c : ascii) : ascii :=
  let n := N_of_ascii c in
  if ((65 <=? n) && (n <=? 90))%N then ascii_of_N (n + 32) else c.

Fixpoint toUpperCase (s : string) : string :=
  match s with
  | EmptyString => EmptyString
  | String c t => String (upper_ascii c) (toUpperCase t)
  end.

Fixpoint toLowerCase (s : string) : string :=
  match s with
  | EmptyString => EmptyString
  | String c t => String (lower_ascii c) (toLowerCase t)
  end.

(** [startsWith hay needle]: [hay.startsWith(needle)]. *)
Fixpoint startsWith (hay needle : string) : bool :=
  match needle, hay with
  | EmptyString, _ => true
  | String _ _, EmptyString => false
  | String a n, String b h => Ascii.eqb a b && startsWith h n
  end.

(** [includes hay needle]: [hay.includes(needle)]. *)
Fixpoint includes (hay needle : string) : bool :=
  startsWith hay needle ||
  match hay with
  | EmptyString => false
  | String _ h => includes h needle
  end.

(** [endsWith hay needle]: [hay.endsWith(needle)]. *)
Fixpoint endsWith (hay needle : string) : bool :=
  String.eqb hay needle ||
  match hay with
  | EmptyString => false
  | String _ h => endsWith h needle
  end.

(** [!s] on a string: the empty string is the only falsy one. *)
Definition nonempty (s : string) : bool :=
  match s with EmptyString => false | String _ _ => true end.

(** [parts.join(sep)]. *)
Fixpoint join (sep : string) (parts : list string) : string :=
  match parts with
  | [] => ""
  | [p] => p
  | p :: ps => p +:+ sep +:+ join sep ps
  end.

(** [Number.prototype.toString] on an integer (radix 10). *)
Definition digit (n : N) : ascii := ascii_of_N (48 + n).

Fixpoint decimal_fuel (fuel : nat) (n : N) (acc : string) : string :=
  match fuel with
  | O => acc
  | S f =>
      let acc' := String (digit (n mod 10)) acc in
      if (n <? 10)%N then acc' else decimal_fuel f (n / 10) acc'
  end.

Definition decimal (n : N) : string :=
  decimal_fuel (S (N.to_nat (N.log2 n))) n "".

Definition Number_toString (z : Z) : string :=
  if z <? 0 then "-" +:+ decimal (Z.to_N (- z)) else decimal (Z.to_N z).

End JsString.

(** ** Regular expressions

    The patterns of the source are kept as syntax trees and run by a
    matcher with derivatives.  [^] and [$] are zero-width: [null] and
    [deriv] carry whether the current position is the start of the input
    ([bos]) and whether it is its end ([eos]); no pattern of the source
    has the [m] flag.  The [i] flag is the [icase] argument. *)

Module RegExp.

Inductive regex : Type :=
| Void                      (* matches nothing; only produced by [deriv] *)
| Eps                       (* the empty pattern *)
| Lit (c : ascii)           (* a literal character *)
| Dot                       (* [.] : any character but a line terminator *)
| Bol                       (* [^] *)
| Eol                       (* [$] *)
| Seq (r s : regex)         (* [rs] *)
| Alt (r s : regex)         (* [r|s] *)
| Star (r : regex)          (* [r*] *)
| Opt (r : regex).          (* [r?] *)

(** A run of literal characters. *)
Fixpoint lit (s : string) : regex :=
  match s with
  | EmptyString => Eps
  | String c EmptyString => Lit c
  | String c t => Seq (Lit c) (lit t)
  end.

Definition line_terminator (c : ascii) : bool :=
  Ascii.eqb c "010"%char || Ascii.eqb c "013"%char.

Definition same_char (icase : bool) (c d : ascii) : bool :=
  if icase
  then Ascii.eqb (JsString.upper_ascii c) (JsString.upper_ascii d)
  else Ascii.eqb c d.

Fixpoint null (bos eos : bool) (r : regex) : bool :=
  match r with
  | Void => false
  | Eps => true
  | Lit _ => false
  | Dot => false
  | Bol => bos
  | Eol => eos
  | Seq r s => null bos eos r && null bos eos s
  | Alt r s => null bos eos r || null bos eos s
  | Star _ => true
  | Opt _ => true
  end.

(** [deriv icase bos c r]: what is left of [r] after reading [c], which
    is not the end of the input, at a position that is the start of the
    input iff [bos]. *)
Fixpoint deriv (icase bos : bool) (c : ascii) (r : regex) : regex :=
  match r with
  | Void | Eps | Bol | Eol => Void
  | Lit d => if same_char icase d c then Eps else Void
  | Dot => if line_terminator c then Void else Eps
  | Seq r s =>
      if null bos false r
      then Alt (Seq (deriv icase bos c r) s) (deriv icase bos c s)
      else Seq (deriv icase bos c r) s
  | Alt r s => Alt (deriv icase bos c r) (deriv icase bos c s)
  | Star r => Seq (deriv icase bos c r) (Star r)
  | Opt r => deriv icase bos c r
  end.

(** Some prefix of [s] matches [r]; the match may stop anywhere. *)
Fixpoint match_here (icase bos : bool) (r : regex) (s : string) : bool :=
  match s with
  | EmptyString => null bos true r
  | String c t => null bos false r || match_here icase false (deriv icase bos c r) t
  end.

(** Some substring of [s] matches [r], tried at every start position. *)
Fixpoint match_from (icase bos : bool) (r : regex) (s : string) : bool :=
  match_here icase bos r s ||
  match s with
  | EmptyString => false
  | String _ t => match_from icase false r t
  end.

(** [s.match(/r/)] is not [null], resp. [s.match(/r/i)]. *)
Definition test (r : regex) (s : string) : bool := match_from false true r s.
Definition test_i (r : regex) (s : string) : bool := match_from true true r s.

(** *** What a pattern denotes

    [matches icase bos eos r w]: the stretch [w] of the input matches
    [r], where [bos] tells that [w] starts at the start of the input and
    [eos] that it ends at its end.  An iteration of a star is not empty. *)

Definition is_empty (s : string) : bool :=
  match s with EmptyString => true | String _ _ => false end.

Inductive matches (icase : bool) : bool -> bool -> regex -> string -> Prop :=
| M_eps b e : matches icase b e Eps ""
| M_lit b e c d :
    same_char icase c d = true -> matches icase b e (Lit c) (String d "")
| M_dot b e d :
    line_terminator d = false -> matches icase b e Dot (String d "")
| M_bol e : matches icase true e Bol ""
| M_eol b : matches icase b true Eol ""
| M_seq b e r s u v :
    matches icase b (e && is_empty v) r u ->
    matches icase (b && is_empty u) e s v ->
    matches icase b e (Seq r s) (u +:+ v)
| M_alt_l b e r s u : matches icase b e r u -> matches icase b e (Alt r s) u
| M_alt_r b e r s u : matches icase b e s u -> matches icase b e (Alt r s) u
| M_star_nil b e r : matches icase b e (Star r) ""
| M_star_cons b e r c u v :
    matches icase b (e && is_empty v) r (String c u) ->
    matches icase false e (Star r) v ->
    matches icase b e (Star r) (String c u +:+ v)
| M_opt_none b e r : matches icase b e (Opt r) ""
| M_opt_some b e r u : matches icase b e r u -> matches icase b e (Opt r) u.

End RegExp.

(** ** SHA-256

    [crypto.subtle.digest('SHA-256', bytes)], after FIPS 180-4.  Words are
    32-bit values kept in [N], every addition reduced modulo [2^32]. *)

Module Sha256.
Local Open Scope N_scope.

Definition w32 : N := 4294967296.
Definition add32 (x y : N) : N := (x + y) mod w32.
Definition rotr (n x : N) : N :=
  N.lor (N.shiftr x n) (N.shiftl x (32 - n) mod w32).
Definition shr (n x : N) : N := N.shiftr x n.
Definition not32 (x : N) : N := N.lxor x (w32 - 1).

Definition Ch (x y z : N) : N := N.lxor (N.land x y) (N.land (not32 x) z).
Definition Maj (x y z : N) : N :=
  N.lxor (N.lxor (N.land x y) (N.land x z)) (N.land y z).
Definition Sigma0 (x : N) : N := N.lxor (N.lxor (rotr 2 x) (rotr 13 x)) (rotr 22 x).
Definition Sigma1 (x : N) : N := N.lxor (N.lxor (rotr 6 x) (rotr 11 x)) (rotr 25 x).
Definition sigma0 (x : N) : N := N.lxor (N.lxor (rotr 7 x) (rotr 18 x)) (shr 3 x).
Definition sigma1 (x : N) : N := N.lxor (N.lxor (rotr 17 x) (rotr 19 x)) (shr 10 x).

(** The round constants (4.2.2), in decimal, four to a line. *)
Definition K : list N :=
  [
    1116352408; 1899447441; 3049323471; 3921009573;
    961987163; 1508970993; 2453635748; 2870763221;
    3624381080; 310598401; 607225278; 1426881987;
    1925078388; 2162078206; 2614888103; 3248222580;
    3835390401; 4022224774; 264347078; 604807628;
    770255983; 1249150122; 1555081692; 1996064986;
    2554220882; 2821834349; 2952996808; 3210313671;
    3336571891; 3584528711; 113926993; 338241895;
    666307205; 773529912; 1294757372; 1396182291;
    1695183700; 1986661051; 2177026350; 2456956037;
    2730485921; 2820302411; 3259730800; 3345764771;
    3516065817; 3600352804; 4094571909; 275423344;
    430227734; 506948616; 659060556; 883997877;
    958139571; 1322822218; 1537002063; 1747873779;
    1955562222; 2024104815; 2227730452; 2361852424;
    2428436474; 2756734187; 3204031479; 3329325298
  ].

(** Big-endian bytes of a value, [n] of them. *)
Fixpoint be_bytes (n : nat) (x : N) : list N :=
  match n with
  | O => []
  | S m => (N.shiftr x (8 * N.of_nat m) mod 256) :: be_bytes m x
  end.

(** Padding (5.1.1): a [1] bit, zeroes up to 56 modulo 64, then the
    length in bits on 64 bits. *)
Definition pad (msg : list N) : list N :=
  let len := N.of_nat (List.length msg) in
  let zeroes := N.to_nat ((64 + 55 - len mod 64) mod 64) in
  msg ++ [128] ++ List.repeat 0 zeroes ++ be_bytes 8 (8 * len).

Fixpoint words (fuel : nat) (bytes : list N) : list N :=
  match fuel, bytes with
  | S f, a :: b :: c :: d :: rest =>
      (((a * 256 + b) * 256 + c) * 256 + d) :: words f rest
  | _, _ => []
  end.

Fixpoint blocks (fuel : nat) (ws : list N) : list (list N) :=
  match fuel, ws with
  | S f, _ :: _ => List.firstn 16 ws :: blocks f (List.skipn 16 ws)
  | _, _ => []
  end.

(** Message schedule (6.2.2, step 1), most recent word first. *)
Fixpoint schedule (n : nat) (rev_w : list N) : list N :=
  match n with
  | O => rev_w
  | S m =>
      let at_ i := List.nth i rev_w 0 in
      let wt := add32 (add32 (sigma1 (at_ 1%nat)) (at_ 6%nat))
                      (add32 (sigma0 (at_ 14%nat)) (at_ 15%nat)) in
      schedule m (wt :: rev_w)
  end.

Record regs : Type :=
  Regs { ra : N; rb : N; rc : N; rd : N; re : N; rf : N; rg : N; rh : N }.

Definition round (s : regs) (kw : N * N) : regs :=
  let '(k, wt) := kw in
  let t1 := add32 (add32 (add32 (add32 (rh s) (Sigma1 (re s)))
                                (Ch (re s) (rf s) (rg s))) k) wt in
  let t2 := add32 (Sigma0 (ra s)) (Maj (ra s) (rb s) (rc s)) in
  Regs (add32 t1 t2) (ra s) (rb s) (rc s) (add32 (rd s) t1) (re s) (rf s) (rg s).

Definition compress (h : regs) (block : list N) : regs :=
  let ws := List.rev (schedule 48 (List.rev block)) in
  let s := List.fold_left round (List.combine K ws) h in
  Regs (add32 (ra h) (ra s)) (add32 (rb h) (rb s))
       (add32 (rc h) (rc s)) (add32 (rd h) (rd s))
       (add32 (re h) (re s)) (add32 (rf h) (rf s))
       (add32 (rg h) (rg s)) (add32 (rh h) (rh s)).

Definition init : regs :=
  Regs 1779033703 3144134277 1013904242 2773480762
       1359893119 2600822924 528734635 1541459225.

(** The 32 bytes of the digest. *)
Definition digest (msg : list N) : list N :=
  let bytes := pad msg in
  let ws := words (List.length bytes) bytes in
  let h := List.fold_left compress (blocks (List.length ws) ws) init in
  List.concat (List.map (be_bytes 4)
    [ra h; rb h; rc h; rd h; re h; rf h; rg h; rh h]).

End Sha256.

(** ** Bytes

    [TextEncoder.encode] of a byte string, [Uint8Array] concatenation and
    [Buffer.toString('hex')]. *)

Module Bytes.

Fixpoint encode (s : string) : list N :=
  match s with
  | EmptyString => []
  | String c t => N_of_ascii c :: encode t
  end.

Definition hex_digit (n : N) : ascii :=
  if (n <? 10)%N then ascii_of_N (48 + n) else ascii_of_N (87 + n).

Fixpoint toHex (bytes : list N) : string :=
  match bytes with
  | [] => ""
  | b :: rest => String (hex_digit (b / 16)) (String (hex_digit (b mod 16)) (toHex rest))
  end.

End Bytes.

(** ** URLs

    A [URL] record holds what the getters of the platform's [URL] object
    return: [protocol] ends with a colon, [port] is empty for the default
    port of the scheme, [search] is empty or starts with a question mark.
    An inbound request carries neither credentials nor a fragment. *)

Module Url.
Import JsString.

Record URL : Type := mkURL {
  protocol : string;
  hostname : string;
  port : string;
  pathname : string;
  search : string
}.

(** [url.toString()], [url.href] and [request.url]. *)
Definition href (u : URL) : string :=
  protocol u +:+ "//" +:+ hostname u +:+
  (if nonempty (port u) then ":" +:+ port u else "") +:+
  pathname u +:+ search u.

Definition default_port (protocol : string) : string :=
  if String.eqb protocol "https:" then "443"
  else if String.eqb protocol "http:" then "80"
  else "".

(** [url.protocol = v].  The setter lower-cases the scheme and drops a
    port that is the default of the new scheme.  The configuration check
    lets only [http] and [https] (in any case) reach it; another value
    is left without effect here. *)
Definition set_protocol (v : string) (u : URL) : URL :=
  let p := toLowerCase v +:+ ":" in
  if String.eqb p "http:" || String.eqb p "https:" then
    mkURL p (hostname u)
          (if String.eqb (port u) (default_port p) then "" else port u)
          (pathname u) (search u)
  else u.

(** [url.hostname = v], for a host name of letters, digits, dots and
    hyphens: the host parser lower-cases it. *)
Definition set_hostname (v : string) (u : URL) : URL :=
  mkURL (protocol u) (toLowerCase v) (port u) (pathname u) (search u).

(** [url.port = n.toString()].  [None] is [NaN], whose string has no
    digit: the setter fails and leaves the port as it was, as it does
    for a number outside [0..65535]. *)
Definition set_port (n : option Z) (u : URL) : URL :=
  match n with
  | Some p =>
      if (0 <=? p) && (p <=? 65535) then
        let d := Number_toString p in
        mkURL (protocol u) (hostname u)
              (if String.eqb d (default_port (protocol u)) then "" else d)
              (pathname u) (search u)
      else u
  | None => u
  end.

(** [url.pathname = v] on an [http(s)] URL: the path always starts with
    a slash.  (Dot segments and percent-encoding are left to the
    platform; the path only reaches the upstream request.) *)
Definition set_pathname (v : string) (u : URL) : URL :=
  mkURL (protocol u) (hostname u) (port u)
        (if startsWith v "/" then v else "/" +:+ v) (search u).

(** [url.search = v]: an empty value removes the query, one leading
    question mark is dropped from the value. *)
Definition set_search (v : string) (u : URL) : URL :=
  mkURL (protocol u) (hostname u) (port u) (pathname u)
        (match v with
         | EmptyString => ""
         | String "?" t => "?" +:+ t
         | _ => "?" +:+ v
         end).

(** *** [url.searchParams.get(name)] *)

Fixpoint split (sep : ascii) (s : string) : list string :=
  match s with
  | EmptyString => [""]
  | String c t =>
      if Ascii.eqb c sep then "" :: split sep t
      else match split sep t with
           | [] => [String c ""]
           | h :: r => String c h :: r
           end
  end.

(** Name and value of one [name=value] pair, cut at the first [=]. *)
Fixpoint cut (s : string) : string * string :=
  match s with
  | EmptyString => ("", "")
  | String c t =>
      if Ascii.eqb c "="%char then ("", t)
      else let '(n, v) := cut t in (String c n, v)
  end.

Definition hex_value (c : ascii) : option N :=
  let n := N_of_ascii c in
  if ((48 <=? n) && (n <=? 57))%N then Some (n - 48)%N
  else if ((65 <=? n) && (n <=? 70))%N then Some (n - 55)%N
  else if ((97 <=? n) && (n <=? 102))%N then Some (n - 87)%N
  else None.

(** [+] is a space, [%XY] is the byte [XY]. *)
Fixpoint form_decode (s : string) : string :=
  match s with
  | EmptyString => ""
  | String c t =>
      if Ascii.eqb c "+"%char then String " "%char (form_decode t)
      else if Ascii.eqb c "%"%char then
        match t with
        | String a (String b t') =>
            match hex_value a, hex_value b with
            | Some x, Some y => String (ascii_of_N (16 * x + y)) (form_decode t')
            | _, _ => String c (form_decode t)
            end
        | _ => String c (form_decode t)
        end
      else String c (form_decode t)
  end.

Definition searchParams (u : URL) : list (string * string) :=
  let q := match search u with String "?" t => t | q => q end in
  List.map (fun p => let '(n, v) := cut p in (form_decode n, form_decode v))
           (List.filter nonempty (split "&"%char q)).

Definition searchParams_get (name : string) (u : URL) : option string :=
  match List.find (fun p => String.eqb (fst p) name) (searchParams u) with
  | Some p => Some (snd p)
  | None => None
  end.

End Url.

(** ** JSON values

    What [JSON.parse] returns; [undefined] is [None] of [option JSON].
    Numbers are the integers. *)

Module Json.
Import JsString.

#[local] Unset Elimination Schemes.
Inductive JSON : Type :=
| JNull
| JBool (b : bool)
| JNum (z : Z)
| JStr (s : string)
| JArr (items : list JSON)
| JObj (fields : list (string * JSON)).
#[local] Set Elimination Schemes.

(** [if (v)]. *)
Definition truthy (v : option JSON) : bool :=
  match v with
  | None | Some JNull => false
  | Some (JBool b) => b
  | Some (JNum z) => negb (z =? 0)
  | Some (JStr s) => nonempty s
  | Some (JArr _) | Some (JObj _) => true
  end.

(** The last field of that name wins in [JSON.parse]. *)
Fixpoint field (k : string) (fields : list (string * JSON)) : option JSON :=
  match fields with
  | [] => None
  | (n, v) :: rest =>
      match field k rest with
      | Some v' => Some v'
      | None => if String.eqb n k then Some v else None
      end
  end.

(** [v.k] on a value that is neither [null] nor [undefined], and
    [v?.k] on any value, for the property names the handler reads
    (none of them is a built-in of strings or arrays). *)
Definition get (k : string) (v : option JSON) : option JSON :=
  match v with
  | Some (JObj fields) => field k fields
  | _ => None
  end.

(** [v[0]] on a truthy value. *)
Definition first (v : option JSON) : option JSON :=
  match v with
  | Some (JArr items) => List.head items
  | Some (JObj fields) => field "0" fields
  | Some (JStr (String c _)) => Some (JStr (String c ""))
  | _ => None
  end.

(** [a || b], where [b] is defined. *)
Definition or_value (a : option JSON) (b : JSON) : JSON :=
  match a with
  | Some v => if truthy a then v else b
  | None => b
  end.

(** *** [JSON.stringify] *)

Definition hex4 (n : N) : string :=
  "00" +:+ String (Bytes.hex_digit (n / 16)) (String (Bytes.hex_digit (n mod 16)) "").

Definition escape (c : ascii) : string :=
  let n := N_of_ascii c in
  if (n =? 34)%N then String "\"%char (String c "")
  else if (n =? 92)%N then String c (String c "")
  else if (n =? 8)%N then "\b"
  else if (n =? 9)%N then "\t"
  else if (n =? 10)%N then "\n"
  else if (n =? 12)%N then "\f"
  else if (n =? 13)%N then "\r"
  else if (n <? 32)%N then "\u" +:+ hex4 n
  else String c "".

Fixpoint escape_all (s : string) : string :=
  match s with
  | EmptyString => ""
  | String c t => escape c +:+ escape_all t
  end.

Definition quote (s : string) : string :=
  String "034"%char (escape_all s +:+ String "034"%char "").

Fixpoint stringify (j : JSON) : string :=
  match j with
  | JNull => "null"
  | JBool true => "true"
  | JBool false => "false"
  | JNum z => Number_toString z
  | JStr s => quote s
  | JArr items => "[" +:+ join "," (List.map stringify items) +:+ "]"
  | JObj fields =>
      "{" +:+ join "," (List.map (fun kv => quote (fst kv) +:+ ":" +:+ stringify (snd kv)) fields) +:+ "}"
  end.

End Json.

(** ** Headers, requests and responses *)

Module Headers.
Import JsString.

(** Header names are compared without case; the values of a repeated
    header are joined by a comma and a space. *)
Definition t : Type := list (string * string).

Definition same_name (a b : string) : bool :=
  String.eqb (toLowerCase a) (toLowerCase b).

Definition values (name : string) (h : t) : list string :=
  List.map snd (List.filter (fun e => same_name (fst e) name) h).

Definition get (name : string) (h : t) : option string :=
  match values name h with
  | [] => None
  | vs => Some (join ", " vs)
  end.

Definition delete (name : string) (h : t) : t :=
  List.filter (fun e => negb (same_name (fst e) name)) h.

Fixpoint set_first (name value : string) (h : t) : t :=
  match h with
  | [] => []
  | (n, v) :: rest =>
      if same_name n name then (n, value) :: delete name rest
      else (n, v) :: set_first name value rest
  end.

Definition set (name value : string) (h : t) : t :=
  if List.existsb (fun e => same_name (fst e) name) h
  then set_first name value h
  else (h ++ [(name, value)])%list.

(** [h.get(name) || '']. *)
Definition get_or_empty (name : string) (h : t) : string :=
  match get name h with
  | Some v => v
  | None => ""
  end.

End Headers.

Module Request.

(** A body is its bytes together with what [json()] makes of them
    ([None]: the parser rejects them). *)
Record body_t : Type := mkBody {
  bytes : string;
  json : option Json.JSON
}.

(** [url] is [new URL(request.url)]; [request.url] is its [href]. *)
Record t : Type := mk {
  method : string;
  url : Url.URL;
  headers : Headers.t;
  body : option body_t
}.

End Request.

Module Response.

(** A body is read through [json()] and [text()].  [Unreadable] is a body
    the platform cannot decode: both readers reject. *)
Inductive body_t : Type :=
| Readable (text : string) (json : option Json.JSON)
| Unreadable.

Record t : Type := mk {
  status : Z;
  statusText : string;
  headers : Headers.t;
  body : body_t;
  cf : option string
}.

(** Statuses that admit no body. *)
Definition null_body_status (s : Z) : bool :=
  (s =? 101) || (s =? 103) || (s =? 204) || (s =? 205) || (s =? 304).

End Response.

(** ** The worker *)

Module Worker.
Import JsString Json.

Coercion JNum : Z >-> JSON.
Coercion JStr : string >-> JSON.

(** [None] is [NaN]. *)
Definition Number : Type := option Z.

(** [Env], as lines 136-144 leave it: the numbers went through
    [parseInt], the booleans are booleans or [undefined]. *)
Record Env : Type := mkEnv {
  ttl : Number;
  targetProtocol : string;
  targetHostname : string;
  targetPort : Number;
  targetPathPrefix : option string;
  requireHTTPS : option bool;
  allowBinaryData : option bool;
  requestTimeout : Number
}.

Record ExceptionCause : Type := mkCause { code : option string }.

Record Exception : Type := mkException {
  message : string;
  cause : option ExceptionCause
}.

Definition Error (msg : string) : Exception := mkException msg None.

(** How the promise of the global [fetch] settles, and when (in
    milliseconds after the call). *)
Inductive Settled : Type :=
| Fulfils (ms : N) (r : Response.t)
| Rejects (ms : N) (e : Exception)
| Pending.

Definition Upstream : Type := Request.t -> Settled.

Inductive Event : Type :=
| CacheDelete (key : string)
| CacheMatch (key : string)
| CachePut (key : string) (r : Response.t)
| UpstreamFetch (req : Request.t)
| ConsoleLog (e : Exception).

(** [caches.default] and what the handler did, oldest first. *)
Record World : Type := mkWorld {
  cache : gmap string Response.t;
  events : list Event
}.

(** *** Control flow: a value, [return r] out of the handler, or [throw]. *)

Inductive Outcome (A : Type) : Type :=
| Value (a : A)
| Returned (r : Response.t)
| Thrown (e : Exception).
Arguments Value {A} a.
Arguments Returned {A} r.
Arguments Thrown {A} e.

Definition M (A : Type) : Type := World -> Outcome A * World.

#[global] Instance M_ret : MRet M := fun A a w => (Value a, w).

#[global] Instance M_bind : MBind M := fun A B f m w =>
  match m w with
  | (Value a, w') => f a w'
  | (Returned r, w') => (Returned r, w')
  | (Thrown e, w') => (Thrown e, w')
  end.

Definition return_ {A : Type} (r : Response.t) : M A := fun w => (Returned r, w).
Definition throw {A : Type} (e : Exception) : M A := fun w => (Thrown e, w).

Definition when (c : bool) (m : M unit) : M unit :=
  if c then m else mret tt.

(** [try { m } catch (err) { handler err }]. *)
Definition try_catch {A : Type} (m : M A) (handler : Exception -> M A) : M A :=
  fun w =>
    match m w with
    | (Thrown e, w') => handler e w'
    | other => other
    end.

Definition emit (e : Event) : M unit :=
  fun w => (Value tt, mkWorld (cache w) (events w ++ [e])%list).

Definition cache_delete (key : string) : M unit :=
  fun w => (Value tt, mkWorld (base.delete key (cache w)) (events w ++ [CacheDelete key])%list).

Definition cache_match (key : string) : M (option Response.t) :=
  fun w => (Value (cache w !! key), mkWorld (cache w) (events w ++ [CacheMatch key])%list).

Definition cache_put (key : string) (r : Response.t) : M unit :=
  fun w => (Value tt, mkWorld (<[key := r]> (cache w)) (events w ++ [CachePut key r])%list).

(** [new Response(body, {status, statusText, headers, cf})] with a body:
    the status must lie in [200..599] and admit a body. *)
Definition new_Response (body : Response.body_t) (status : Z) (statusText : string)
    (headers : Headers.t) (cf : option string) : M Response.t :=
  if negb ((200 <=? status) && (status <=? 599)) then
    throw (Error "RangeError")
  else if Response.null_body_status status then
    throw (Error "TypeError")
  else mret (Response.mk status statusText headers body cf).

(** The document of [errorResponse]. *)
Definition envelope (status_code message : JSON) : JSON :=
  JObj [("http_status_code", status_code);
        ("response_map", JObj [("error_list", JArr [JObj [("message", message)]])])].

(** [errorResponse(status_code, message)] (lines 77-96).  The status is a
    number wherever the caller respects the signature; the platform takes
    it modulo [2^16].  A status of another type is taken to be refused. *)
Definition errorResponse (status_code message : JSON) : M Response.t :=
  let doc := envelope status_code message in
  match status_code with
  | JNum n =>
      new_Response (Response.Readable (stringify doc) (Some doc)) (n mod 65536) ""
                   [("content-type", "application/json")] None
  | _ => throw (Error "TypeError")
  end.

(** [return errorResponse(status_code, message)]. *)
Definition return_errorResponse {A : Type} (status_code message : JSON) : M A :=
  r ← errorResponse status_code message; return_ r.

(** [getCacheKey(url, request)] (lines 105-132). *)
Definition getCacheKey (url : Url.URL) (request : Request.t) : string :=
  let keyRequest :=
    Bytes.encode (toUpperCase (Request.method request) +:+ "|" +:+
                  Url.href (Request.url request) +:+ "|") in
  let keyBody :=
    match Request.body request with
    | Some b => Bytes.encode (Request.bytes b)
    | None => []
    end in
  let keyBuffer := (keyRequest ++ keyBody)%list in
  let hashBuffer := Sha256.digest keyBuffer in
  let url := Url.set_pathname "" url in
  let url := Url.set_search (Bytes.toHex hashBuffer) url in
  Url.href url.

(** *** The patterns of the handler *)

(** [/^https?$/i] *)
Definition protocolPattern : RegExp.regex :=
  RegExp.Seq RegExp.Bol
    (RegExp.Seq (RegExp.lit "http")
       (RegExp.Seq (RegExp.Opt (RegExp.Lit "s")) RegExp.Eol)).

(** [/^POST|PUT|PATCH|HEAD|GET|DELETE$/] : the alternation binds weaker
    than the anchors. *)
Definition methodPattern : RegExp.regex :=
  RegExp.Alt (RegExp.Seq RegExp.Bol (RegExp.lit "POST"))
    (RegExp.Alt (RegExp.lit "PUT")
       (RegExp.Alt (RegExp.lit "PATCH")
          (RegExp.Alt (RegExp.lit "HEAD")
             (RegExp.Alt (RegExp.lit "GET")
                (RegExp.Seq (RegExp.lit "DELETE") RegExp.Eol))))).

(** [/^(POST|PUT|PATCH)$/] *)
Definition bodyMethodPattern : RegExp.regex :=
  RegExp.Seq RegExp.Bol
    (RegExp.Seq
       (RegExp.Alt (RegExp.lit "POST") (RegExp.Alt (RegExp.lit "PUT") (RegExp.lit "PATCH")))
       RegExp.Eol).

(** The pattern of line 228: [^application\/], then group 1
    [(x-www-form-urlencoded|json)], then the optional group [;] and any run
    of [.], then [$]. *)
Definition contentTypePattern : RegExp.regex :=
  RegExp.Seq RegExp.Bol
    (RegExp.Seq (RegExp.lit "application/")
       (RegExp.Seq
          (RegExp.Alt (RegExp.lit "x-www-form-urlencoded") (RegExp.lit "json"))
          (RegExp.Seq
             (RegExp.Opt (RegExp.Seq (RegExp.Lit ";") (RegExp.Star RegExp.Dot)))
             RegExp.Eol))).

(** *** Numbers that may be [NaN] *)

Definition num_lt (a : Number) (b : Z) : bool :=
  match a with Some x => x <? b | None => false end.
Definition num_gt (a : Number) (b : Z) : bool :=
  match a with Some x => b <? x | None => false end.
Definition num_le (a : Number) (b : Z) : bool :=
  match a with Some x => x <=? b | None => false end.
(** [!a] *)
Definition num_falsy (a : Number) : bool :=
  match a with Some x => x =? 0 | None => true end.
(** [if (b)] on a boolean that may be [undefined]. *)
Definition is_true (b : option bool) : bool :=
  match b with Some true => true | _ => false end.

(** *** The handler *)

(** Lines 146-170: the checks on the configuration and its defaults. *)
Definition checkEnv (env : Env) : M Env :=
  when (negb (nonempty (targetHostname env)))
    (throw (Error "targetHostname parameter is required"));;
  when (num_lt (targetPort env) 0 || num_gt (targetPort env) 65535)
    (throw (Error "targetPort parameter must be set from 0 to 65535"));;
  when (negb (RegExp.test_i protocolPattern (targetProtocol env)))
    (throw (Error "targetUrl parameter must be either http or https"));;
  when (num_falsy (ttl env) || num_le (ttl env) 0)
    (throw (Error "ttl parameter must be a number greater than 0"));;
  when (num_lt (requestTimeout env) 0)
    (throw (Error "requestTimeout parameter must be a number greater than 0"));;
  mret (mkEnv (ttl env) (targetProtocol env) (targetHostname env)
          (targetPort env) (targetPathPrefix env)
          (match requireHTTPS env with None => Some true | b => b end)
          (match allowBinaryData env with None => Some false | b => b end)
          (match requestTimeout env with
           | None => Some 100
           | Some 0 => Some 100
           | t => t
           end)).

(** Lines 176-256: the checks on the request. *)
Definition validate (request : Request.t) (env : Env) : M unit :=
  when (negb (nonempty (Headers.get_or_empty "authorization" (Request.headers request))) &&
        negb (nonempty (default "" (Url.searchParams_get "bearer_token" (Request.url request)))))
    (return_errorResponse 401 "Mismatched bearer token");;
  when (is_true (requireHTTPS env) &&
        negb (String.eqb (Url.protocol (Request.url request)) "https:"))
    (return_errorResponse 426 "HTTPS is required");;
  when (negb (RegExp.test methodPattern (toUpperCase (Request.method request))))
    (return_errorResponse 405 "Method not allowed");;
  match Request.body request with
  | Some body =>
      when (negb (RegExp.test bodyMethodPattern (toUpperCase (Request.method request))))
        (return_errorResponse 406 "Body data not expected");;
      let contentType := Headers.get_or_empty "content-type" (Request.headers request) in
      when (negb (nonempty contentType))
        (return_errorResponse 406 "Content-Type is required for request type");;
      when (negb (is_true (allowBinaryData env)))
        (let contentTypeMatch := RegExp.test contentTypePattern contentType in
         when (negb contentTypeMatch)
           (return_errorResponse 406 "Content-Type not acceptable for request type");;
         (* group 1 of a match is [json] iff [json] follows [application/] *)
         when (startsWith contentType "application/json")
           (match Request.json body with
            | Some _ => mret tt
            | None => return_errorResponse 400 "JSON body not valid"
            end))
  | None =>
      when (RegExp.test bodyMethodPattern (toUpperCase (Request.method request)))
        (return_errorResponse 406 "Body data expected")
  end.

(** Lines 262-268: the target URL. *)
Definition buildTargetUrl (request : Request.t) (env : Env) : Url.URL :=
  let targetUrl := Request.url request in
  let targetUrl := Url.set_protocol (targetProtocol env) targetUrl in
  let targetUrl := Url.set_hostname (targetHostname env) targetUrl in
  let targetUrl := Url.set_port (targetPort env) targetUrl in
  match targetPathPrefix env with
  | Some prefix =>
      if nonempty prefix
      then Url.set_pathname (prefix +:+ Url.pathname targetUrl) targetUrl
      else targetUrl
  | None => targetUrl
  end.

(** [request.headers.get('cache-control')] holds [no-cache] (line 277). *)
Definition wantsFresh (request : Request.t) : bool :=
  includes (toLowerCase (Headers.get_or_empty "cache-control" (Request.headers request)))
           "no-cache".

(** Lines 277-288: invalidate or look up, and answer from the cache. *)
Definition lookup (request : Request.t) (cacheKey : string) : M unit :=
  cacheResponse ←
    (if wantsFresh request
     then cache_delete cacheKey;; mret None
     else cache_match cacheKey);
  match cacheResponse with
  | Some r => return_ r
  | None => mret tt
  end.

(** The delay of the timer of line 310, in milliseconds. *)
Definition deadline (env : Env) : Z :=
  match requestTimeout env with
  | Some t => (t - 1) * 1000
  | None => 0
  end.

(** [Promise.race] of the upstream call and the timer (lines 305-313):
    the promise that settles first decides; the call is the first entry
    and wins a tie. *)
Definition race (call : Settled) (delay : Z) : M Response.t :=
  match call with
  | Fulfils ms r =>
      if Z.of_N ms <=? delay then mret r
      else errorResponse 504 "Gateway Timeout"
  | Rejects ms e =>
      if Z.of_N ms <=? delay then throw e
      else errorResponse 504 "Gateway Timeout"
  | Pending => errorResponse 504 "Gateway Timeout"
  end.

(** Lines 291-299: the rewritten request, without [accept-encoding]. *)
Definition rewrite (request : Request.t) (targetUrl : Url.URL) : Request.t :=
  Request.mk (Request.method request) targetUrl
             (Headers.delete "accept-encoding" (Request.headers request))
             (Request.body request).

(** Lines 305-313: the call, raced against the timer. *)
Definition forward (request : Request.t) (targetUrl : Url.URL) (env : Env)
    (upstream : Upstream) : M Response.t :=
  let targetRequest := rewrite request targetUrl in
  emit (UpstreamFetch targetRequest);;
  race (upstream targetRequest) (deadline env).

(** Lines 325-327: [cache-control] set to the configured lifetime,
    [expires] removed. *)
Definition storedCopy (cacheResponse : Response.t) (env : Env) : Response.t :=
  Response.mk (Response.status cacheResponse) (Response.statusText cacheResponse)
    (Headers.delete "expires"
       (Headers.set "cache-control"
          ("max-age=" +:+ match ttl env with
                          | Some n => Number_toString n
                          | None => "NaN"
                          end)
          (Response.headers cacheResponse)))
    (Response.body cacheResponse) (Response.cf cacheResponse).

(** Lines 316-330: the copy that is cached and returned. *)
Definition store (response : Response.t) (cacheKey : string) (env : Env) : M Response.t :=
  cacheResponse ← new_Response (Response.body response) (Response.status response)
                     (Response.statusText response) (Response.headers response)
                     (Response.cf response);
  let cacheResponse := storedCopy cacheResponse env in
  cache_put cacheKey cacheResponse;;
  mret cacheResponse.

(** Lines 335-400: the JSON error documents of the upstream. *)
Definition normalize (response : Response.t) : M unit :=
  json ←
    match Response.body response with
    | Response.Readable _ (Some json) => mret json
    | Response.Readable text None =>
        try_catch (return_errorResponse (Response.status response) text)
          (fun _ => return_errorResponse 500 "Error decoding response from server")
    | Response.Unreadable =>
        return_errorResponse 500 "Error decoding response from server"
    end;
  (* [json.threads] on [null] throws *)
  match json with
  | JNull => throw (Error "TypeError")
  | _ => mret tt
  end;;
  when (truthy (get "threads" (Some json)))
    (return_errorResponse 500 "Pipeline exited");;
  let response_map := get "response_map" (Some json) in
  let error_list := get "error_list" response_map in
  when (truthy response_map && truthy error_list &&
        match get "message" (first error_list) with
        | Some (JStr "") => true
        | _ => false
        end)
    (return_errorResponse (Response.status response)
       "Server returned empty response error message");;
  when (truthy response_map && truthy error_list &&
        truthy (get "http_status_code" (first error_list)))
    (let nestedError := first error_list in
     let nested_map := get "response_map" nestedError in
     let nested_list := get "error_list" nested_map in
     match get "message" (first nested_list) with
     | Some message =>
         when (truthy nested_map && truthy nested_list && truthy (Some message))
           (return_errorResponse
              (or_value (get "http_status_code" nestedError)
                 (or_value (get "http_status_code" (Some json)) 500))
              message)
     | None => mret tt
     end).

(** Lines 290-404: the upstream call and what is made of its response. *)
Definition proxy (request : Request.t) (targetUrl : Url.URL) (cacheKey : string)
    (env : Env) (upstream : Upstream) : M Response.t :=
  response ← forward request targetUrl env upstream;
  if Response.status response =? 200 then
    store response cacheKey env
  else
    when (String.eqb (Headers.get_or_empty "content-type" (Response.headers response))
                     "application/json")
      (normalize response);;
    mret response.

(** Lines 135-404: the body of [try]. *)
Definition attempt (request : Request.t) (env : Env) (upstream : Upstream) : M Response.t :=
  env ← checkEnv env;
  validate request env;;
  let targetUrl := buildTargetUrl request env in
  let cacheKey := getCacheKey targetUrl request in
  lookup request cacheKey;;
  proxy request targetUrl cacheKey env upstream.

(** Lines 405-433: the body of [catch]. *)
Definition recover (error : Exception) : M Response.t :=
  emit (ConsoleLog error);;
  match String.eqb (message error) "fetch failed", cause error with
  | true, Some c =>
      let is_code c' := match code c with Some k => String.eqb k c' | None => false end in
      if is_code "ENOTFOUND" || is_code "ECONNREFUSED" || is_code "ECONNABORTED" then
        errorResponse 503 "Service Unavailable"
      else if is_code "ETIMEDOUT" || is_code "UND_ERR_CONNECT_TIMEOUT" ||
              is_code "UND_ERR_HEADERS_TIMEOUT" || is_code "ECONNRESET" ||
              is_code "EHOSTUNREACH" || is_code "EAI_AGAIN" then
        errorResponse 504 "Gateway Timeout"
      else errorResponse 502 "Bad Gateway"
  | _, _ => errorResponse 500 "Proxy Error"
  end.

(** What a call of the handler leaves: the response, or the exception
    that escapes it. *)
Definition fetch (request : Request.t) (env : Env) (upstream : Upstream)
    (w : World) : Outcome Response.t * World :=
  match try_catch (attempt request env upstream) recover w with
  | (Returned r, w') => (Value r, w')
  | other => other
  end.

End Worker.

(** ** Vocabulary of the statements *)

Import JsString Json Worker.

(** The response [errorResponse] builds for a status that a response with
    a body may carry. *)
Definition errorEnvelope (status : Z) (message : JSON) : Response.t :=
  Response.mk status ""
    [("content-type", "application/json")]
    (Response.Readable (stringify (envelope status message))
                       (Some (envelope status message)))
    None.

(** [env'] is [env] after the configuration checks and defaults. *)
Definition configured (env env' : Env) : Prop :=
  forall w, checkEnv env w = (Value env', w).

(** The request passes every check of lines 176-256. *)
Definition validated (request : Request.t) (env : Env) : Prop :=
  forall w, validate request env w = (Value tt, w).

(** The key and the upstream request the handler derives. *)
Definition cacheKeyOf (request : Request.t) (env : Env) : string :=
  getCacheKey (buildTargetUrl request env) request.

Definition targetRequestOf (request : Request.t) (env : Env) : Request.t :=
  rewrite request (buildTargetUrl request env).

(** The cache does not answer: the request forces a fresh fetch or its
    key has no entry. *)
Definition misses (request : Request.t) (env : Env) (c : gmap string Response.t) : Prop :=
  wantsFresh request = true \/ c !! cacheKeyOf request env = None.

(** The first event of the cache stage and the cache it leaves. *)
Definition lookupEvent (request : Request.t) (env : Env) : Event :=
  if wantsFresh request
  then CacheDelete (cacheKeyOf request env)
  else CacheMatch (cacheKeyOf request env).

Definition afterLookup (request : Request.t) (env : Env)
    (c : gmap string Response.t) : gmap string Response.t :=
  if wantsFresh request then base.delete (cacheKeyOf request env) c else c.

(** The writes to the cache among some events. *)
Fixpoint puts (evs : list Event) : list (string * Response.t) :=
  match evs with
  | [] => []
  | CachePut k r :: rest => (k, r) :: puts rest
  | _ :: rest => puts rest
  end.

(** The keys handed to the cache among some events. *)
Fixpoint cacheKeys (evs : list Event) : list string :=
  match evs with
  | [] => []
  | CacheDelete k :: rest | CacheMatch k :: rest | CachePut k _ :: rest => k :: cacheKeys rest
  | _ :: rest => cacheKeys rest
  end.

(** The upstream calls among some events. *)
Fixpoint fetches (evs : list Event) : list Request.t :=
  match evs with
  | [] => []
  | UpstreamFetch r :: rest => r :: fetches rest
  | _ :: rest => fetches rest
  end.

(** The cache lookups among some events. *)
Fixpoint lookups (evs : list Event) : list string :=
  match evs with
  | [] => []
  | CacheMatch k :: rest => k :: lookups rest
  | _ :: rest => lookups rest
  end.

(** The call settles after [delay] milliseconds, or never. *)
Definition late (delay : Z) (s : Settled) : Prop :=
  match s with
  | Fulfils ms _ | Rejects ms _ => delay < Z.of_N ms
  | Pending => True
  end.

(** What [fetch] makes of the outcome of the [try] block. *)
Definition conclude (res : Outcome Response.t * World) : Outcome Response.t * World :=
  match (match res with
         | (Thrown e, w') => recover e w'
         | other => other
         end) with
  | (Returned r, w') => (Value r, w')
  | other => other
  end.

(** The media types the specification names, a parameter list after a
    semicolon being ignored. *)
Fixpoint strip (prefix s : string) : option string :=
  match prefix, s with
  | EmptyString, _ => Some s
  | String a p, String b t => if Ascii.eqb a b then strip p t else None
  | String _ _, EmptyString => None
  end.

Fixpoint no_line_terminator (s : string) : bool :=
  match s with
  | EmptyString => true
  | String c t => negb (RegExp.line_terminator c) && no_line_terminator t
  end.

Definition parametersOnly (rest : string) : bool :=
  match rest with
  | EmptyString => true
  | String c params => Ascii.eqb c ";"%char && no_line_terminator params
  end.

Definition isMediaType (base contentType : string) : bool :=
  match strip base contentType with
  | Some rest => parametersOnly rest
  | None => false
  end.

Definition acceptableContentType (contentType : string) : bool :=
  isMediaType "application/x-www-form-urlencoded" contentType ||
  isMediaType "application/json" contentType.

(** A computation that leaves the world as it found it. *)
Definition quiet {A : Type} (m : M A) : Prop := forall w, snd (m w) = w.

(** A computation whose outcome does not depend on the world. *)
Definition oblivious {A : Type} (m : M A) : Prop :=
  forall w1 w2, fst (m w1) = fst (m w2).

(** ** Sample configuration, requests and responses *)

Definition sampleEnv : Env :=
  mkEnv (Some 60) "https" "elastic.snaplogic.com" (Some 443) None None None None.

(** [sampleEnv] after the defaults. *)
Definition sampleEnv' : Env :=
  mkEnv (Some 60) "https" "elastic.snaplogic.com" (Some 443) None
        (Some true) (Some false) (Some 100).

Definition sampleUrl : Url.URL :=
  Url.mkURL "https:" "cache.example.workers.dev" "" "/api/1/rest/feed" "?a=1".

Definition sampleGet : Request.t :=
  Request.mk "GET" sampleUrl
    [("authorization", "Bearer x"); ("accept-encoding", "gzip")] None.

Definition sampleGetFresh : Request.t :=
  Request.mk "GET" sampleUrl
    [("authorization", "Bearer x"); ("cache-control", "No-Cache")] None.

Definition sampleOk : Response.t :=
  Response.mk 200 "OK"
    [("content-type", "text/plain"); ("expires", "Thu, 01 Jan 2026 00:00:00 GMT")]
    (Response.Readable "hello" None) None.

Definition sampleNotFound : Response.t :=
  Response.mk 404 "Not Found"
    [("content-type", "application/json; charset=utf-8")]
    (Response.Readable "{}" (Some (JObj []))) None.

Definition emptyCache : gmap string Response.t := ∅.

(** An upstream document with a [threads] field, and the same with a
    nested error. *)
Definition threadsDoc : JSON := JObj [("threads", JArr [])].

Definition threadsOk : Response.t :=
  Response.mk 200 "OK" [("content-type", "application/json")]
    (Response.Readable (stringify threadsDoc) (Some threadsDoc)) None.

Definition nestedDoc : JSON :=
  JObj [("http_status_code", JNum 400);
        ("response_map",
         JObj [("error_list",
                JArr [JObj [("http_status_code", JNum 404);
                            ("response_map",
                             JObj [("error_list",
                                    JArr [JObj [("message", JStr "Not found")]])])]])])].

Definition nestedThreadsDoc : JSON :=
  match nestedDoc with
  | JObj fields => JObj (fields ++ [("threads", JArr [])])%list
  | other => other
  end.

Definition jsonError (status : Z) (doc : JSON) : Response.t :=
  Response.mk status "" [("content-type", "application/json")]
    (Response.Readable (stringify doc) (Some doc)) None.

(** The key as the specification words it: the hex digest of
    [UPPERCASE(method) | url | body]. *)
Definition deriveKey (url method body : string) : string :=
  Bytes.toHex (Sha256.digest
    (Bytes.encode (toUpperCase method +:+ "|" +:+ url +:+ "|" +:+ body))).

(** [request.arrayBuffer()] as a byte string. *)
Definition bodyBytes (request : Request.t) : string :=
  match Request.body request with
  | Some b => Request.bytes b
  | None => ""
  end.

(** A WebDAV request ([PROPPATCH], RFC 4918) without a body. *)
Definition proppatchRequest : Request.t :=
  Request.mk "PROPPATCH" sampleUrl [("authorization", "Bearer x")] None.

(** The checks of lines 176-188, as conditions on the request. *)
Definition authenticated (request : Request.t) : bool :=
  nonempty (Headers.get_or_empty "authorization" (Request.headers request)) ||
  nonempty (default "" (Url.searchParams_get "bearer_token" (Request.url request))).

Definition secure (request : Request.t) (env : Env) : bool :=
  negb (is_true (requireHTTPS env)) ||
  String.eqb (Url.protocol (Request.url request)) "https:".

(** Requests with a body: no [content-type], [text/plain], and the same
    under a configuration that allows binary data. *)
Definition samplePost (headers : Headers.t) : Request.t :=
  Request.mk "POST" sampleUrl (("authorization", "Bearer x") :: headers)
             (Some (Request.mkBody "a=1" None)).

Definition binaryEnv : Env :=
  mkEnv (Some 60) "https" "elastic.snaplogic.com" (Some 443) None None (Some true) None.

Definition binaryEnv' : Env :=
  mkEnv (Some 60) "https" "elastic.snaplogic.com" (Some 443) None
        (Some true) (Some true) (Some 100).

(** What the pattern of line 209 lets through, and the methods that the
    pattern of line 215 takes to carry a body. *)
Definition letsThrough (m : string) : bool :=
  startsWith m "POST" || includes m "PUT" || includes m "PATCH" ||
  includes m "HEAD" || includes m "GET" || endsWith m "DELETE".

Definition carriesBody (m : string) : bool :=
  String.eqb m "POST" || String.eqb m "PUT" || String.eqb m "PATCH".

(** Requests that fail one check each. *)
Definition anonymousGet : Request.t :=
  Request.mk "GET" sampleUrl [("accept", "application/json")] None.

Definition plainGet : Request.t :=
  Request.mk "GET"
    (Url.mkURL "http:" "cache.example.workers.dev" "" "/api/1/rest/feed" "?a=1")
    [("authorization", "Bearer x")] None.

Definition traceRequest : Request.t :=
  Request.mk "TRACE" sampleUrl [("authorization", "Bearer x")] None.

Definition getWithBody : Request.t :=
  Request.mk "GET" sampleUrl
    [("authorization", "Bearer x"); ("content-type", "application/json")]
    (Some (Request.mkBody "{}" (Some (JObj [])))).

Definition postWithoutBody : Request.t :=
  Request.mk "POST" sampleUrl [("authorization", "Bearer x")] None.

Definition postBrokenJson : Request.t :=
  Request.mk "POST" sampleUrl
    [("authorization", "Bearer x"); ("content-type", "application/json; charset=utf-8")]
    (Some (Request.mkBody "{" None)).

Definition postForm : Request.t :=
  Request.mk "POST" sampleUrl
    [("authorization", "Bearer x");
     ("content-type", "application/x-www-form-urlencoded")]
    (Some (Request.mkBody "a=1&b" None)).

(** A configuration without a target host, and failures of the upstream
    call. *)
Definition hostlessEnv : Env :=
  mkEnv (Some 60) "https" "" (Some 443) None None None None.

Definition fetchFailed (code : string) : Exception :=
  mkException "fetch failed" (Some (mkCause (Some code))).

Definition failing (e : Exception) : Upstream := fun _ => Rejects 10 e.

(** Upstream answers of status 500 with the content type
    [application/json]: a body that is not JSON, the document [null], a
    document without the fields the handler looks for, and an error whose
    message is empty. *)
Definition abortedText : Response.t :=
  Response.mk 500 "" [("content-type", "application/json")]
    (Response.Readable "Pipeline execution failed or was aborted" None) None.

Definition notModified : Response.t :=
  Response.mk 304 "" [("content-type", "application/json")]
    (Response.Readable "" None) None.

Definition plainDoc : JSON := JObj [("detail", JStr "no such feed")].

Definition emptyMessageDoc : JSON :=
  JObj [("response_map", JObj [("error_list", JArr [JObj [("message", JStr "")]])])].

Definition answering (r : Response.t) : Upstream := fun _ => Fulfils 10 r.

(** The request of [sampleGet] again, from another caller: the method in
    lower case, another token, no [accept-encoding]. *)
Definition sampleGetOther : Request.t :=
  Request.mk "get" sampleUrl [("authorization", "Bearer y")] None.



(** ** The control-flow monad *)

Lemma bind_Value {A B : Type} (m : M A) (f : A -> M B) w a w' :
  m w = (Value a, w') -> (m ≫= f) w = f a w'.
Proof. intros H. unfold mbind, M_bind. now rewrite H. Qed.

Lemma bind_Returned {A B : Type} (m : M A) (f : A -> M B) w r w' :
  m w = (Returned r, w') -> (m ≫= f) w = (Returned r, w').
Proof. intros H. unfold mbind, M_bind. now rewrite H. Qed.

Lemma bind_Thrown {A B : Type} (m : M A) (f : A -> M B) w e w' :
  m w = (Thrown e, w') -> (m ≫= f) w = (Thrown e, w').
Proof. intros H. unfold mbind, M_bind. now rewrite H. Qed.

Lemma bind_ret {A B : Type} (a : A) (f : A -> M B) : (mret a ≫= f) = f a.
Proof. reflexivity. Qed.

Lemma quiet_ret {A : Type} (a : A) : quiet (mret a).
Proof. intros w. reflexivity. Qed.

Lemma quiet_return {A : Type} r : quiet (@return_ A r).
Proof. intros w. reflexivity. Qed.

Lemma quiet_throw {A : Type} e : quiet (@throw A e).
Proof. intros w. reflexivity. Qed.

Lemma quiet_bind {A B : Type} (m : M A) (f : A -> M B) :
  quiet m -> (forall a, quiet (f a)) -> quiet (m ≫= f).
Proof.
  intros Hm Hf w. unfold mbind, M_bind.
  specialize (Hm w). destruct (m w) as [[a|r|e] w1]; simpl in *; subst; auto.
  apply Hf.
Qed.

Lemma quiet_when c (m : M unit) : quiet m -> quiet (when c m).
Proof. intros H. destruct c; simpl; auto using quiet_ret. Qed.

Lemma quiet_try_catch {A : Type} (m : M A) h :
  quiet m -> (forall e, quiet (h e)) -> quiet (try_catch m h).
Proof.
  intros Hm Hh w. unfold try_catch.
  specialize (Hm w). destruct (m w) as [[a|r|e] w1]; simpl in *; subst; auto.
  apply Hh.
Qed.

Lemma quiet_new_Response body status statusText headers cf :
  quiet (new_Response body status statusText headers cf).
Proof.
  unfold new_Response. repeat case_match; auto using quiet_ret, quiet_throw.
Qed.

Lemma quiet_errorResponse status_code message : quiet (errorResponse status_code message).
Proof.
  unfold errorResponse. destruct status_code; auto using quiet_throw, quiet_new_Response.
Qed.

Lemma quiet_return_errorResponse {A : Type} status_code message :
  quiet (@return_errorResponse A status_code message).
Proof.
  apply quiet_bind; auto using quiet_errorResponse, quiet_return.
Qed.

Create HintDb quiet.
#[local] Hint Resolve quiet_ret quiet_return quiet_throw quiet_bind quiet_when
  quiet_try_catch quiet_new_Response quiet_errorResponse
  quiet_return_errorResponse : quiet.

Lemma quiet_normalize response : quiet (normalize response).
Proof.
  unfold normalize.
  apply quiet_bind.
  - repeat case_match; auto with quiet.
  - intros json. repeat (apply quiet_bind; [repeat case_match; auto with quiet | intros _]).
    apply quiet_when. repeat case_match; auto with quiet.
Qed.

Lemma quiet_race call delay : quiet (race call delay).
Proof. unfold race. repeat case_match; auto with quiet. Qed.

Lemma oblivious_ret {A : Type} (a : A) : oblivious (mret a).
Proof. intros w1 w2. reflexivity. Qed.

Lemma oblivious_return {A : Type} r : oblivious (@return_ A r).
Proof. intros w1 w2. reflexivity. Qed.

Lemma oblivious_throw {A : Type} e : oblivious (@throw A e).
Proof. intros w1 w2. reflexivity. Qed.

Lemma oblivious_bind {A B : Type} (m : M A) (f : A -> M B) :
  oblivious m -> (forall a, oblivious (f a)) -> oblivious (m ≫= f).
Proof.
  intros Hm Hf w1 w2. unfold mbind, M_bind.
  specialize (Hm w1 w2).
  destruct (m w1) as [[a|r|e] w1'], (m w2) as [[a2|r2|e2] w2'];
    simpl in *; try congruence.
  inversion Hm; subst. apply Hf.
Qed.

Lemma oblivious_when c (m : M unit) : oblivious m -> oblivious (when c m).
Proof. intros H. destruct c; simpl; auto using oblivious_ret. Qed.

Lemma oblivious_try_catch {A : Type} (m : M A) h :
  oblivious m -> (forall e, oblivious (h e)) -> oblivious (try_catch m h).
Proof.
  intros Hm Hh w1 w2. unfold try_catch.
  specialize (Hm w1 w2).
  destruct (m w1) as [[a|r|e] w1'], (m w2) as [[a2|r2|e2] w2'];
    simpl in *; try congruence.
  inversion Hm; subst. apply Hh.
Qed.

Lemma oblivious_emit e : oblivious (emit e).
Proof. intros w1 w2. reflexivity. Qed.

Lemma oblivious_cache_put key r : oblivious (cache_put key r).
Proof. intros w1 w2. reflexivity. Qed.

Lemma oblivious_new_Response body status statusText headers cf :
  oblivious (new_Response body status statusText headers cf).
Proof.
  unfold new_Response. repeat case_match; auto using oblivious_ret, oblivious_throw.
Qed.

Lemma oblivious_errorResponse status_code message :
  oblivious (errorResponse status_code message).
Proof.
  unfold errorResponse.
  destruct status_code; auto using oblivious_throw, oblivious_new_Response.
Qed.

Lemma oblivious_return_errorResponse {A : Type} status_code message :
  oblivious (@return_errorResponse A status_code message).
Proof.
  apply oblivious_bind; auto using oblivious_errorResponse, oblivious_return.
Qed.

Create HintDb oblivious.
#[local] Hint Resolve oblivious_ret oblivious_return oblivious_throw oblivious_bind
  oblivious_when oblivious_try_catch oblivious_emit oblivious_cache_put
  oblivious_new_Response oblivious_errorResponse
  oblivious_return_errorResponse : oblivious.

Lemma oblivious_normalize response : oblivious (normalize response).
Proof.
  unfold normalize.
  apply oblivious_bind.
  - repeat case_match; auto with oblivious.
  - intros json.
    repeat (apply oblivious_bind; [repeat case_match; auto with oblivious | intros _]).
    apply oblivious_when. repeat case_match; auto with oblivious.
Qed.

(** A computation that neither reads nor writes the world gives the same
    outcome everywhere. *)
Lemma settled {A : Type} (m : M A) w0 w :
  quiet m -> oblivious m -> m w = (fst (m w0), w).
Proof.
  intros Hq Ho. specialize (Hq w). specialize (Ho w w0).
  destruct (m w) as [o w']; simpl in *. now subst.
Qed.

(** ** Headers *)

Lemma same_name_refl name : Headers.same_name name name = true.
Proof. apply String.eqb_refl. Qed.

Lemma values_delete_same name h :
  Headers.values name (Headers.delete name h) = [].
Proof.
  unfold Headers.values, Headers.delete.
  induction h as [|[n v] h IH]; simpl; [reflexivity|].
  destruct (Headers.same_name n name) eqn:E; simpl; [exact IH|].
  rewrite E. exact IH.
Qed.

Lemma values_delete_other name other h :
  Headers.same_name name other = false ->
  Headers.values name (Headers.delete other h) = Headers.values name h.
Proof.
  intros Hne. unfold Headers.values, Headers.delete.
  induction h as [|[n v] h IH]; simpl; [reflexivity|].
  destruct (Headers.same_name n other) eqn:Eo; simpl.
  - destruct (Headers.same_name n name) eqn:En; simpl; [|exact IH].
    unfold Headers.same_name in *.
    apply String.eqb_eq in Eo, En. rewrite <- En, Eo in Hne.
    now rewrite String.eqb_refl in Hne.
  - destruct (Headers.same_name n name); simpl; now rewrite IH.
Qed.

Lemma values_absent name h :
  List.existsb (fun e => Headers.same_name (fst e) name) h = false ->
  Headers.values name h = [].
Proof.
  unfold Headers.values.
  induction h as [|[n v] h IH]; simpl; [reflexivity|].
  intros H. apply orb_false_iff in H as [H1 H2]. rewrite H1. auto.
Qed.

Lemma values_set name value h :
  Headers.values name (Headers.set name value h) = [value].
Proof.
  unfold Headers.set.
  destruct (List.existsb _ h) eqn:Ex.
  - induction h as [|[n v] h IH]; simpl in *; [discriminate|].
    destruct (Headers.same_name n name) eqn:E.
    + unfold Headers.values; simpl. rewrite E; simpl.
      f_equal. apply values_delete_same.
    + simpl in Ex. unfold Headers.values in *; simpl. rewrite E. auto.
  - unfold Headers.values. rewrite List.filter_app, List.map_app.
    fold (Headers.values name h). rewrite values_absent by exact Ex.
    simpl. now rewrite same_name_refl.
Qed.

(** The headers of a stored copy. *)
Lemma stored_headers value h :
  Headers.get "cache-control"
    (Headers.delete "expires" (Headers.set "cache-control" value h)) = Some value /\
  Headers.get "expires"
    (Headers.delete "expires" (Headers.set "cache-control" value h)) = None.
Proof.
  unfold Headers.get. split.
  - rewrite values_delete_other by reflexivity. now rewrite values_set.
  - now rewrite values_delete_same.
Qed.

(** ** The stages of the handler *)

Lemma errorResponse_ok (status : Z) (message : JSON) w :
  200 <= status <= 599 -> Response.null_body_status status = false ->
  errorResponse status message w = (Value (errorEnvelope status message), w).
Proof.
  intros Hr Hn. unfold errorResponse, new_Response.
  rewrite Z.mod_small by lia. rewrite Hn.
  replace ((200 <=? status) && (status <=? 599)) with true
    by (symmetry; apply andb_true_iff; split; apply Z.leb_le; lia).
  reflexivity.
Qed.

Lemma return_errorResponse_ok {A : Type} (status : Z) (message : JSON) w :
  200 <= status <= 599 -> Response.null_body_status status = false ->
  @return_errorResponse A status message w = (Returned (errorEnvelope status message), w).
Proof.
  intros Hr Hn. unfold return_errorResponse.
  now rewrite (bind_Value _ _ _ _ _ (errorResponse_ok _ _ _ Hr Hn)).
Qed.

Lemma fetch_conclude request env upstream w :
  fetch request env upstream w = conclude (attempt request env upstream w).
Proof.
  unfold fetch, conclude, try_catch.
  destruct (attempt request env upstream w) as [[r|r|e] w']; reflexivity.
Qed.

Lemma recover_returns e w :
  exists r, recover e w = (Value r, mkWorld (cache w) (events w ++ [ConsoleLog e])%list).
Proof.
  unfold recover. unfold mbind, M_bind, emit; simpl.
  repeat case_match; eexists; reflexivity.
Qed.

Lemma conclude_Thrown e w :
  exists r, conclude (Thrown e, w) =
            (Value r, mkWorld (cache w) (events w ++ [ConsoleLog e])%list).
Proof.
  unfold conclude. destruct (recover_returns e w) as [r ->]. eauto.
Qed.

Lemma oblivious_recover e : oblivious (recover e).
Proof.
  unfold recover. apply oblivious_bind; [apply oblivious_emit|intros _].
  repeat case_match; auto with oblivious.
Qed.

Lemma conclude_oblivious o1 w1 o2 w2 :
  o1 = o2 -> fst (conclude (o1, w1)) = fst (conclude (o2, w2)).
Proof.
  intros <-. unfold conclude. destruct o1 as [r|r|e]; try reflexivity.
  pose proof (oblivious_recover e w1 w2) as H.
  destruct (recover e w1) as [[]], (recover e w2) as [[]]; simpl in *; congruence.
Qed.

(** The handler always answers: no exception escapes it. *)
Lemma fetch_answers request env upstream w :
  exists r, fst (fetch request env upstream w) = Value r.
Proof.
  rewrite fetch_conclude. unfold conclude.
  destruct (attempt request env upstream w) as [[r|r|e] w1]; simpl; eauto.
  destruct (recover_returns e w1) as [r ->]. eauto.
Qed.

Lemma quiet_checkEnv env : quiet (checkEnv env).
Proof.
  unfold checkEnv.
  repeat (apply quiet_bind; [apply quiet_when; auto with quiet|intros _]).
  auto with quiet.
Qed.

Lemma oblivious_checkEnv env : oblivious (checkEnv env).
Proof.
  unfold checkEnv.
  repeat (apply oblivious_bind; [apply oblivious_when; auto with oblivious|intros _]).
  auto with oblivious.
Qed.

Lemma quiet_validate request env : quiet (validate request env).
Proof.
  unfold validate.
  repeat (apply quiet_bind; [apply quiet_when; auto with quiet|intros _]).
  destruct (Request.body request) as [body|]; [|auto with quiet].
  repeat (apply quiet_bind; [apply quiet_when; auto with quiet|intros _]).
  apply quiet_when.
  apply quiet_bind; [auto with quiet|intros _].
  apply quiet_when. destruct (Request.json body); auto with quiet.
Qed.

Lemma oblivious_validate request env : oblivious (validate request env).
Proof.
  unfold validate.
  repeat (apply oblivious_bind; [apply oblivious_when; auto with oblivious|intros _]).
  destruct (Request.body request) as [body|]; [|auto with oblivious].
  repeat (apply oblivious_bind; [apply oblivious_when; auto with oblivious|intros _]).
  apply oblivious_when.
  apply oblivious_bind; [auto with oblivious|intros _].
  apply oblivious_when. destruct (Request.json body); auto with oblivious.
Qed.

(** After the checks, a request that the cache does not answer goes on
    to the upstream. *)
Lemma attempt_miss request env env' upstream c evs :
  configured env env' -> validated request env' -> misses request env' c ->
  attempt request env upstream (mkWorld c evs) =
  proxy request (buildTargetUrl request env') (cacheKeyOf request env') env' upstream
        (mkWorld (afterLookup request env' c) (evs ++ [lookupEvent request env'])%list).
Proof.
  intros Hc Hv Hm. unfold attempt.
  rewrite (bind_Value _ _ _ _ _ (Hc _)).
  rewrite (bind_Value _ _ _ _ _ (Hv _)).
  fold (cacheKeyOf request env').
  unfold lookup, afterLookup, lookupEvent.
  destruct (wantsFresh request) eqn:Hf.
  - reflexivity.
  - destruct Hm as [Hm|Hm]; [congruence|].
    unfold mbind, M_bind, cache_match; simpl. rewrite Hm. reflexivity.
Qed.

(** A cache hit is the answer. *)
Lemma attempt_hit request env env' upstream c evs hit :
  configured env env' -> validated request env' ->
  wantsFresh request = false -> c !! cacheKeyOf request env' = Some hit ->
  attempt request env upstream (mkWorld c evs) =
  (Returned hit, mkWorld c (evs ++ [CacheMatch (cacheKeyOf request env')])%list).
Proof.
  intros Hc Hv Hf Hh. unfold attempt.
  rewrite (bind_Value _ _ _ _ _ (Hc _)).
  rewrite (bind_Value _ _ _ _ _ (Hv _)).
  fold (cacheKeyOf request env').
  unfold lookup. rewrite Hf.
  unfold mbind, M_bind, cache_match; simpl. rewrite Hh. reflexivity.
Qed.

(** A request that a check rejects gets the response of that check and
    touches neither the cache nor the upstream. *)
Lemma fetch_rejected request env env' upstream w r :
  configured env env' -> validate request env' w = (Returned r, w) ->
  fetch request env upstream w = (Value r, w).
Proof.
  intros Hc Hv. rewrite fetch_conclude. unfold attempt.
  rewrite (bind_Value _ _ _ _ _ (Hc _)).
  now rewrite (bind_Returned _ _ _ _ _ Hv).
Qed.

Lemma race_late call delay w :
  late delay call ->
  race call delay w = (Value (errorEnvelope 504 "Gateway Timeout"), w).
Proof.
  unfold late, race. intros Hl.
  destruct call as [ms r|ms e|];
    try (apply Z.leb_gt in Hl; rewrite Hl); reflexivity.
Qed.

Lemma forward_emits request url env upstream w :
  forward request url env upstream w =
  race (upstream (rewrite request url)) (deadline env)
       (mkWorld (cache w) (events w ++ [UpstreamFetch (rewrite request url)])%list).
Proof. reflexivity. Qed.

(** The upstream answers 200 in time: the copy is stored and returned. *)
Lemma proxy_200 request url key env upstream w ms response :
  upstream (rewrite request url) = Fulfils ms response ->
  Z.of_N ms <= deadline env ->
  Response.status response = 200 ->
  proxy request url key env upstream w =
  (Value (storedCopy response env),
   mkWorld (<[key := storedCopy response env]> (cache w))
           (events w ++ [UpstreamFetch (rewrite request url);
                         CachePut key (storedCopy response env)])%list).
Proof.
  intros Hu Ht Hs. unfold proxy, forward, race.
  unfold mbind at 1 2, M_bind, emit; simpl. rewrite Hu.
  apply Z.leb_le in Ht. rewrite Ht. simpl. rewrite Hs. simpl.
  unfold store, new_Response. rewrite Hs. simpl.
  unfold mbind, M_bind, cache_put, storedCopy; simpl.
  rewrite Hs. rewrite <- app_assoc. reflexivity.
Qed.

(** The upstream answers in time with another status: nothing is
    written, whatever the error normalizer makes of the response. *)
Lemma proxy_non200 request url key env upstream w ms response :
  upstream (rewrite request url) = Fulfils ms response ->
  Z.of_N ms <= deadline env ->
  Response.status response <> 200 ->
  proxy request url key env upstream w =
  let w1 := mkWorld (cache w) (events w ++ [UpstreamFetch (rewrite request url)])%list in
  if String.eqb (Headers.get_or_empty "content-type" (Response.headers response))
                "application/json"
  then match fst (normalize response w1) with
       | Value _ => (Value response, w1)
       | Returned r => (Returned r, w1)
       | Thrown e => (Thrown e, w1)
       end
  else (Value response, w1).
Proof.
  intros Hu Ht Hs. unfold proxy, forward, race.
  unfold mbind at 1 2, M_bind, emit; simpl. rewrite Hu.
  apply Z.leb_le in Ht. rewrite Ht. simpl.
  apply Z.eqb_neq in Hs. rewrite Hs.
  destruct (String.eqb _ "application/json"); simpl.
  - unfold mbind, M_bind.
    pose proof (quiet_normalize response
      (mkWorld (cache w) (events w ++ [UpstreamFetch (rewrite request url)])%list)) as Hq.
    destruct (normalize response _) as [[[]|r|e] w2]; simpl in *; subst; reflexivity.
  - reflexivity.
Qed.

(** The timer fires first: the synthetic response goes through the error
    normalizer untouched. *)
Lemma proxy_late request url key env upstream w :
  late (deadline env) (upstream (rewrite request url)) ->
  proxy request url key env upstream w =
  (Value (errorEnvelope 504 "Gateway Timeout"),
   mkWorld (cache w) (events w ++ [UpstreamFetch (rewrite request url)])%list).
Proof.
  intros Hl. unfold proxy.
  erewrite bind_Value by (rewrite forward_emits; apply race_late, Hl).
  reflexivity.
Qed.

(** An upstream failure in time is thrown to the [catch] block. *)
Lemma proxy_rejected request url key env upstream w ms e :
  upstream (rewrite request url) = Rejects ms e ->
  Z.of_N ms <= deadline env ->
  proxy request url key env upstream w =
  (Thrown e, mkWorld (cache w) (events w ++ [UpstreamFetch (rewrite request url)])%list).
Proof.
  intros Hu Ht. unfold proxy.
  erewrite bind_Thrown; [reflexivity|].
  rewrite forward_emits, Hu. unfold race.
  apply Z.leb_le in Ht. now rewrite Ht.
Qed.

Lemma oblivious_proxy request url key env upstream :
  oblivious (proxy request url key env upstream).
Proof.
  unfold proxy. apply oblivious_bind.
  - unfold forward. apply oblivious_bind; [apply oblivious_emit|intros _].
    unfold race. repeat case_match; auto with oblivious.
  - intros response. case_match.
    + unfold store. apply oblivious_bind; [auto with oblivious|intros r].
      apply oblivious_bind; auto with oblivious.
    + apply oblivious_bind; [|auto with oblivious].
      apply oblivious_when, oblivious_normalize.
Qed.

Lemma puts_lookupEvent request env rest :
  puts (lookupEvent request env :: rest) = puts rest.
Proof. unfold lookupEvent. now destruct (wantsFresh request). Qed.

(** What the handler does once the cache stage is over: it calls the
    upstream, and then either does nothing more, or logs an exception, or
    stores the copy of a 200 response that came in time. *)
Lemma proxy_shapes request url key env upstream w :
  exists more,
    events (snd (conclude (proxy request url key env upstream w))) =
      (events w ++ UpstreamFetch (rewrite request url) :: more)%list /\
    ((more = [] /\ cache (snd (conclude (proxy request url key env upstream w))) = cache w) \/
     (exists e, more = [ConsoleLog e] /\
                cache (snd (conclude (proxy request url key env upstream w))) = cache w) \/
     (exists ms response,
        upstream (rewrite request url) = Fulfils ms response /\
        Z.of_N ms <= deadline env /\ Response.status response = 200 /\
        more = [CachePut key (storedCopy response env)] /\
        cache (snd (conclude (proxy request url key env upstream w))) =
          <[key := storedCopy response env]> (cache w))).
Proof.
  destruct (upstream (rewrite request url)) as [ms response|ms e|] eqn:Hu.
  - destruct (Z_le_gt_dec (Z.of_N ms) (deadline env)) as [Ht|Ht].
    + destruct (Z.eq_dec (Response.status response) 200) as [Hs|Hs].
      * rewrite (proxy_200 _ _ _ _ _ _ _ _ Hu Ht Hs).
        eexists; split; [reflexivity|]. right; right.
        exists ms, response. auto.
      * rewrite (proxy_non200 _ _ _ _ _ _ _ _ Hu Ht Hs). cbn zeta.
        destruct (String.eqb _ "application/json");
          [|eexists; split; [reflexivity|auto]].
        destruct (fst (normalize response _)) as [[]|r|e];
          try (eexists; split; [reflexivity|auto]).
        match goal with |- context [conclude (Thrown e, ?w)] =>
          destruct (conclude_Thrown e w) as [r ->] end.
        cbn [snd events cache]. rewrite <- app_assoc.
        eexists; split; [reflexivity|eauto].
    + rewrite proxy_late by (rewrite Hu; simpl; lia).
      eexists; split; [reflexivity|auto].
  - destruct (Z_le_gt_dec (Z.of_N ms) (deadline env)) as [Ht|Ht].
    + rewrite (proxy_rejected _ _ _ _ _ _ _ _ Hu Ht).
      match goal with |- context [conclude (Thrown e, ?w)] =>
        destruct (conclude_Thrown e w) as [r ->] end.
      cbn [snd events cache]. rewrite <- app_assoc.
      eexists; split; [reflexivity|eauto].
    + rewrite proxy_late by (rewrite Hu; simpl; lia).
      eexists; split; [reflexivity|auto].
  - rewrite proxy_late by now rewrite Hu.
    eexists; split; [reflexivity|auto].
Qed.

(** The configuration is accepted, with its defaults filled in, or the
    handler ends before it touches the cache. *)
Lemma checkEnv_cases env :
  (exists env', configured env env') \/
  (forall request upstream w, puts (events (snd (fetch request env upstream w))) =
                              puts (events w)).
Proof.
  destruct (fst (checkEnv env (mkWorld ∅ []))) as [env'|r|e] eqn:E.
  - left. exists env'. intros w.
    rewrite (settled _ (mkWorld ∅ []) w (quiet_checkEnv env) (oblivious_checkEnv env)).
    now rewrite E.
  - right. intros request upstream w. rewrite fetch_conclude. unfold attempt.
    erewrite bind_Returned
      by (rewrite (settled _ (mkWorld ∅ []) w (quiet_checkEnv env) (oblivious_checkEnv env));
          now rewrite E).
    reflexivity.
  - right. intros request upstream w. rewrite fetch_conclude. unfold attempt.
    erewrite bind_Thrown
      by (rewrite (settled _ (mkWorld ∅ []) w (quiet_checkEnv env) (oblivious_checkEnv env));
          now rewrite E).
    destruct (conclude_Thrown e w) as [r ->]. cbn [snd events].
    clear. induction (events w) as [|ev evs IH]; [reflexivity|].
    destruct ev; simpl; now rewrite ?IH.
Qed.

(** The request passes the checks, or the handler ends before it touches
    the cache. *)
Lemma validate_cases request env env' :
  configured env env' ->
  validated request env' \/
  (forall upstream w, puts (events (snd (fetch request env upstream w))) =
                      puts (events w)).
Proof.
  intros Hc.
  destruct (fst (validate request env' (mkWorld ∅ []))) as [[]|r|e] eqn:E.
  - left. intros w.
    rewrite (settled _ (mkWorld ∅ []) w (quiet_validate _ _) (oblivious_validate _ _)).
    now rewrite E.
  - right. intros upstream w. rewrite fetch_conclude. unfold attempt.
    rewrite (bind_Value _ _ _ _ _ (Hc _)).
    erewrite bind_Returned
      by (rewrite (settled _ (mkWorld ∅ []) w (quiet_validate _ _) (oblivious_validate _ _));
          now rewrite E).
    reflexivity.
  - right. intros upstream w. rewrite fetch_conclude. unfold attempt.
    rewrite (bind_Value _ _ _ _ _ (Hc _)).
    erewrite bind_Thrown
      by (rewrite (settled _ (mkWorld ∅ []) w (quiet_validate _ _) (oblivious_validate _ _));
          now rewrite E).
    destruct (conclude_Thrown e w) as [r ->]. cbn [snd events].
    clear. induction (events w) as [|ev evs IH]; [reflexivity|].
    destruct ev; simpl; now rewrite ?IH.
Qed.

(** Whatever the request, the configuration, the upstream and the cache:
    the only thing the handler ever writes to the cache is the copy of an
    upstream response of status 200 that came in time, under the key of
    the request. *)
Lemma only_200_is_stored request env upstream c k r :
  List.In (k, r) (puts (events (snd (fetch request env upstream (mkWorld c []))))) ->
  exists env' ms response,
    configured env env' /\ validated request env' /\
    upstream (targetRequestOf request env') = Fulfils ms response /\
    Z.of_N ms <= deadline env' /\ Response.status response = 200 /\
    k = cacheKeyOf request env' /\ r = storedCopy response env'.
Proof.
  intros Hin.
  destruct (checkEnv_cases env) as [[env' Hc]|Hno];
    [|rewrite Hno in Hin; contradiction].
  destruct (validate_cases request env env' Hc) as [Hv|Hno];
    [|rewrite Hno in Hin; contradiction].
  rewrite fetch_conclude in Hin.
  destruct (wantsFresh request) eqn:Hf;
    [|destruct (c !! cacheKeyOf request env') as [hit|] eqn:Hh].
  2:{ rewrite (attempt_hit _ _ _ _ _ _ _ Hc Hv Hf Hh) in Hin. contradiction. }
  - assert (Hm : misses request env' c) by now left.
    rewrite (attempt_miss _ _ _ _ _ _ Hc Hv Hm) in Hin.
    match type of Hin with context [conclude (proxy ?r ?u ?k ?e ?up ?w)] =>
      destruct (proxy_shapes r u k e up w) as (more & Hev & Hmore) end.
    rewrite Hev in Hin. cbn [events app] in Hin. rewrite puts_lookupEvent in Hin.
    destruct Hmore as [[-> _]|[(e & -> & _)|(ms & response & Hu & Ht & Hs & -> & _)]];
      try contradiction.
    destruct Hin as [[= <- <-]|[]]. exists env', ms, response. auto 10.
  - assert (Hm : misses request env' c) by now right.
    rewrite (attempt_miss _ _ _ _ _ _ Hc Hv Hm) in Hin.
    match type of Hin with context [conclude (proxy ?r ?u ?k ?e ?up ?w)] =>
      destruct (proxy_shapes r u k e up w) as (more & Hev & Hmore) end.
    rewrite Hev in Hin. cbn [events app] in Hin. rewrite puts_lookupEvent in Hin.
    destruct Hmore as [[-> _]|[(e & -> & _)|(ms & response & Hu & Ht & Hs & -> & _)]];
      try contradiction.
    destruct Hin as [[= <- <-]|[]]. exists env', ms, response. auto 10.
Qed.

Lemma deadline_seconds env t :
  requestTimeout env = Some t -> deadline env = (t - 1) * 1000.
Proof. unfold deadline. now intros ->. Qed.

(** After the checks the timeout is at least one second. *)
Lemma configured_timeout env env' :
  configured env env' -> exists t, requestTimeout env' = Some t /\ 1 <= t.
Proof.
  intros Hc. specialize (Hc (mkWorld ∅ [])). unfold checkEnv in Hc.
  unfold mbind, M_bind, when, throw in Hc.
  repeat match type of Hc with
  | context [if ?b then _ else _] => destruct b eqn:?; simpl in Hc; try discriminate
  end.
  inversion Hc; subst; clear Hc. simpl.
  destruct (requestTimeout env) as [[|t|t]|]; simpl in *;
    try discriminate; eexists; split; try reflexivity; lia.
Qed.

(** ** The error normalizer *)

Lemma get_Some_truthy k v x : get k v = Some x -> truthy v = true.
Proof. destruct v as [[]|]; simpl; try discriminate; auto. Qed.

Lemma first_Some_truthy v x : first v = Some x -> truthy v = true.
Proof.
  destruct v as [[| | |s| |]|]; simpl; try discriminate; auto.
  destruct s; [discriminate|reflexivity].
Qed.

(** A truthy [threads] field ends the normalizer with 500. *)
Lemma normalize_threads response text json w :
  Response.body response = Response.Readable text (Some json) ->
  truthy (get "threads" (Some json)) = true ->
  normalize response w = (Returned (errorEnvelope 500 "Pipeline exited"), w).
Proof.
  intros Hb Ht. unfold normalize. rewrite Hb.
  destruct json; try discriminate.
  unfold mbind at 1 2, M_bind; simpl.
  simpl in Ht. rewrite Ht. reflexivity.
Qed.

(** The nested error of [error_list[0]] replaces the outer one. *)
Lemma normalize_nested response text json outer nested n message w :
  Response.body response = Response.Readable text (Some json) ->
  truthy (get "threads" (Some json)) = false ->
  first (get "error_list" (get "response_map" (Some json))) = Some outer ->
  get "message" (Some outer) <> Some (JStr "") ->
  get "http_status_code" (Some outer) = Some (JNum n) ->
  200 <= n <= 599 -> Response.null_body_status n = false ->
  first (get "error_list" (get "response_map" (Some outer))) = Some nested ->
  get "message" (Some nested) = Some message ->
  truthy (Some message) = true ->
  normalize response w = (Returned (errorEnvelope n message), w).
Proof.
  intros Hb Ht Ho Hmsg Hn Hr Hnb Hnested Hm Htm. unfold normalize. rewrite Hb.
  assert (Hj : json <> JNull) by (intros ->; discriminate).
  pose proof (first_Some_truthy _ _ Ho) as Hel.
  assert (Hrm : truthy (get "response_map" (Some json)) = true).
  { destruct (get "error_list" (get "response_map" (Some json))) as [el|] eqn:E;
      [|discriminate]. eapply get_Some_truthy; eauto. }
  pose proof (first_Some_truthy _ _ Hnested) as Hnel.
  assert (Hnrm : truthy (get "response_map" (Some outer)) = true).
  { destruct (get "error_list" (get "response_map" (Some outer))) as [el|] eqn:E;
      [|discriminate]. eapply get_Some_truthy; eauto. }
  assert (Hnz : truthy (Some (JNum n)) = true)
    by (simpl; apply negb_true_iff, Z.eqb_neq; lia).
  unfold mbind at 1, M_bind. cbn [mret M_ret].
  erewrite bind_Value by (destruct json; [congruence|reflexivity..]).
  rewrite Ht. cbn [when].
  erewrite bind_Value by reflexivity.
  rewrite Hrm, Hel, Ho. cbn [andb].
  replace (match get "message" (Some outer) with
           | Some (JStr "") => true | _ => false end) with false.
  2:{ destruct (get "message" (Some outer)) as [[| | |[|]| |]|]; congruence. }
  cbn [when]. erewrite bind_Value by reflexivity.
  rewrite Hn, Hnz. cbn [when].
  rewrite Hnested, Hm, Hnrm, Hnel, Htm. cbn [andb when].
  unfold or_value. rewrite Hnz.
  unfold return_errorResponse.
  erewrite bind_Value by (apply errorResponse_ok; assumption).
  reflexivity.
Qed.

(** ** The cache key *)

Lemma encode_app a b : Bytes.encode (a +:+ b) = (Bytes.encode a ++ Bytes.encode b)%list.
Proof. induction a as [|c a IH]; simpl; [reflexivity|now rewrite IH]. Qed.

Lemma hex_digit_not_question n : (n < 16)%N -> Bytes.hex_digit n <> "?"%char.
Proof.
  intros Hn H. apply (f_equal N_of_ascii) in H. unfold Bytes.hex_digit in H.
  destruct (n <? 10)%N eqn:E.
  - apply N.ltb_lt in E. rewrite N_ascii_embedding in H by lia.
    simpl in H. lia.
  - apply N.ltb_ge in E. rewrite N_ascii_embedding in H by lia.
    simpl in H. lia.
Qed.

(** The hex digest is not empty and does not start with a question
    mark: [url.search = digest] keeps it whole. *)
Lemma set_search_digest msg u :
  Url.set_search (Bytes.toHex (Sha256.digest msg)) u =
  Url.mkURL (Url.protocol u) (Url.hostname u) (Url.port u) (Url.pathname u)
            ("?" +:+ Bytes.toHex (Sha256.digest msg)).
Proof.
  unfold Url.set_search, Sha256.digest.
  set (h := List.fold_left Sha256.compress _ _).
  cbn [List.map List.concat Sha256.be_bytes app Bytes.toHex].
  set (b := (N.shiftr (Sha256.ra h) _ mod 256)%N).
  assert (Hb : (b / 16 < 16)%N).
  { apply N.Div0.div_lt_upper_bound. subst b.
    change (16 * 16)%N with 256%N. apply N.mod_lt. discriminate. }
  pose proof (hex_digit_not_question _ Hb) as Hq.
  destruct (Bytes.hex_digit (b / 16)) as [[] [] [] [] [] [] [] []];
    try reflexivity.
  now contradiction Hq.
Qed.

(** The key is the target URL without its path, with the digest of the
    method, the URL of the inbound request and the body as its query. *)
Lemma getCacheKey_spec target request :
  getCacheKey target request =
  Url.href (Url.mkURL (Url.protocol target) (Url.hostname target) (Url.port target) "/"
              ("?" +:+ deriveKey (Url.href (Request.url request))
                                 (Request.method request) (bodyBytes request))).
Proof.
  unfold getCacheKey, deriveKey, bodyBytes.
  rewrite set_search_digest. cbn [Url.set_pathname Url.protocol Url.hostname Url.port
    Url.pathname startsWith append].
  do 3 f_equal.
  rewrite !encode_app, <- !app_assoc.
  destruct (Request.body request); reflexivity.
Qed.

(** ** The matcher against what a pattern denotes *)

#[local] Arguments String.append !_ _ / : simpl nomatch.

Lemma append_nil_r s : s +:+ "" = s.
Proof. induction s as [|c s IH]; simpl; [reflexivity|now rewrite IH]. Qed.

Lemma append_assoc a b c : (a +:+ b) +:+ c = a +:+ b +:+ c.
Proof. induction a as [|x a IH]; simpl; [reflexivity|now rewrite IH]. Qed.

Lemma append_empty u v : u +:+ v = "" -> u = "" /\ v = "".
Proof. destruct u; simpl; [auto|discriminate]. Qed.

Lemma is_empty_true s : RegExp.is_empty s = true -> s = "".
Proof. destruct s; [reflexivity|discriminate]. Qed.

Section Matcher.
Import RegExp.
Variable icase : bool.

Lemma null_matches b e r : null b e r = true <-> matches icase b e r "".
Proof.
  split.
  - revert b e. induction r; simpl; intros b e H; try discriminate;
      try (subst; constructor; fail).
    + apply andb_true_iff in H as [H1 H2].
      change "" with ("" +:+ ""). constructor; simpl.
      * rewrite andb_true_r. auto.
      * rewrite andb_true_r. auto.
    + apply orb_true_iff in H as [H|H]; [apply M_alt_l|apply M_alt_r]; auto.
  - intros H. remember "" as w eqn:Hw. induction H; simpl; try discriminate; auto.
    + apply append_empty in Hw as [-> ->]. simpl in *.
      rewrite andb_true_r in *. rewrite IHmatches1, IHmatches2; auto.
    + rewrite IHmatches; auto.
    + rewrite IHmatches; auto using orb_true_r.
Qed.

Lemma matches_Void b e w : ~ matches icase b e Void w.
Proof. intros H. inversion H. Qed.

Lemma deriv_matches b e c r w :
  matches icase false e (deriv icase b c r) w <-> matches icase b e r (String c w).
Proof.
  split.
  - revert b e w. induction r; simpl; intros b e w H;
      try (now apply matches_Void in H).
    + destruct (same_char icase c0 c) eqn:E; [|now apply matches_Void in H].
      inversion H; subst. now constructor.
    + destruct (line_terminator c) eqn:E; [now apply matches_Void in H|].
      inversion H; subst. now constructor.
    + assert (Hleft : forall w, matches icase false e (Seq (deriv icase b c r1) r2) w ->
                                matches icase b e (Seq r1 r2) (String c w)).
      { intros w0 H0. inversion H0; subst.
        change (String c (u +:+ v)) with (String c u +:+ v).
        constructor; [apply IHr1; assumption|].
        simpl. rewrite andb_false_r. assumption. }
      destruct (null b false r1) eqn:En; [|auto].
      inversion H; subst; [auto|].
      change (String c w) with ("" +:+ String c w).
      constructor; simpl.
      * rewrite andb_false_r. now apply null_matches.
      * rewrite andb_true_r. now apply IHr2.
    + inversion H; subst; [apply M_alt_l|apply M_alt_r]; auto.
    + inversion H; subst.
      change (String c (u +:+ v)) with (String c u +:+ v).
      constructor; [apply IHr; assumption|assumption].
    + apply M_opt_some. auto.
  - intros H. remember (String c w) as x eqn:Hx. revert c w Hx.
    induction H; intros c0 w0 Hx; simpl; try discriminate.
    + inversion Hx; subst. rewrite H. constructor.
    + inversion Hx; subst. rewrite H. constructor.
    + destruct u as [|c1 u].
      * simpl in Hx. subst v. simpl in *. rewrite andb_false_r in H.
        apply null_matches in H. rewrite H.
        apply M_alt_r. rewrite andb_true_r in IHmatches2. now apply IHmatches2.
      * simpl in Hx. inversion Hx; subst. simpl in *. rewrite andb_false_r in H0.
        assert (Hs : matches icase false e (Seq (deriv icase b c0 r) s) (u +:+ v)).
        { constructor; [now apply IHmatches1|assumption]. }
        destruct (null b false r); [now apply M_alt_l|assumption].
    + apply M_alt_l. auto.
    + apply M_alt_r. auto.
    + simpl in Hx. inversion Hx; subst.
      constructor; [now apply IHmatches1|assumption].
    + auto.
Qed.

(** [match_here] finds a prefix that matches. *)
Lemma match_here_spec b r s :
  match_here icase b r s = true <->
  exists u v, s = u +:+ v /\ matches icase b (is_empty v) r u.
Proof.
  revert b r. induction s as [|c t IH]; intros b r; simpl.
  - rewrite null_matches. split.
    + intros H. exists "", "". auto.
    + intros (u & v & Huv & H). symmetry in Huv.
      apply append_empty in Huv as [-> ->]. exact H.
  - rewrite orb_true_iff, null_matches, IH. split.
    + intros [H|(u & v & -> & H)].
      * exists "", (String c t). auto.
      * exists (String c u), v. split; [reflexivity|]. now apply deriv_matches.
    + intros (u & v & Huv & H). destruct u as [|c1 u]; simpl in Huv.
      * subst v. left. exact H.
      * inversion Huv; subst. right. exists u, v. split; [reflexivity|].
        now apply deriv_matches.
Qed.

(** [match_from] finds a stretch that matches. *)
Lemma match_from_spec b r s :
  match_from icase b r s = true <->
  exists p u v, s = p +:+ u +:+ v /\
                matches icase (b && is_empty p) (is_empty v) r u.
Proof.
  revert b. induction s as [|c t IH]; intros b.
  - cbn [match_from match_here]. rewrite orb_false_r, null_matches. split.
    + intros H. exists "", "", "". simpl. rewrite andb_true_r. auto.
    + intros (p & u & v & Hs & H). symmetry in Hs.
      apply append_empty in Hs as [-> Hs]. apply append_empty in Hs as [-> ->].
      simpl in H. now rewrite andb_true_r in H.
  - change (match_from icase b r (String c t))
      with (match_here icase b r (String c t) || match_from icase false r t).
    rewrite orb_true_iff, match_here_spec, IH. split.
    + intros [(u & v & Hs & H)|(p & u & v & -> & H)].
      * exists "", u, v. simpl. rewrite andb_true_r. auto.
      * exists (String c p), u, v. simpl in H |- *. rewrite andb_false_r. auto.
    + intros (p & u & v & Hs & H). destruct p as [|c1 p]; simpl in *.
      * left. rewrite andb_true_r in H. eauto.
      * inversion Hs; subst. right. rewrite andb_false_r in H.
        exists p, u, v. simpl. auto.
Qed.

End Matcher.

(** [s.match(/r/)] succeeds iff some stretch of [s] matches [r]. *)
Lemma test_spec r s :
  RegExp.test r s = true <->
  exists p u v, s = p +:+ u +:+ v /\
                RegExp.matches false (RegExp.is_empty p) (RegExp.is_empty v) r u.
Proof. unfold RegExp.test. now rewrite match_from_spec. Qed.

(** ** The patterns of the handler, in words *)

Section Patterns.
Import RegExp.

Lemma matches_Bol i b e w : matches i b e Bol w <-> w = "" /\ b = true.
Proof.
  split; [intros H; inversion H; auto|intros [-> ->]; constructor].
Qed.

Lemma matches_Eol i b e w : matches i b e Eol w <-> w = "" /\ e = true.
Proof.
  split; [intros H; inversion H; auto|intros [-> ->]; constructor].
Qed.

Lemma matches_Seq i b e r s w :
  matches i b e (Seq r s) w <->
  exists u v, w = u +:+ v /\ matches i b (e && is_empty v) r u /\
              matches i (b && is_empty u) e s v.
Proof.
  split.
  - intros H. inversion H; subst. eauto.
  - intros (u & v & -> & H1 & H2). now constructor.
Qed.

Lemma matches_Alt i b e r s w :
  matches i b e (Alt r s) w <-> matches i b e r w \/ matches i b e s w.
Proof.
  split.
  - intros H. inversion H; subst; auto.
  - intros [H|H]; [apply M_alt_l|apply M_alt_r]; assumption.
Qed.

Lemma matches_Opt i b e r w :
  matches i b e (Opt r) w <-> w = "" \/ matches i b e r w.
Proof.
  split.
  - intros H. inversion H; subst; auto.
  - intros [->|H]; [apply M_opt_none|apply M_opt_some]; assumption.
Qed.

Lemma matches_Lit b e c w : matches false b e (Lit c) w <-> w = String c "".
Proof.
  split.
  - intros H. inversion H; subst.
    match goal with H1 : same_char false _ _ = true |- _ =>
      simpl in H1; apply Ascii.eqb_eq in H1; now subst end.
  - intros ->. constructor. simpl. apply Ascii.eqb_refl.
Qed.

Lemma matches_lit b e s w : matches false b e (lit s) w <-> w = s.
Proof.
  revert b e w. induction s as [|c t IH]; intros b e w.
  - simpl. split; [intros H; now inversion H|intros ->; constructor].
  - destruct t as [|c' t'].
    + apply matches_Lit.
    + change (lit (String c (String c' t'))) with (Seq (Lit c) (lit (String c' t'))).
      rewrite matches_Seq. split.
      * intros (u & v & -> & Hu & Hv).
        apply matches_Lit in Hu as ->. apply IH in Hv as ->. reflexivity.
      * intros ->. exists (String c ""), (String c' t').
        split; [reflexivity|]. split; [now apply matches_Lit|now apply IH].
Qed.

(** [.*] takes any run of characters without a line terminator. *)
Lemma matches_Star_Dot b e w :
  matches false b e (Star Dot) w <-> no_line_terminator w = true.
Proof.
  split.
  - intros H. remember (Star Dot) as r eqn:Hr.
    induction H; try discriminate; inversion Hr; subst; [reflexivity|].
    inversion H; subst. simpl.
    match goal with H1 : line_terminator _ = false |- _ => rewrite H1 end.
    simpl. auto.
  - revert b. induction w as [|c t IH]; intros b H; [constructor|].
    simpl in H. apply andb_true_iff in H as [Hc Ht].
    change (String c t) with (String c "" +:+ t).
    constructor; [|now apply IH].
    constructor. now apply negb_true_iff.
Qed.

Lemma strip_Some prefix s rest : strip prefix s = Some rest <-> s = prefix +:+ rest.
Proof.
  revert s. induction prefix as [|a p IH]; intros s; simpl.
  - split; [now intros [= ->]|now intros ->].
  - destruct s as [|b t]; [split; discriminate|].
    destruct (Ascii.eqb a b) eqn:E.
    + apply Ascii.eqb_eq in E. subst b. rewrite IH.
      split; [now intros ->|now intros [= ->]].
    + split; [discriminate|]. intros [= -> _].
      now rewrite Ascii.eqb_refl in E.
Qed.

Lemma parametersOnly_spec rest :
  parametersOnly rest = true <->
  rest = "" \/ exists params, rest = String ";" params /\ no_line_terminator params = true.
Proof.
  destruct rest as [|c params]; simpl.
  - split; auto.
  - rewrite andb_true_iff, Ascii.eqb_eq. split.
    + intros [-> H]. right. eauto.
    + intros [H|(q & [= -> ->] & H)]; [discriminate|auto].
Qed.

(** The optional parameter group followed by the end of the input. *)
Lemma matches_parameters b e w :
  matches false b e (Seq (Opt (Seq (Lit ";") (Star Dot))) Eol) w <->
  e = true /\ parametersOnly w = true.
Proof.
  rewrite parametersOnly_spec. split.
  - intros H.
    apply matches_Seq in H as (u & v & -> & Hu & Hv).
    apply matches_Eol in Hv as [-> He]. rewrite append_nil_r.
    split; [exact He|].
    apply matches_Opt in Hu as [->|Hu]; [now left|right].
    apply matches_Seq in Hu as (u1 & v1 & -> & Hu1 & Hv1).
    apply matches_Lit in Hu1 as ->. apply matches_Star_Dot in Hv1.
    simpl. eauto.
  - intros [-> Hw].
    apply matches_Seq. exists w, "". rewrite append_nil_r.
    split; [reflexivity|]. split; [|now apply matches_Eol].
    apply matches_Opt. destruct Hw as [->|(params & -> & Hp)]; [now left|right].
    apply matches_Seq. exists (String ";" ""), params.
    split; [reflexivity|]. split; [now apply matches_Lit|].
    now apply matches_Star_Dot.
Qed.

(** The pattern of line 228 accepts exactly the two media types, each
    alone or followed by a semicolon and parameters. *)
Lemma contentTypePattern_spec contentType :
  test contentTypePattern contentType = acceptableContentType contentType.
Proof.
  apply eq_true_iff_eq. rewrite test_spec. unfold acceptableContentType, contentTypePattern.
  rewrite orb_true_iff. unfold isMediaType. split.
  - intros (p & u & v & -> & H).
    apply matches_Seq in H as (u0 & w0 & -> & H0 & H).
    apply matches_Bol in H0 as [-> Hp]. apply is_empty_true in Hp as ->.
    apply matches_Seq in H as (u1 & w1 & -> & H1 & H).
    apply matches_lit in H1 as ->.
    apply matches_Seq in H as (u2 & w2 & -> & H2 & H).
    apply matches_parameters in H as [Hv Hw].
    apply is_empty_true in Hv as ->.
    apply matches_Alt in H2 as [H2|H2]; apply matches_lit in H2 as ->;
      [left|right]; simpl; rewrite append_nil_r; exact Hw.
  - assert (Hbase : forall base rest,
      (base = "x-www-form-urlencoded" \/ base = "json") ->
      parametersOnly rest = true ->
      exists p u v, "application/" +:+ base +:+ rest = p +:+ u +:+ v /\
        matches false (is_empty p) (is_empty v)
          (Seq Bol
             (Seq (lit "application/")
                (Seq (Alt (lit "x-www-form-urlencoded") (lit "json"))
                   (Seq (Opt (Seq (Lit ";") (Star Dot))) Eol))))
          u).
    { intros base rest Hb Hr.
      exists "", ("application/" +:+ base +:+ rest), "".
      split; [now rewrite append_nil_r|].
      apply matches_Seq. exists "", ("application/" +:+ base +:+ rest).
      split; [reflexivity|]. split; [now apply matches_Bol|].
      apply matches_Seq. exists "application/", (base +:+ rest).
      split; [reflexivity|]. split; [now apply matches_lit|].
      apply matches_Seq. exists base, rest.
      split; [reflexivity|]. split.
      - apply matches_Alt. destruct Hb as [-> | ->]; [left|right]; now apply matches_lit.
      - apply matches_parameters. auto. }
    intros [H|H];
      (destruct (strip _ contentType) as [rest|] eqn:E; [|discriminate]);
      apply strip_Some in E as ->.
    + apply (Hbase "x-www-form-urlencoded" rest); auto.
    + apply (Hbase "json" rest); auto.
Qed.

End Patterns.

Section MethodPatterns.
Import RegExp.

Lemma startsWith_spec s n : startsWith s n = true <-> exists v, s = n +:+ v.
Proof.
  revert s. induction n as [|a n IH]; intros s; simpl.
  - destruct s; split; eauto.
  - destruct s as [|b t]; simpl.
    + split; [discriminate|]. intros (v & H). discriminate.
    + rewrite andb_true_iff, Ascii.eqb_eq, IH. split.
      * intros [-> (v & ->)]. eauto.
      * intros (v & [= -> ->]). eauto.
Qed.

Lemma includes_spec s n : includes s n = true <-> exists p v, s = p +:+ n +:+ v.
Proof.
  induction s as [|c t IH].
  - cbn [includes]. rewrite orb_false_r, startsWith_spec. split.
    + intros (v & ->). exists "", v. reflexivity.
    + intros (p & v & H). symmetry in H. apply append_empty in H as [-> H].
      exists v. now rewrite H.
  - change (includes (String c t) n)
      with (startsWith (String c t) n || includes t n).
    rewrite orb_true_iff, startsWith_spec, IH. split.
    + intros [(v & ->)|(p & v & ->)]; [exists "", v|exists (String c p), v]; reflexivity.
    + intros (p & v & H). destruct p as [|c1 p]; simpl in H.
      * left. eauto.
      * inversion H; subst. right. eauto.
Qed.

Lemma endsWith_spec s n : endsWith s n = true <-> exists p, s = p +:+ n.
Proof.
  induction s as [|c t IH].
  - cbn [endsWith]. rewrite orb_false_r, String.eqb_eq. split.
    + intros <-. exists "". reflexivity.
    + intros (p & H). symmetry in H. now apply append_empty in H as [_ ->].
  - change (endsWith (String c t) n)
      with (String.eqb (String c t) n || endsWith t n).
    rewrite orb_true_iff, String.eqb_eq, IH. split.
    + intros [<-|(p & ->)]; [exists ""|exists (String c p)]; reflexivity.
    + intros (p & H). destruct p as [|c1 p]; simpl in H.
      * left. auto.
      * inversion H; subst. right. eauto.
Qed.

(** The pattern of line 215 accepts the three methods and no other. *)
Lemma bodyMethodPattern_spec m :
  test bodyMethodPattern m =
  String.eqb m "POST" || String.eqb m "PUT" || String.eqb m "PATCH".
Proof.
  apply eq_true_iff_eq. rewrite test_spec, !orb_true_iff, !String.eqb_eq.
  unfold bodyMethodPattern. split.
  - intros (p & u & v & -> & H).
    apply matches_Seq in H as (u0 & w0 & -> & H0 & H).
    apply matches_Bol in H0 as [-> Hp]. apply is_empty_true in Hp as ->.
    apply matches_Seq in H as (u1 & w1 & -> & H1 & H).
    apply matches_Eol in H as [-> Hv]. apply is_empty_true in Hv as ->.
    simpl. rewrite !append_nil_r.
    apply matches_Alt in H1 as [H1|H1]; [|apply matches_Alt in H1 as [H1|H1]];
      apply matches_lit in H1 as ->; auto.
  - intros Hm. exists "", m, "". split; [now rewrite append_nil_r|].
    apply matches_Seq. exists "", m. split; [reflexivity|].
    split; [now apply matches_Bol|].
    apply matches_Seq. exists m, "". split; [now rewrite append_nil_r|].
    split; [|now apply matches_Eol].
    rewrite !matches_Alt, !matches_lit. tauto.
Qed.

(** The pattern of line 209 accepts every method that starts with POST,
    holds PUT, PATCH, HEAD or GET anywhere, or ends with DELETE. *)
Lemma methodPattern_spec m :
  test methodPattern m =
  startsWith m "POST" || includes m "PUT" || includes m "PATCH" ||
  includes m "HEAD" || includes m "GET" || endsWith m "DELETE".
Proof.
  apply eq_true_iff_eq.
  rewrite test_spec, !orb_true_iff, startsWith_spec, !includes_spec, endsWith_spec.
  unfold methodPattern. split.
  - intros (p & u & v & -> & H).
    repeat (apply matches_Alt in H as [H|H]).
    + apply matches_Seq in H as (u0 & w0 & -> & H0 & H).
      apply matches_Bol in H0 as [-> Hp]. apply is_empty_true in Hp as ->.
      apply matches_lit in H as ->. do 5 left. eauto.
    + apply matches_lit in H as ->. do 4 left. right. eauto.
    + apply matches_lit in H as ->. do 3 left. right. eauto.
    + apply matches_lit in H as ->. do 2 left. right. eauto.
    + apply matches_lit in H as ->. left. right. eauto.
    + apply matches_Seq in H as (u0 & w0 & -> & H0 & H).
      apply matches_Eol in H as [-> Hv]. apply is_empty_true in Hv as ->.
      apply matches_lit in H0 as ->. right. exists p. reflexivity.
  - intros [[[[[(v & ->)|(p & v & ->)]|(p & v & ->)]|(p & v & ->)]|(p & v & ->)]|(p & ->)].
    + exists "", "POST", v. split; [reflexivity|].
      apply matches_Alt. left. apply matches_Seq. exists "", "POST".
      split; [reflexivity|]. split; [now apply matches_Bol|now apply matches_lit].
    + exists p, "PUT", v. split; [reflexivity|].
      rewrite !matches_Alt, !matches_lit. tauto.
    + exists p, "PATCH", v. split; [reflexivity|].
      rewrite !matches_Alt, !matches_lit. tauto.
    + exists p, "HEAD", v. split; [reflexivity|].
      rewrite !matches_Alt, !matches_lit. tauto.
    + exists p, "GET", v. split; [reflexivity|].
      rewrite !matches_Alt, !matches_lit. tauto.
    + exists p, "DELETE", "". split; [reflexivity|].
      do 5 (apply matches_Alt; right).
      apply matches_Seq. exists "DELETE", "".
      split; [reflexivity|]. split; [now apply matches_lit|now apply matches_Eol].
Qed.

(** A letter of a pattern under the [i] flag takes both cases. *)
Lemma matches_Lit_i b e c w :
  List.In c ["h"; "t"; "p"; "s"]%char ->
  matches true b e (Lit c) w <->
  exists d, w = String d "" /\ lower_ascii d = c.
Proof.
  intros Hc. split.
  - intros H. inversion H; subst. eexists. split; [reflexivity|].
    match goal with H1 : same_char true _ _ = true |- _ =>
      unfold same_char in H1; apply Ascii.eqb_eq in H1; rename H1 into Hu end.
    simpl in Hc.
    destruct Hc as [<-|[<-|[<-|[<-|[]]]]];
      destruct d as [[] [] [] [] [] [] [] []]; vm_compute in Hu |- *;
      congruence.
  - intros (d & -> & <-). constructor. unfold same_char. apply Ascii.eqb_eq.
    simpl in Hc.
    destruct Hc as [Hc|[Hc|[Hc|[Hc|[]]]]];
      destruct d as [[] [] [] [] [] [] [] []]; vm_compute in Hc |- *;
      congruence.
Qed.

(** The pattern of line 155 accepts [http] and [https] in any case. *)
Lemma protocolPattern_spec protocol :
  test_i protocolPattern protocol =
  String.eqb (toLowerCase protocol) "http" || String.eqb (toLowerCase protocol) "https".
Proof.
  apply eq_true_iff_eq. unfold test_i.
  rewrite match_from_spec, orb_true_iff, !String.eqb_eq.
  unfold protocolPattern.
  change (lit "http") with (Seq (Lit "h") (Seq (Lit "t") (Seq (Lit "t") (Lit "p")))).
  split.
  - intros (p & u & v & -> & H).
    apply matches_Seq in H as (u0 & w0 & -> & H0 & H).
    apply matches_Bol in H0 as [-> Hp]. simpl in Hp. apply is_empty_true in Hp as ->.
    apply matches_Seq in H as (u1 & w1 & -> & H1 & H).
    apply matches_Seq in H as (u2 & w2 & -> & H2 & H).
    apply matches_Eol in H as [-> Hv]. apply is_empty_true in Hv as ->.
    apply matches_Seq in H1 as (a1 & x1 & -> & Ha1 & H1).
    apply matches_Seq in H1 as (a2 & x2 & -> & Ha2 & H1).
    apply matches_Seq in H1 as (a3 & x3 & -> & Ha3 & Ha4).
    apply matches_Lit_i in Ha1 as (d1 & -> & E1); [|simpl; tauto].
    apply matches_Lit_i in Ha2 as (d2 & -> & E2); [|simpl; tauto].
    apply matches_Lit_i in Ha3 as (d3 & -> & E3); [|simpl; tauto].
    apply matches_Lit_i in Ha4 as (d4 & -> & E4); [|simpl; tauto].
    apply matches_Opt in H2 as [->|H2].
    + left. simpl. now rewrite E1, E2, E3, E4.
    + apply matches_Lit_i in H2 as (d5 & -> & E5); [|simpl; tauto].
      right. simpl. now rewrite E1, E2, E3, E4, E5.
  - assert (Hlit : forall c d b e, List.In c ["h"; "t"; "p"; "s"]%char ->
              lower_ascii d = c -> matches true b e (Lit c) (String d ""))
      by (intros c d b e Hc Hd; apply matches_Lit_i; eauto).
    assert (Hhttp : forall d1 d2 d3 d4 rest,
      lower_ascii d1 = "h"%char -> lower_ascii d2 = "t"%char ->
      lower_ascii d3 = "t"%char -> lower_ascii d4 = "p"%char ->
      matches true true true (Opt (Lit "s")) rest ->
      exists p u v,
        String d1 (String d2 (String d3 (String d4 rest))) = p +:+ u +:+ v /\
        matches true (true && is_empty p) (is_empty v)
          (Seq Bol
             (Seq (Seq (Lit "h") (Seq (Lit "t") (Seq (Lit "t") (Lit "p"))))
                (Seq (Opt (Lit "s")) Eol))) u).
    { intros d1 d2 d3 d4 rest E1 E2 E3 E4 Hrest.
      exists "", (String d1 (String d2 (String d3 (String d4 rest)))), "".
      split; [now rewrite append_nil_r|].
      apply matches_Seq. exists "", (String d1 (String d2 (String d3 (String d4 rest)))).
      split; [reflexivity|]. split; [now apply matches_Bol|].
      apply matches_Seq. exists (String d1 (String d2 (String d3 (String d4 "")))), rest.
      split; [reflexivity|]. split.
      - apply matches_Seq. exists (String d1 ""), (String d2 (String d3 (String d4 ""))).
        split; [reflexivity|]. split; [apply Hlit; simpl; auto|].
        apply matches_Seq. exists (String d2 ""), (String d3 (String d4 "")).
        split; [reflexivity|]. split; [apply Hlit; simpl; auto|].
        apply matches_Seq. exists (String d3 ""), (String d4 "").
        split; [reflexivity|]. split; apply Hlit; simpl; auto.
      - apply matches_Seq. exists rest, "".
        split; [now rewrite append_nil_r|]. split; [|now apply matches_Eol].
        simpl.
        destruct rest; simpl; [apply M_opt_none|].
        apply matches_Opt in Hrest as [Hrest|Hrest]; [discriminate|].
        apply matches_Opt. right.
        apply matches_Lit_i in Hrest as (d & Hd & E); [|simpl; tauto].
        apply matches_Lit_i; [simpl; tauto|]. eauto. }
    intros [H|H].
    + destruct protocol as [|d1 [|d2 [|d3 [|d4 [|d5 rest]]]]]; try discriminate.
      simpl in H. injection H as E1 E2 E3 E4.
      apply Hhttp; auto. apply M_opt_none.
    + destruct protocol as [|d1 [|d2 [|d3 [|d4 [|d5 [|d6 rest]]]]]]; try discriminate.
      simpl in H. injection H as E1 E2 E3 E4 E5.
      apply Hhttp; auto. apply matches_Opt. right.
      apply matches_Lit_i; [simpl; tauto|]. eauto.
Qed.

End MethodPatterns.

(** The six methods of the allow-list pass the check of line 209. *)
Lemma allowed_methods_pass m :
  List.In (toUpperCase m) ["GET"; "HEAD"; "POST"; "PUT"; "PATCH"; "DELETE"] ->
  RegExp.test methodPattern (toUpperCase m) = true.
Proof.
  simpl. intros [<-|[<-|[<-|[<-|[<-|[<-|[]]]]]]]; reflexivity.
Qed.

(** What is left of [validate] for an authenticated request over an
    accepted transport that carries a body under POST, PUT or PATCH. *)
Lemma validate_with_body request env body :
  authenticated request = true -> secure request env = true ->
  List.In (toUpperCase (Request.method request)) ["POST"; "PUT"; "PATCH"] ->
  Request.body request = Some body ->
  validate request env =
  (let contentType := Headers.get_or_empty "content-type" (Request.headers request) in
   when (negb (nonempty contentType))
     (return_errorResponse 406 "Content-Type is required for request type");;
   when (negb (is_true (allowBinaryData env)))
     (when (negb (RegExp.test contentTypePattern contentType))
        (return_errorResponse 406 "Content-Type not acceptable for request type");;
      when (startsWith contentType "application/json")
        (match Request.json body with
         | Some _ => mret tt
         | None => return_errorResponse 400 "JSON body not valid"
         end))).
Proof.
  intros Ha Hs Hm Hb. unfold validate.
  unfold authenticated in Ha. apply orb_true_iff in Ha.
  replace (negb (nonempty (Headers.get_or_empty "authorization" (Request.headers request))) &&
           negb (nonempty (default "" (Url.searchParams_get "bearer_token" (Request.url request)))))
    with false by (destruct Ha as [-> | ->]; simpl; auto using andb_false_r).
  unfold secure in Hs. apply orb_true_iff in Hs.
  replace (is_true (requireHTTPS env) &&
           negb (String.eqb (Url.protocol (Request.url request)) "https:"))
    with false
    by (destruct Hs as [Hs|Hs];
        [apply negb_true_iff in Hs; now rewrite Hs|rewrite Hs; auto using andb_false_r]).
  assert (H1 : RegExp.test methodPattern (toUpperCase (Request.method request)) = true)
    by (simpl in Hm; destruct Hm as [<-|[<-|[<-|[]]]]; reflexivity).
  assert (H2 : RegExp.test bodyMethodPattern (toUpperCase (Request.method request)) = true)
    by (simpl in Hm; destruct Hm as [<-|[<-|[<-|[]]]]; reflexivity).
  rewrite H1, H2, Hb. reflexivity.
Qed.

(** ** The configuration *)

(** The configurations that pass the checks, and what the defaults make
    of them. *)
Lemma configured_iff env env' :
  configured env env' <->
  targetHostname env <> "" /\
  (forall p, targetPort env = Some p -> 0 <= p <= 65535) /\
  (toLowerCase (targetProtocol env) = "http" \/
   toLowerCase (targetProtocol env) = "https") /\
  (exists n, ttl env = Some n /\ 0 < n) /\
  (forall t, requestTimeout env = Some t -> 0 <= t) /\
  env' = mkEnv (ttl env) (targetProtocol env) (targetHostname env)
               (targetPort env) (targetPathPrefix env)
               (Some (default true (requireHTTPS env)))
               (Some (default false (allowBinaryData env)))
               (Some (match requestTimeout env with
                      | Some 0 | None => 100
                      | Some t => t
                      end)).
Proof.
  unfold configured, checkEnv. rewrite protocolPattern_spec.
  unfold mbind, M_bind, when, throw, mret, M_ret.
  destruct env as [ttl0 proto host port0 prefix https binary timeout]; simpl.
  assert (Hhost : negb (nonempty host) = false <-> host <> "")
    by (destruct host; simpl; split; congruence).
  assert (Hport : num_lt port0 0 || num_gt port0 65535 = false <->
                  forall p, port0 = Some p -> 0 <= p <= 65535).
  { destruct port0 as [p|]; simpl.
    - rewrite orb_false_iff, !Z.ltb_ge. split.
      + intros [H1 H2] q [= <-]. lia.
      + intros H. specialize (H p eq_refl). lia.
    - split; [discriminate|reflexivity]. }
  assert (Hproto : negb (String.eqb (toLowerCase proto) "http" ||
                         String.eqb (toLowerCase proto) "https") = false <->
                   toLowerCase proto = "http" \/ toLowerCase proto = "https")
    by (rewrite negb_false_iff, orb_true_iff, !String.eqb_eq; tauto).
  assert (Httl : num_falsy ttl0 || num_le ttl0 0 = false <->
                 exists n, ttl0 = Some n /\ 0 < n).
  { destruct ttl0 as [n|]; simpl.
    - rewrite orb_false_iff, Z.eqb_neq, Z.leb_gt. split.
      + intros [_ H]. eauto.
      + intros (m & [= <-] & H). lia.
    - split; [discriminate|]. intros (n & H & _). discriminate. }
  assert (Htime : num_lt timeout 0 = false <->
                  forall t, timeout = Some t -> 0 <= t).
  { destruct timeout as [t|]; simpl.
    - rewrite Z.ltb_ge. split.
      + intros H q [= <-]. exact H.
      + intros H. now apply H.
    - split; [discriminate|reflexivity]. }
  rewrite <- Hhost, <- Hport, <- Hproto, <- Httl, <- Htime.
  split.
  - intros H. specialize (H (mkWorld ∅ [])).
    repeat match type of H with
    | context [if ?b then _ else _] => destruct b; simpl in H; try discriminate
    end.
    injection H as <-. repeat split.
    destruct https, binary, timeout as [[| |]|]; reflexivity.
  - intros (-> & -> & -> & -> & -> & ->) w. simpl.
    destruct https, binary, timeout as [[| |]|]; reflexivity.
Qed.


(** ** Checks of the platform model *)

Example digest_abc :
  Bytes.toHex (Sha256.digest (Bytes.encode "abc")) =
  "ba7816bf8f01cfea414140de5dae2223b00361a396177a9cb410ff61f20015ad".
Proof. vm_compute. reflexivity. Qed.

Example digest_empty :
  Bytes.toHex (Sha256.digest []) =
  "e3b0c44298fc1c149afbf4c8996fb92427ae41e4649b934ca495991b7852b855".
Proof. vm_compute. reflexivity. Qed.

Example digest_two_blocks :
  Bytes.toHex (Sha256.digest
    (Bytes.encode "abcdbcdecdefdefgefghfghighijhijkijkljklmklmnlmnomnopnopq")) =
  "248d6a61d20638b8e5c026930c3e6039a33ce45964ff2167f6ecedd419db06c1".
Proof. vm_compute. reflexivity. Qed.

Example bearer_token_decoded :
  Url.searchParams_get "bearer_token"
    (Url.mkURL "https:" "h" "" "/" "?a=1&bearer%5Ftoken=x+y") = Some "x y".
Proof. reflexivity. Qed.

Example repeated_header_joined :
  Headers.get "Cache-Control" [("cache-control", "no-store"); ("x", "y");
                               ("cache-control", "no-cache")] =
  Some "no-store, no-cache".
Proof. reflexivity. Qed.

Example default_port_dropped :
  Url.href (Url.set_port (Some 443)
              (Url.set_protocol "HTTPS" (Url.mkURL "http:" "h" "8080" "/p" "?q"))) =
  "https://h/p?q".
Proof. reflexivity. Qed.

Example anchors_are_zero_width :
  RegExp.test (RegExp.Seq RegExp.Bol (RegExp.Seq RegExp.Bol (RegExp.lit "a"))) "ab" = true /\
  RegExp.test (RegExp.Seq (RegExp.lit "a") RegExp.Eol) "ab" = false.
Proof. split; reflexivity. Qed.

(** ** The properties of the specification *)

(** C1, as the handler has it: every key handed to the cache for a
    validated request is the target URL (configured protocol, host and
    port) with the path removed and, as its query, the hex SHA-256 digest
    of [UPPERCASE(method) | URL of the inbound request | body]. *)
Theorem C1_cache_key_is_target_origin_with_digest request env env' upstream c :
  configured env env' -> validated request env' ->
  let target := buildTargetUrl request env' in
  let key :=
    Url.href (Url.mkURL (Url.protocol target) (Url.hostname target) (Url.port target) "/"
                ("?" +:+ deriveKey (Url.href (Request.url request))
                                   (Request.method request) (bodyBytes request))) in
  let evs := events (snd (fetch request env upstream (mkWorld c []))) in
  List.head (cacheKeys evs) = Some key /\ forall k, List.In k (cacheKeys evs) -> k = key.
Proof.
  intros Hc Hv target key evs. subst evs.
  assert (Hk : cacheKeyOf request env' = key) by apply getCacheKey_spec.
  rewrite fetch_conclude.
  assert (Hmiss : misses request env' c ->
    let evs := events (snd (conclude (attempt request env upstream (mkWorld c [])))) in
    List.head (cacheKeys evs) = Some key /\ forall k, List.In k (cacheKeys evs) -> k = key).
  { intros Hm. rewrite (attempt_miss _ _ _ _ _ _ Hc Hv Hm). cbn zeta.
    match goal with |- context [conclude (proxy ?r ?u ?k ?e ?up ?w)] =>
      destruct (proxy_shapes r u k e up w) as (more & -> & Hmore) end.
    unfold lookupEvent. rewrite Hk in Hmore |- *.
    destruct (wantsFresh request); cbn [events app cacheKeys List.head];
      (split; [reflexivity|]);
      intros k Hin;
      destruct Hmore as [[-> _]|[(e & -> & _)|(ms & response & _ & _ & _ & -> & _)]];
      cbn [cacheKeys] in Hin; simpl in Hin; intuition congruence. }
  destruct (wantsFresh request) eqn:Hf; [apply Hmiss; now left|].
  destruct (c !! cacheKeyOf request env') as [hit|] eqn:Hh; [|apply Hmiss; now right].
  rewrite (attempt_hit _ _ _ _ _ _ _ Hc Hv Hf Hh).
  cbn [conclude snd events app cacheKeys List.head]. rewrite Hk.
  split; [reflexivity|]. intros k [Hin|[]]. congruence.
Qed.

Lemma C1_cache_key_is_target_origin_with_digest_witness :
  List.head (cacheKeys (events (snd (fetch sampleGet sampleEnv (fun _ => Fulfils 10 sampleOk)
                                        (mkWorld emptyCache []))))) =
  Some ("https://elastic.snaplogic.com/?" +:+
        deriveKey "https://cache.example.workers.dev/api/1/rest/feed?a=1" "GET" "").
Proof.
  apply (C1_cache_key_is_target_origin_with_digest sampleGet sampleEnv sampleEnv'
           (fun _ => Fulfils 10 sampleOk) emptyCache);
    [intros w; reflexivity | intros w; reflexivity].
Defined.

(** C1, against the key of the specification: the key of [sampleGet] is a
    URL, not a bare digest, and its digest is taken over the URL of the
    inbound request, not over the rewritten target URL. *)
Lemma C1_counterexample :
  validated sampleGet sampleEnv' /\
  Url.href (buildTargetUrl sampleGet sampleEnv') =
    "https://elastic.snaplogic.com/api/1/rest/feed?a=1" /\
  deriveKey (Url.href (buildTargetUrl sampleGet sampleEnv')) "GET" "" =
    "15621100e0e13634f9a1f92388d2247468c056781ea63aec142668d6d28a6284" /\
  cacheKeys (events (snd (fetch sampleGet sampleEnv (fun _ => Fulfils 10 sampleOk)
                            (mkWorld emptyCache [])))) =
    ["https://elastic.snaplogic.com/?226fc8801a7d4b35026ea4303e1665bd8914fcff95e3033494b0f1bf8038079c";
     "https://elastic.snaplogic.com/?226fc8801a7d4b35026ea4303e1665bd8914fcff95e3033494b0f1bf8038079c"].
Proof.
  split; [intros w; reflexivity|]. repeat split; vm_compute; reflexivity.
Qed.

(** C2: once the upstream has answered, the handler writes to the cache
    if and only if the status is exactly 200: with status 200 the one
    write is the copy under the derived key, with any other status (4xx,
    500, 502, 503, 504, ...) there is no write and the cache is as the
    lookup stage left it. *)
Theorem C2_stored_iff_status_200 request env env' upstream c ms response :
  configured env env' -> validated request env' -> misses request env' c ->
  upstream (targetRequestOf request env') = Fulfils ms response ->
  Z.of_N ms <= deadline env' ->
  let w' := snd (fetch request env upstream (mkWorld c [])) in
  (puts (events w') <> [] <-> Response.status response = 200) /\
  puts (events w') =
    (if Response.status response =? 200
     then [(cacheKeyOf request env', storedCopy response env')]
     else []) /\
  cache w' =
    (if Response.status response =? 200
     then <[cacheKeyOf request env' := storedCopy response env']> (afterLookup request env' c)
     else afterLookup request env' c).
Proof.
  intros Hc Hv Hm Hu Ht w'. subst w'.
  rewrite fetch_conclude, (attempt_miss _ _ _ _ _ _ Hc Hv Hm).
  destruct (Z.eq_dec (Response.status response) 200) as [Hs|Hs].
  - rewrite (proxy_200 _ _ _ _ _ _ _ _ Hu Ht Hs).
    cbn [conclude snd events cache app]. rewrite puts_lookupEvent.
    rewrite Hs. simpl. repeat split; auto; discriminate.
  - rewrite (proxy_non200 _ _ _ _ _ _ _ _ Hu Ht Hs).
    cbn [events cache app].
    assert (Hn : (Response.status response =? 200) = false) by now apply Z.eqb_neq.
    rewrite Hn.
    match goal with
    | |- context [conclude ?x] =>
        assert (Hx : puts (events (snd (conclude x))) = [] /\
                     cache (snd (conclude x)) = afterLookup request env' c)
    end.
    { destruct (String.eqb _ "application/json").
      - destruct (fst (normalize response _)) as [[]|r|e];
          cbn [conclude snd events cache app];
          rewrite ?puts_lookupEvent; auto.
        match goal with |- context [conclude (Thrown e, ?w)] =>
          destruct (conclude_Thrown e w) as [r ->] end.
        cbn [snd events cache app]. rewrite puts_lookupEvent. auto.
      - cbn [conclude snd events cache app]. rewrite puts_lookupEvent. auto. }
    destruct Hx as [-> ->]. repeat split; auto; tauto.
Qed.

Lemma C2_stored_iff_status_200_witness :
  puts (events (snd (fetch sampleGet sampleEnv (fun _ => Fulfils 10 sampleOk)
                       (mkWorld emptyCache [])))) =
    [(cacheKeyOf sampleGet sampleEnv', storedCopy sampleOk sampleEnv')] /\
  puts (events (snd (fetch sampleGet sampleEnv (fun _ => Fulfils 10 sampleNotFound)
                       (mkWorld emptyCache [])))) = [].
Proof.
  split.
  - apply (C2_stored_iff_status_200 sampleGet sampleEnv sampleEnv'
             (fun _ => Fulfils 10 sampleOk) emptyCache 10%N sampleOk);
      [intros w; reflexivity | intros w; reflexivity | right; reflexivity
      | reflexivity | vm_compute; discriminate].
  - apply (C2_stored_iff_status_200 sampleGet sampleEnv sampleEnv'
             (fun _ => Fulfils 10 sampleNotFound) emptyCache 10%N sampleNotFound);
      [intros w; reflexivity | intros w; reflexivity | right; reflexivity
      | reflexivity | vm_compute; discriminate].
Defined.

(** C3: a validated request whose [cache-control] header holds [no-cache]
    in any case has its key deleted and no lookup is made: the answer is
    the same whatever the cache holds, and the entry the cache held under
    the key is gone (a fresh 200 response may take its place).  Any other
    validated request makes the lookup, and on a hit the stored response
    is the answer, word for word, with no upstream call. *)
Theorem C3_no_cache_deletes_otherwise_lookup request env env' upstream c :
  configured env env' -> validated request env' ->
  let key := cacheKeyOf request env' in
  let run := fetch request env upstream (mkWorld c []) in
  (wantsFresh request = true ->
     List.head (events (snd run)) = Some (CacheDelete key) /\
     lookups (events (snd run)) = [] /\
     (cache (snd run) = base.delete key c \/
      exists r, List.In (key, r) (puts (events (snd run))) /\
                cache (snd run) = <[key := r]> (base.delete key c)) /\
     forall c2, fst (fetch request env upstream (mkWorld c2 [])) = fst run) /\
  (wantsFresh request = false ->
     List.head (events (snd run)) = Some (CacheMatch key) /\
     forall hit, c !! key = Some hit ->
       run = (Value hit, mkWorld c [CacheMatch key]) /\
       fetches (events (snd run)) = []).
Proof.
  intros Hc Hv key run. subst key run. split; intros Hf.
  - assert (Hm : forall c', misses request env' c') by (intros c'; now left).
    rewrite fetch_conclude, (attempt_miss _ _ _ _ _ _ Hc Hv (Hm c)).
    unfold lookupEvent, afterLookup. rewrite Hf. cbn [app].
    match goal with |- context [conclude (proxy ?r ?u ?k ?e ?up ?w)] =>
      destruct (proxy_shapes r u k e up w) as (more & -> & Hmore) end.
    cbn [events cache app List.head lookups] in *.
    split; [reflexivity|]. split; [|split].
    + destruct Hmore as [[-> _]|[(e & -> & _)|(ms & response & _ & _ & _ & -> & _)]];
        reflexivity.
    + destruct Hmore as [[-> ->]|[(e & -> & ->)|(ms & response & _ & _ & _ & -> & ->)]];
        auto.
      right. eexists. split; [|reflexivity]. cbn [puts]. now left.
    + intros c2.
      rewrite fetch_conclude, (attempt_miss _ _ _ _ _ _ Hc Hv (Hm c2)).
      match goal with |- fst (conclude (?p ?w1)) = fst (conclude (?p ?w2)) =>
        pose proof (oblivious_proxy request (buildTargetUrl request env')
                      (cacheKeyOf request env') env' upstream w1 w2) as Ho;
        destruct (p w1) as [o1 w1'], (p w2) as [o2 w2'] end.
      apply conclude_oblivious. exact Ho.
  - split.
    + destruct (c !! cacheKeyOf request env') as [hit|] eqn:Hh.
      * rewrite fetch_conclude, (attempt_hit _ _ _ _ _ _ _ Hc Hv Hf Hh). reflexivity.
      * assert (Hm : misses request env' c) by now right.
        rewrite fetch_conclude, (attempt_miss _ _ _ _ _ _ Hc Hv Hm).
        unfold lookupEvent. rewrite Hf. cbn [app].
        match goal with |- context [conclude (proxy ?r ?u ?k ?e ?up ?w)] =>
          destruct (proxy_shapes r u k e up w) as (more & -> & Hmore) end.
        reflexivity.
    + intros hit Hh.
      rewrite fetch_conclude, (attempt_hit _ _ _ _ _ _ _ Hc Hv Hf Hh).
      split; reflexivity.
Qed.

Lemma C3_no_cache_deletes_otherwise_lookup_witness :
  List.head (events (snd (fetch sampleGetFresh sampleEnv (fun _ => Fulfils 10 sampleOk)
                            (mkWorld emptyCache [])))) =
    Some (CacheDelete (cacheKeyOf sampleGetFresh sampleEnv')) /\
  fetch sampleGet sampleEnv (fun _ => Pending)
        (mkWorld (<[cacheKeyOf sampleGet sampleEnv' := sampleOk]> emptyCache) []) =
    (Value sampleOk,
     mkWorld (<[cacheKeyOf sampleGet sampleEnv' := sampleOk]> emptyCache)
             [CacheMatch (cacheKeyOf sampleGet sampleEnv')]).
Proof.
  split.
  - apply (C3_no_cache_deletes_otherwise_lookup sampleGetFresh sampleEnv sampleEnv'
             (fun _ => Fulfils 10 sampleOk) emptyCache);
      [intros w; reflexivity | intros w; reflexivity | reflexivity].
  - apply (C3_no_cache_deletes_otherwise_lookup sampleGet sampleEnv sampleEnv'
             (fun _ => Pending)
             (<[cacheKeyOf sampleGet sampleEnv' := sampleOk]> emptyCache));
      [intros w; reflexivity | intros w; reflexivity | reflexivity
      | vm_compute; reflexivity].
Defined.

(** C4: [PROPPATCH] is none of the six methods, yet the pattern of line
    209 finds [PATCH] inside it: the request passes every check and is
    sent upstream instead of being answered with 405. *)
Theorem C4_proppatch_is_not_rejected :
  ~ List.In (toUpperCase (Request.method proppatchRequest))
            ["GET"; "HEAD"; "POST"; "PUT"; "PATCH"; "DELETE"] /\
  RegExp.test methodPattern (toUpperCase (Request.method proppatchRequest)) = true /\
  validated proppatchRequest sampleEnv' /\
  fetch proppatchRequest sampleEnv (fun _ => Fulfils 10 sampleNotFound)
        (mkWorld emptyCache []) =
    (Value sampleNotFound,
     mkWorld emptyCache
       [CacheMatch (cacheKeyOf proppatchRequest sampleEnv');
        UpstreamFetch (targetRequestOf proppatchRequest sampleEnv')]) /\
  sampleNotFound <> errorEnvelope 405 "Method not allowed".
Proof.
  split; [|split; [|split; [|split]]].
  - simpl. intros [H|[H|[H|[H|[H|[H|[]]]]]]]; discriminate.
  - reflexivity.
  - intros w. reflexivity.
  - vm_compute. reflexivity.
  - discriminate.
Qed.

(** C5, as the handler has it: for a request with a body under POST, PUT
    or PATCH, a missing (or empty) [content-type] gives 406 "Content-Type
    is required for request type" whether or not binary data is allowed;
    a [content-type] that is neither of the two media types (parameters
    after a semicolon aside) gives 406 "Content-Type not acceptable for
    request type" when [allowBinaryData] is false; when [allowBinaryData]
    is true, any non-empty [content-type] passes. *)
Theorem C5_content_type_gate request env env' upstream c body :
  configured env env' ->
  authenticated request = true -> secure request env' = true ->
  List.In (toUpperCase (Request.method request)) ["POST"; "PUT"; "PATCH"] ->
  Request.body request = Some body ->
  let contentType := Headers.get_or_empty "content-type" (Request.headers request) in
  let run := fetch request env upstream (mkWorld c []) in
  (contentType = "" ->
     run = (Value (errorEnvelope 406 "Content-Type is required for request type"),
            mkWorld c [])) /\
  (contentType <> "" -> allowBinaryData env' = Some false ->
   acceptableContentType contentType = false ->
     run = (Value (errorEnvelope 406 "Content-Type not acceptable for request type"),
            mkWorld c [])) /\
  (contentType <> "" -> allowBinaryData env' = Some true -> validated request env').
Proof.
  intros Hc Ha Hs Hm Hb contentType run. subst run.
  pose proof (validate_with_body request env' body Ha Hs Hm Hb) as Hv.
  cbn zeta in Hv. fold contentType in Hv.
  split; [|split].
  - intros He. apply (fetch_rejected _ _ _ _ _ _ Hc).
    rewrite Hv, He. reflexivity.
  - intros He Hbin Hacc. apply (fetch_rejected _ _ _ _ _ _ Hc).
    rewrite Hv, Hbin, contentTypePattern_spec, Hacc.
    destruct contentType; [congruence|reflexivity].
  - intros He Hbin w. rewrite Hv, Hbin.
    destruct contentType; [congruence|reflexivity].
Qed.

Lemma C5_content_type_gate_witness :
  fetch (samplePost []) sampleEnv (fun _ => Pending) (mkWorld emptyCache []) =
    (Value (errorEnvelope 406 "Content-Type is required for request type"),
     mkWorld emptyCache []) /\
  fetch (samplePost [("content-type", "text/plain")]) sampleEnv (fun _ => Pending)
        (mkWorld emptyCache []) =
    (Value (errorEnvelope 406 "Content-Type not acceptable for request type"),
     mkWorld emptyCache []) /\
  validated (samplePost [("content-type", "text/plain")]) binaryEnv'.
Proof.
  split; [|split].
  - apply (C5_content_type_gate (samplePost []) sampleEnv sampleEnv'
             (fun _ => Pending) emptyCache (Request.mkBody "a=1" None));
      [intros w; reflexivity | reflexivity | reflexivity
      | left; reflexivity | reflexivity | reflexivity].
  - apply (C5_content_type_gate (samplePost [("content-type", "text/plain")])
             sampleEnv sampleEnv' (fun _ => Pending) emptyCache
             (Request.mkBody "a=1" None));
      [intros w; reflexivity | reflexivity | reflexivity
      | left; reflexivity | reflexivity | vm_compute; discriminate | reflexivity | reflexivity].
  - apply (C5_content_type_gate (samplePost [("content-type", "text/plain")])
             binaryEnv binaryEnv' (fun _ => Pending) emptyCache
             (Request.mkBody "a=1" None));
      [intros w; reflexivity | reflexivity | reflexivity
      | left; reflexivity | reflexivity | vm_compute; discriminate | reflexivity].
Defined.

(** C5, with binary data allowed: a POST with a body and no
    [content-type] is still rejected for its content type. *)
Lemma C5_counterexample :
  allowBinaryData binaryEnv = Some true /\
  Request.body (samplePost []) <> None /\
  Headers.get "content-type" (Request.headers (samplePost [])) = None /\
  fetch (samplePost []) binaryEnv (fun _ => Pending) (mkWorld emptyCache []) =
    (Value (errorEnvelope 406 "Content-Type is required for request type"),
     mkWorld emptyCache []).
Proof. repeat split; try reflexivity. discriminate. Qed.

(** C6: when the upstream call has not settled [requestTimeout - 1]
    seconds after it was made, the answer is the synthetic 504 envelope
    "Gateway Timeout" and nothing is written to the cache. *)
Theorem C6_timeout_gives_504_without_store request env env' upstream c t :
  configured env env' -> validated request env' -> misses request env' c ->
  requestTimeout env' = Some t ->
  late ((t - 1) * 1000) (upstream (targetRequestOf request env')) ->
  let run := fetch request env upstream (mkWorld c []) in
  run = (Value (errorEnvelope 504 "Gateway Timeout"),
         mkWorld (afterLookup request env' c)
                 [lookupEvent request env'; UpstreamFetch (targetRequestOf request env')]) /\
  puts (events (snd run)) = [].
Proof.
  intros Hc Hv Hm Ht Hl run. subst run.
  rewrite fetch_conclude, (attempt_miss _ _ _ _ _ _ Hc Hv Hm).
  rewrite proxy_late by (rewrite (deadline_seconds _ _ Ht); exact Hl).
  cbn [conclude snd events cache app]. split; [reflexivity|].
  now rewrite puts_lookupEvent.
Qed.

Lemma C6_timeout_gives_504_without_store_witness :
  fetch sampleGet sampleEnv (fun _ => Fulfils 99001 sampleOk) (mkWorld emptyCache []) =
    (Value (errorEnvelope 504 "Gateway Timeout"),
     mkWorld (afterLookup sampleGet sampleEnv' emptyCache)
             [lookupEvent sampleGet sampleEnv';
              UpstreamFetch (targetRequestOf sampleGet sampleEnv')]).
Proof.
  apply (C6_timeout_gives_504_without_store sampleGet sampleEnv sampleEnv'
           (fun _ => Fulfils 99001 sampleOk) emptyCache 100);
    [intros w; reflexivity | intros w; reflexivity | right; reflexivity
    | reflexivity | simpl; lia].
Defined.

(** C7, as the handler has it: a response of another status than 200
    whose [content-type] is exactly [application/json] and whose document
    has a truthy [threads] field (any array is) is answered with the 500
    envelope "Pipeline exited", whatever the status was; nothing is
    written to the cache. *)
Theorem C7_threads_gives_500 request env env' upstream c ms response text json :
  configured env env' -> validated request env' -> misses request env' c ->
  upstream (targetRequestOf request env') = Fulfils ms response ->
  Z.of_N ms <= deadline env' ->
  Response.status response <> 200 ->
  Headers.get "content-type" (Response.headers response) = Some "application/json" ->
  Response.body response = Response.Readable text (Some json) ->
  truthy (get "threads" (Some json)) = true ->
  fetch request env upstream (mkWorld c []) =
    (Value (errorEnvelope 500 "Pipeline exited"),
     mkWorld (afterLookup request env' c)
             [lookupEvent request env'; UpstreamFetch (targetRequestOf request env')]).
Proof.
  intros Hc Hv Hm Hu Ht Hs Hct Hb Hth.
  rewrite fetch_conclude, (attempt_miss _ _ _ _ _ _ Hc Hv Hm).
  rewrite (proxy_non200 _ _ _ _ _ _ _ _ Hu Ht Hs). cbn zeta.
  unfold Headers.get_or_empty. rewrite Hct. cbn [String.eqb].
  replace (String.eqb "application/json" "application/json") with true by reflexivity.
  rewrite (normalize_threads _ _ _ _ Hb Hth). reflexivity.
Qed.

Lemma C7_threads_gives_500_witness :
  fetch sampleGet sampleEnv (fun _ => Fulfils 10 (jsonError 503 threadsDoc))
        (mkWorld emptyCache []) =
    (Value (errorEnvelope 500 "Pipeline exited"),
     mkWorld (afterLookup sampleGet sampleEnv' emptyCache)
             [lookupEvent sampleGet sampleEnv';
              UpstreamFetch (targetRequestOf sampleGet sampleEnv')]).
Proof.
  apply (C7_threads_gives_500 sampleGet sampleEnv sampleEnv'
           (fun _ => Fulfils 10 (jsonError 503 threadsDoc)) emptyCache 10%N
           (jsonError 503 threadsDoc) (stringify threadsDoc) threadsDoc);
    [intros w; reflexivity | intros w; reflexivity | right; reflexivity
    | reflexivity | vm_compute; discriminate | vm_compute; discriminate
    | reflexivity | reflexivity | reflexivity].
Defined.

(** C7, on a 200 response: its document has a [threads] field, and the
    handler stores and returns it with status 200. *)
Lemma C7_counterexample :
  Response.status threadsOk = 200 /\
  Response.body threadsOk = Response.Readable (stringify threadsDoc) (Some threadsDoc) /\
  get "threads" (Some threadsDoc) = Some (JArr []) /\
  fst (fetch sampleGet sampleEnv (fun _ => Fulfils 10 threadsOk) (mkWorld emptyCache [])) =
    Value (storedCopy threadsOk sampleEnv') /\
  Response.status (storedCopy threadsOk sampleEnv') = 200 /\
  storedCopy threadsOk sampleEnv' <> errorEnvelope 500 "Pipeline exited".
Proof. repeat split; try reflexivity. discriminate. Qed.

(** C8, as the handler has it: for a response of another status than 200
    with [content-type] exactly [application/json], whose document has no
    truthy [threads] field, whose [error_list[0].message] is not the empty
    string, whose [error_list[0]] has a numeric [http_status_code] that a
    response with a body may carry, and whose nested
    [response_map.error_list[0].message] is truthy, the answer is the
    envelope with the nested status and the nested message. *)
Theorem C8_nested_error_is_unnested
    request env env' upstream c ms response text json outer nested n message :
  configured env env' -> validated request env' -> misses request env' c ->
  upstream (targetRequestOf request env') = Fulfils ms response ->
  Z.of_N ms <= deadline env' ->
  Response.status response <> 200 ->
  Headers.get "content-type" (Response.headers response) = Some "application/json" ->
  Response.body response = Response.Readable text (Some json) ->
  truthy (get "threads" (Some json)) = false ->
  first (get "error_list" (get "response_map" (Some json))) = Some outer ->
  get "message" (Some outer) <> Some (JStr "") ->
  get "http_status_code" (Some outer) = Some (JNum n) ->
  200 <= n <= 599 -> Response.null_body_status n = false ->
  first (get "error_list" (get "response_map" (Some outer))) = Some nested ->
  get "message" (Some nested) = Some message ->
  truthy (Some message) = true ->
  fetch request env upstream (mkWorld c []) =
    (Value (errorEnvelope n message),
     mkWorld (afterLookup request env' c)
             [lookupEvent request env'; UpstreamFetch (targetRequestOf request env')]).
Proof.
  intros Hc Hv Hm Hu Ht Hs Hct Hb Hth Ho Hmsg Hn Hr Hnb Hnested Hnm Htm.
  rewrite fetch_conclude, (attempt_miss _ _ _ _ _ _ Hc Hv Hm).
  rewrite (proxy_non200 _ _ _ _ _ _ _ _ Hu Ht Hs). cbn zeta.
  unfold Headers.get_or_empty. rewrite Hct.
  replace (String.eqb "application/json" "application/json") with true by reflexivity.
  rewrite (normalize_nested _ _ _ _ _ _ _ _ Hb Hth Ho Hmsg Hn Hr Hnb Hnested Hnm Htm).
  reflexivity.
Qed.

Lemma C8_nested_error_is_unnested_witness :
  fetch sampleGet sampleEnv (fun _ => Fulfils 10 (jsonError 400 nestedDoc))
        (mkWorld emptyCache []) =
    (Value (errorEnvelope 404 "Not found"),
     mkWorld (afterLookup sampleGet sampleEnv' emptyCache)
             [lookupEvent sampleGet sampleEnv';
              UpstreamFetch (targetRequestOf sampleGet sampleEnv')]).
Proof.
  apply (C8_nested_error_is_unnested sampleGet sampleEnv sampleEnv'
           (fun _ => Fulfils 10 (jsonError 400 nestedDoc)) emptyCache 10%N
           (jsonError 400 nestedDoc) (stringify nestedDoc) nestedDoc
           (JObj [("http_status_code", JNum 404);
                  ("response_map",
                   JObj [("error_list", JArr [JObj [("message", JStr "Not found")]])])])
           (JObj [("message", JStr "Not found")]) 404 (JStr "Not found"));
    [intros w; reflexivity | intros w; reflexivity | right; reflexivity
    | reflexivity | vm_compute; discriminate | vm_compute; discriminate
    | reflexivity | reflexivity | reflexivity | reflexivity
    | vm_compute; discriminate | reflexivity | lia | reflexivity
    | reflexivity | reflexivity | reflexivity].
Defined.

(** C8, on a document that also has a [threads] field: [error_list[0]]
    has the nested status 404 and the nested message, and the answer is
    the 500 envelope "Pipeline exited". *)
Lemma C8_counterexample :
  get "http_status_code"
      (first (get "error_list" (get "response_map" (Some nestedThreadsDoc)))) =
    Some (JNum 404) /\
  get "message"
      (first (get "error_list" (get "response_map"
         (first (get "error_list" (get "response_map" (Some nestedThreadsDoc))))))) =
    Some (JStr "Not found") /\
  fst (fetch sampleGet sampleEnv (fun _ => Fulfils 10 (jsonError 400 nestedThreadsDoc))
         (mkWorld emptyCache [])) =
    Value (errorEnvelope 500 "Pipeline exited") /\
  errorEnvelope 500 "Pipeline exited" <> errorEnvelope 404 "Not found".
Proof. repeat split; try reflexivity. discriminate. Qed.

(** C9: a 200 response is stored with [cache-control] set to
    [max-age=<ttl>] and without [expires]; a later request for the same
    key that does not force a fresh fetch is answered with that entry. *)
Theorem C9_stored_copy_has_max_age_and_no_expires
    request env env' upstream c ms response n :
  configured env env' -> ttl env' = Some n ->
  validated request env' -> misses request env' c ->
  upstream (targetRequestOf request env') = Fulfils ms response ->
  Z.of_N ms <= deadline env' ->
  Response.status response = 200 ->
  let key := cacheKeyOf request env' in
  let w' := snd (fetch request env upstream (mkWorld c [])) in
  exists stored,
    puts (events w') = [(key, stored)] /\
    cache w' !! key = Some stored /\
    Headers.get "cache-control" (Response.headers stored) =
      Some ("max-age=" +:+ Number_toString n) /\
    Headers.get "expires" (Response.headers stored) = None /\
    forall request2 upstream2,
      validated request2 env' -> wantsFresh request2 = false ->
      cacheKeyOf request2 env' = key ->
      fst (fetch request2 env upstream2 w') = Value stored.
Proof.
  intros Hc Hn Hv Hm Hu Ht Hs key w'. subst key w'.
  exists (storedCopy response env').
  rewrite fetch_conclude, (attempt_miss _ _ _ _ _ _ Hc Hv Hm).
  rewrite (proxy_200 _ _ _ _ _ _ _ _ Hu Ht Hs).
  cbn [conclude snd events cache app].
  rewrite puts_lookupEvent. cbn [puts].
  repeat split.
  - apply lookup_insert_eq.
  - unfold storedCopy. cbn [Response.headers]. rewrite Hn. apply stored_headers.
  - unfold storedCopy. cbn [Response.headers]. apply stored_headers.
  - intros request2 upstream2 Hv2 Hf2 Hk2.
    rewrite fetch_conclude.
    erewrite (attempt_hit _ _ _ _ _ _ _ Hc Hv2 Hf2); [reflexivity|].
    rewrite Hk2. apply lookup_insert_eq.
Qed.

Lemma C9_stored_copy_has_max_age_and_no_expires_witness :
  exists stored,
    cache (snd (fetch sampleGet sampleEnv (fun _ => Fulfils 10 sampleOk)
                  (mkWorld emptyCache []))) !! cacheKeyOf sampleGet sampleEnv' = Some stored /\
    Headers.get "cache-control" (Response.headers stored) = Some "max-age=60" /\
    Headers.get "expires" (Response.headers stored) = None.
Proof.
  destruct (C9_stored_copy_has_max_age_and_no_expires sampleGet sampleEnv sampleEnv'
              (fun _ => Fulfils 10 sampleOk) emptyCache 10%N sampleOk 60)
    as (stored & _ & H1 & H2 & H3 & _);
    [intros w; reflexivity | reflexivity | intros w; reflexivity | right; reflexivity
    | reflexivity | vm_compute; discriminate | reflexivity |].
  exists stored. repeat split; assumption.
Defined.

(** C10: a response of another status than 200 whose [content-type] is
    not the very string [application/json] (a parameter after it is
    enough) is the answer as it came: the error normalizer does not run
    and nothing is written. *)
Theorem C10_other_content_type_passes_through request env env' upstream c ms response :
  configured env env' -> validated request env' -> misses request env' c ->
  upstream (targetRequestOf request env') = Fulfils ms response ->
  Z.of_N ms <= deadline env' ->
  Response.status response <> 200 ->
  Headers.get "content-type" (Response.headers response) <> Some "application/json" ->
  fetch request env upstream (mkWorld c []) =
    (Value response,
     mkWorld (afterLookup request env' c)
             [lookupEvent request env'; UpstreamFetch (targetRequestOf request env')]).
Proof.
  intros Hc Hv Hm Hu Ht Hs Hct.
  rewrite fetch_conclude, (attempt_miss _ _ _ _ _ _ Hc Hv Hm).
  rewrite (proxy_non200 _ _ _ _ _ _ _ _ Hu Ht Hs). cbn zeta.
  replace (String.eqb _ "application/json") with false; [reflexivity|].
  symmetry. apply String.eqb_neq. unfold Headers.get_or_empty.
  destruct (Headers.get "content-type" (Response.headers response)) as [v|];
    [congruence|discriminate].
Qed.

Lemma C10_other_content_type_passes_through_witness :
  fetch sampleGet sampleEnv (fun _ => Fulfils 10 sampleNotFound) (mkWorld emptyCache []) =
    (Value sampleNotFound,
     mkWorld (afterLookup sampleGet sampleEnv' emptyCache)
             [lookupEvent sampleGet sampleEnv';
              UpstreamFetch (targetRequestOf sampleGet sampleEnv')]).
Proof.
  apply (C10_other_content_type_passes_through sampleGet sampleEnv sampleEnv'
           (fun _ => Fulfils 10 sampleNotFound) emptyCache 10%N sampleNotFound);
    [intros w; reflexivity | intros w; reflexivity | right; reflexivity
    | reflexivity | vm_compute; discriminate | vm_compute; discriminate
    | vm_compute; discriminate].
Defined.

(** ** Further properties of the handler *)

(** *** The checks on the request, in order *)

Lemma guard_step {B : Type} (c : bool) (status : Z) (message : JSON)
    (k : unit -> M B) w :
  200 <= status <= 599 -> Response.null_body_status status = false ->
  (when c (return_errorResponse status message) ≫= k) w =
  if c then (Returned (errorEnvelope status message), w) else k tt w.
Proof.
  intros Hrange Hbody. unfold mbind, M_bind. destruct c; cbn [when].
  - now rewrite return_errorResponse_ok.
  - reflexivity.
Qed.

Lemma guard_last (c : bool) (status : Z) (message : JSON) w :
  200 <= status <= 599 -> Response.null_body_status status = false ->
  when c (return_errorResponse status message) w =
  if c then (Returned (errorEnvelope status message), w) else (Value tt, w).
Proof.
  intros Hrange Hbody. destruct c; cbn [when].
  - now rewrite return_errorResponse_ok.
  - reflexivity.
Qed.

Lemma methodPattern_letsThrough m : RegExp.test methodPattern m = letsThrough m.
Proof. apply methodPattern_spec. Qed.

Lemma bodyMethodPattern_carriesBody m : RegExp.test bodyMethodPattern m = carriesBody m.
Proof. apply bodyMethodPattern_spec. Qed.

Lemma validate_table request env w :
  validate request env w =
  let m := toUpperCase (Request.method request) in
  let contentType := Headers.get_or_empty "content-type" (Request.headers request) in
  let reject (status : Z) (message : string) :=
    (@Returned unit (errorEnvelope status message), w) in
  if negb (authenticated request) then reject 401 "Mismatched bearer token"
  else if negb (secure request env) then reject 426 "HTTPS is required"
  else if negb (letsThrough m) then reject 405 "Method not allowed"
  else match Request.body request with
       | Some body =>
           if negb (carriesBody m) then reject 406 "Body data not expected"
           else if negb (nonempty contentType)
           then reject 406 "Content-Type is required for request type"
           else if is_true (allowBinaryData env) then (Value tt, w)
           else if negb (acceptableContentType contentType)
           then reject 406 "Content-Type not acceptable for request type"
           else if startsWith contentType "application/json"
           then match Request.json body with
                | Some _ => (Value tt, w)
                | None => reject 400 "JSON body not valid"
                end
           else (Value tt, w)
       | None =>
           if carriesBody m then reject 406 "Body data expected" else (Value tt, w)
       end.
Proof.
  unfold validate.
  rewrite methodPattern_letsThrough, !bodyMethodPattern_carriesBody,
    contentTypePattern_spec.
  cbv zeta.
  rewrite !guard_step by first [lia | reflexivity].
  replace (negb (nonempty (Headers.get_or_empty "authorization" (Request.headers request))) &&
           negb (nonempty (default "" (Url.searchParams_get "bearer_token"
                                         (Request.url request)))))
    with (negb (authenticated request))
    by (unfold authenticated; now rewrite negb_orb).
  replace (is_true (requireHTTPS env) &&
           negb (String.eqb (Url.protocol (Request.url request)) "https:"))
    with (negb (secure request env))
    by (unfold secure; now rewrite negb_orb, negb_involutive).
  destruct (negb (authenticated request)); [reflexivity|].
  destruct (negb (secure request env)); [reflexivity|].
  destruct (negb (letsThrough (toUpperCase (Request.method request)))); [reflexivity|].
  destruct (Request.body request) as [body|].
  - rewrite !guard_step by first [lia | reflexivity].
    destruct (negb (carriesBody (toUpperCase (Request.method request)))); [reflexivity|].
    destruct (negb (nonempty (Headers.get_or_empty "content-type"
                                (Request.headers request)))); [reflexivity|].
    destruct (is_true (allowBinaryData env)); cbn [negb when]; [reflexivity|].
    rewrite guard_step by first [lia | reflexivity].
    destruct (negb (acceptableContentType
                      (Headers.get_or_empty "content-type" (Request.headers request))));
      [reflexivity|].
    destruct (startsWith (Headers.get_or_empty "content-type" (Request.headers request))
                         "application/json"); cbn [when]; [|reflexivity].
    destruct (Request.json body); [reflexivity|].
    now rewrite return_errorResponse_ok.
  - now rewrite guard_last.
Qed.

Lemma fetch_rejects request env env' upstream w (status : Z) (message : string) :
  configured env env' ->
  validate request env' w = (Returned (errorEnvelope status message), w) ->
  fetch request env upstream w = (Value (errorEnvelope status message), w).
Proof. intros Henv Hval. exact (fetch_rejected _ _ _ _ _ _ Henv Hval). Qed.

(** X1: a request with neither an [authorization] header nor a
    [bearer_token] query parameter is answered 401 "Mismatched bearer
    token", whatever else it carries; the cache and the upstream are not
    touched. *)
Theorem X1_missing_token_gives_401 request env env' upstream c :
  configured env env' ->
  authenticated request = false ->
  fetch request env upstream (mkWorld c []) =
  (Value (errorEnvelope 401 "Mismatched bearer token"), mkWorld c []).
Proof.
  intros Henv Hauth. apply (fetch_rejects _ _ env'); [exact Henv|].
  rewrite validate_table. cbv zeta. now rewrite Hauth.
Qed.

Lemma X1_missing_token_gives_401_witness :
  fetch anonymousGet sampleEnv (fun _ => Pending) (mkWorld emptyCache []) =
  (Value (errorEnvelope 401 "Mismatched bearer token"), mkWorld emptyCache []).
Proof.
  apply (X1_missing_token_gives_401 anonymousGet sampleEnv sampleEnv');
    [intros w; reflexivity | reflexivity].
Defined.

(** X2: unless [requireHTTPS] is configured with another value than
    true, an authenticated request that did not arrive over https is
    answered 426 "HTTPS is required" and goes no further. *)
Theorem X2_plain_http_gives_426 request env env' upstream c :
  configured env env' ->
  authenticated request = true ->
  requireHTTPS env <> Some false ->
  Url.protocol (Request.url request) <> "https:" ->
  fetch request env upstream (mkWorld c []) =
  (Value (errorEnvelope 426 "HTTPS is required"), mkWorld c []).
Proof.
  intros Henv Hauth Hreq Hproto. apply (fetch_rejects _ _ env'); [exact Henv|].
  rewrite validate_table. cbv zeta. rewrite Hauth. cbn [negb].
  apply configured_iff in Henv as (_ & _ & _ & _ & _ & ->).
  unfold secure. cbn [requireHTTPS is_true].
  destruct (requireHTTPS env) as [[|]|]; try congruence.
  all: cbn [default is_true negb orb];
    destruct (String.eqb_spec (Url.protocol (Request.url request)) "https:");
    [congruence | reflexivity].
Qed.

Lemma X2_plain_http_gives_426_witness :
  fetch plainGet sampleEnv (fun _ => Pending) (mkWorld emptyCache []) =
  (Value (errorEnvelope 426 "HTTPS is required"), mkWorld emptyCache []).
Proof.
  apply (X2_plain_http_gives_426 plainGet sampleEnv sampleEnv');
    [intros w; reflexivity | reflexivity | discriminate | discriminate].
Defined.

(** X3: past the token and https checks, a request whose upper-cased
    method neither starts with POST, nor contains PUT, PATCH, HEAD or GET,
    nor ends with DELETE is answered 405 "Method not allowed". *)
Theorem X3_unknown_method_gives_405 request env env' upstream c :
  configured env env' ->
  authenticated request = true -> secure request env' = true ->
  letsThrough (toUpperCase (Request.method request)) = false ->
  fetch request env upstream (mkWorld c []) =
  (Value (errorEnvelope 405 "Method not allowed"), mkWorld c []).
Proof.
  intros Henv Hauth Hsec Hm. apply (fetch_rejects _ _ env'); [exact Henv|].
  rewrite validate_table. cbv zeta. now rewrite Hauth, Hsec, Hm.
Qed.

Lemma X3_unknown_method_gives_405_witness :
  fetch traceRequest sampleEnv (fun _ => Pending) (mkWorld emptyCache []) =
  (Value (errorEnvelope 405 "Method not allowed"), mkWorld emptyCache []).
Proof.
  apply (X3_unknown_method_gives_405 traceRequest sampleEnv sampleEnv');
    [intros w; reflexivity | reflexivity | reflexivity | reflexivity].
Defined.

(** X4: a body on a request whose upper-cased method is not POST, PUT or
    PATCH is refused with 406 "Body data not expected", before the
    content type is looked at. *)
Theorem X4_unexpected_body_gives_406 request env env' upstream c body :
  configured env env' ->
  authenticated request = true -> secure request env' = true ->
  letsThrough (toUpperCase (Request.method request)) = true ->
  carriesBody (toUpperCase (Request.method request)) = false ->
  Request.body request = Some body ->
  fetch request env upstream (mkWorld c []) =
  (Value (errorEnvelope 406 "Body data not expected"), mkWorld c []).
Proof.
  intros Henv Hauth Hsec Hm Hcarry Hbody.
  apply (fetch_rejects _ _ env'); [exact Henv|].
  rewrite validate_table. cbv zeta. now rewrite Hauth, Hsec, Hm, Hbody, Hcarry.
Qed.

Lemma X4_unexpected_body_gives_406_witness :
  fetch getWithBody sampleEnv (fun _ => Pending) (mkWorld emptyCache []) =
  (Value (errorEnvelope 406 "Body data not expected"), mkWorld emptyCache []).
Proof.
  apply (X4_unexpected_body_gives_406 getWithBody sampleEnv sampleEnv' _ _
           (Request.mkBody "{}" (Some (JObj []))));
    [intros w; reflexivity | reflexivity | reflexivity | reflexivity
    | reflexivity | reflexivity].
Defined.

(** X5: a POST, PUT or PATCH request without a body is refused with 406
    "Body data expected". *)
Theorem X5_missing_body_gives_406 request env env' upstream c :
  configured env env' ->
  authenticated request = true -> secure request env' = true ->
  carriesBody (toUpperCase (Request.method request)) = true ->
  Request.body request = None ->
  fetch request env upstream (mkWorld c []) =
  (Value (errorEnvelope 406 "Body data expected"), mkWorld c []).
Proof.
  intros Henv Hauth Hsec Hcarry Hbody.
  apply (fetch_rejects _ _ env'); [exact Henv|].
  rewrite validate_table. cbv zeta. rewrite Hauth, Hsec, Hbody, Hcarry.
  assert (Hm : letsThrough (toUpperCase (Request.method request)) = true).
  { rewrite <- methodPattern_letsThrough. apply allowed_methods_pass.
    unfold carriesBody in Hcarry. cbn [List.In].
    destruct (String.eqb_spec (toUpperCase (Request.method request)) "POST") as [->|_];
      [do 2 right; left; reflexivity|].
    destruct (String.eqb_spec (toUpperCase (Request.method request)) "PUT") as [->|_];
      [do 3 right; left; reflexivity|].
    destruct (String.eqb_spec (toUpperCase (Request.method request)) "PATCH") as [->|_];
      [do 4 right; left; reflexivity|].
    discriminate. }
  now rewrite Hm.
Qed.

Lemma X5_missing_body_gives_406_witness :
  fetch postWithoutBody sampleEnv (fun _ => Pending) (mkWorld emptyCache []) =
  (Value (errorEnvelope 406 "Body data expected"), mkWorld emptyCache []).
Proof.
  apply (X5_missing_body_gives_406 postWithoutBody sampleEnv sampleEnv');
    [intros w; reflexivity | reflexivity | reflexivity | reflexivity | reflexivity].
Defined.

Lemma isMediaType_json contentType :
  isMediaType "application/json" contentType = true ->
  startsWith contentType "application/json" = true /\
  nonempty contentType = true /\ acceptableContentType contentType = true.
Proof.
  intros H. unfold acceptableContentType. rewrite H, orb_true_r.
  unfold isMediaType in H.
  destruct (strip "application/json" contentType) as [rest|] eqn:Hstrip; [|discriminate].
  apply strip_Some in Hstrip. subst contentType. repeat split.
  apply startsWith_spec. now exists rest.
Qed.

Lemma isMediaType_form contentType :
  isMediaType "application/x-www-form-urlencoded" contentType = true ->
  startsWith contentType "application/json" = false /\
  nonempty contentType = true /\ acceptableContentType contentType = true.
Proof.
  intros H. unfold acceptableContentType. rewrite H.
  unfold isMediaType in H.
  destruct (strip "application/x-www-form-urlencoded" contentType) as [rest|] eqn:Hstrip;
    [|discriminate].
  apply strip_Some in Hstrip. subst contentType. repeat split.
Qed.

Lemma carriesBody_letsThrough m : carriesBody m = true -> letsThrough m = true.
Proof.
  unfold carriesBody, letsThrough. intros H.
  destruct (String.eqb m "POST") eqn:E1;
    [apply String.eqb_eq in E1; subst m; reflexivity|].
  destruct (String.eqb m "PUT") eqn:E2;
    [apply String.eqb_eq in E2; subst m; reflexivity|].
  destruct (String.eqb m "PATCH") eqn:E3;
    [apply String.eqb_eq in E3; subst m; reflexivity|].
  discriminate.
Qed.

Lemma configured_binary env env' :
  configured env env' ->
  is_true (allowBinaryData env') = is_true (allowBinaryData env).
Proof.
  intros Henv. apply configured_iff in Henv as (_ & _ & _ & _ & _ & ->).
  cbn [allowBinaryData]. now destruct (allowBinaryData env) as [[|]|].
Qed.

(** X6: unless binary data is allowed, a POST, PUT or PATCH body
    announced as [application/json] (parameters after a semicolon apart)
    that does not parse is refused with 400 "JSON body not valid". *)
Theorem X6_broken_json_gives_400 request env env' upstream c body :
  configured env env' ->
  authenticated request = true -> secure request env' = true ->
  carriesBody (toUpperCase (Request.method request)) = true ->
  Request.body request = Some body ->
  allowBinaryData env <> Some true ->
  isMediaType "application/json"
    (Headers.get_or_empty "content-type" (Request.headers request)) = true ->
  Request.json body = None ->
  fetch request env upstream (mkWorld c []) =
  (Value (errorEnvelope 400 "JSON body not valid"), mkWorld c []).
Proof.
  intros Henv Hauth Hsec Hcarry Hbody Hbin Htype Hjson.
  apply (fetch_rejects _ _ env'); [exact Henv|].
  rewrite validate_table. cbv zeta.
  rewrite Hauth, Hsec, (carriesBody_letsThrough _ Hcarry), Hbody, Hcarry.
  apply isMediaType_json in Htype as (-> & -> & ->).
  rewrite (configured_binary _ _ Henv), Hjson.
  destruct (allowBinaryData env) as [[|]|]; [congruence|reflexivity|reflexivity].
Qed.

Lemma X6_broken_json_gives_400_witness :
  fetch postBrokenJson sampleEnv (fun _ => Pending) (mkWorld emptyCache []) =
  (Value (errorEnvelope 400 "JSON body not valid"), mkWorld emptyCache []).
Proof.
  apply (X6_broken_json_gives_400 postBrokenJson sampleEnv sampleEnv' _ _
           (Request.mkBody "{" None));
    [intros w; reflexivity | reflexivity | reflexivity | reflexivity | reflexivity
    | discriminate | reflexivity | reflexivity].
Defined.

(** X7: a POST, PUT or PATCH body announced as
    [application/x-www-form-urlencoded] passes the checks whatever its
    bytes are: only JSON bodies are parsed. *)
Theorem X7_form_body_is_not_parsed request env body :
  authenticated request = true -> secure request env = true ->
  carriesBody (toUpperCase (Request.method request)) = true ->
  Request.body request = Some body ->
  isMediaType "application/x-www-form-urlencoded"
    (Headers.get_or_empty "content-type" (Request.headers request)) = true ->
  validated request env.
Proof.
  intros Hauth Hsec Hcarry Hbody Htype w.
  rewrite validate_table. cbv zeta.
  rewrite Hauth, Hsec, (carriesBody_letsThrough _ Hcarry), Hbody, Hcarry.
  apply isMediaType_form in Htype as (-> & -> & ->).
  now destruct (is_true (allowBinaryData env)).
Qed.

Lemma X7_form_body_is_not_parsed_witness : validated postForm sampleEnv'.
Proof.
  apply (X7_form_body_is_not_parsed postForm sampleEnv' (Request.mkBody "a=1&b" None));
    reflexivity.
Defined.

(** X8: the requests that pass the checks of the handler are exactly the
    authenticated, secure ones whose method is let through and which
    either carry no body under a method other than POST, PUT and PATCH,
    or carry one under these with a non-empty content type that, unless
    binary data is allowed, is one of the two media types, a JSON body
    having to parse. *)
Theorem X8_requests_that_pass request env :
  validated request env <->
  authenticated request = true /\ secure request env = true /\
  letsThrough (toUpperCase (Request.method request)) = true /\
  match Request.body request with
  | None => carriesBody (toUpperCase (Request.method request)) = false
  | Some body =>
      let contentType := Headers.get_or_empty "content-type" (Request.headers request) in
      carriesBody (toUpperCase (Request.method request)) = true /\
      contentType <> "" /\
      (allowBinaryData env = Some true \/
       (acceptableContentType contentType = true /\
        (startsWith contentType "application/json" = true -> Request.json body <> None)))
  end.
Proof.
  assert (Hne : forall s, nonempty s = true <-> s <> "")
    by (intros [|a s]; cbn; split; congruence).
  assert (Hbin : is_true (allowBinaryData env) = true <-> allowBinaryData env = Some true)
    by (destruct (allowBinaryData env) as [[|]|]; cbn; split; congruence).
  unfold validated. split.
  - intros H. specialize (H (mkWorld ∅ [])). rewrite validate_table in H. cbv zeta in H.
    destruct (authenticated request); [|discriminate].
    destruct (secure request env); [|discriminate].
    destruct (letsThrough _); [|discriminate].
    do 3 (split; [reflexivity|]).
    destruct (Request.body request) as [body|].
    + cbv zeta. destruct (carriesBody _); [|discriminate].
      split; [reflexivity|].
      destruct (nonempty _) eqn:Hct; [|discriminate].
      split; [now apply Hne|].
      destruct (is_true (allowBinaryData env)) eqn:Hb; [left; now apply Hbin|right].
      destruct (acceptableContentType _); [|discriminate].
      split; [reflexivity|]. intros Hjson. rewrite Hjson in H.
      destruct (Request.json body); [discriminate|discriminate].
    + now destruct (carriesBody _).
  - intros (Hauth & Hsec & Hm & Hrest) w. rewrite validate_table. cbv zeta.
    rewrite Hauth, Hsec, Hm. cbn [negb].
    destruct (Request.body request) as [body|].
    + cbv zeta in Hrest. destruct Hrest as (-> & Hct & Hrest).
      apply Hne in Hct. rewrite Hct. cbn [negb].
      destruct (is_true (allowBinaryData env)) eqn:Hb; [reflexivity|].
      destruct Hrest as [Hrest|(-> & Hjson)].
      * apply Hbin in Hrest. congruence.
      * cbn [negb]. destruct (startsWith _ _); [|reflexivity].
        destruct (Request.json body); [reflexivity|]. now destruct Hjson.
    + now rewrite Hrest.
Qed.

Lemma validate_outcome request env :
  validated request env \/
  exists (status : Z) (message : string),
    List.In status [400; 401; 405; 406; 426] /\
    forall w, validate request env w = (Returned (errorEnvelope status message), w).
Proof.
  unfold validated.
  assert (Hall : forall (P : World -> Outcome unit * World),
             (forall w, validate request env w = P w) ->
             (forall w, P w = (Value tt, w)) \/
             (exists (status : Z) (message : string),
                List.In status [400; 401; 405; 406; 426] /\
                forall w, P w = (Returned (errorEnvelope status message), w)) ->
             (forall w, validate request env w = (Value tt, w)) \/
             (exists (status : Z) (message : string),
                List.In status [400; 401; 405; 406; 426] /\
                forall w, validate request env w =
                          (Returned (errorEnvelope status message), w))).
  { intros P HP [H|(s & m & Hin & H)].
    - left. intros w. now rewrite HP.
    - right. exists s, m. split; [exact Hin|]. intros w. now rewrite HP. }
  eapply Hall; [intros w; apply validate_table|]. cbv zeta.
  destruct (authenticated request);
    [|right; eexists 401, _; split; [cbn; tauto|reflexivity]].
  destruct (secure request env);
    [|right; eexists 426, _; split; [cbn; tauto|reflexivity]].
  destruct (letsThrough _);
    [|right; eexists 405, _; split; [cbn; tauto|reflexivity]].
  destruct (Request.body request) as [body|].
  - destruct (carriesBody _);
      [|right; eexists 406, _; split; [cbn; tauto|reflexivity]].
    destruct (nonempty _);
      [|right; eexists 406, _; split; [cbn; tauto|reflexivity]].
    destruct (is_true (allowBinaryData env)); [left; reflexivity|].
    destruct (acceptableContentType _);
      [|right; eexists 406, _; split; [cbn; tauto|reflexivity]].
    destruct (startsWith _ _); [|left; reflexivity].
    destruct (Request.json body); [left; reflexivity|].
    right; eexists 400, _; split; [cbn; tauto|reflexivity].
  - destruct (carriesBody _); [|left; reflexivity].
    right; eexists 406, _; split; [cbn; tauto|reflexivity].
Qed.

(** X9: a request that fails a check is answered with an error document
    of status 400, 401, 405, 406 or 426, and neither the cache nor the
    upstream is touched. *)
Theorem X9_refusals_touch_nothing request env env' :
  configured env env' ->
  validated request env' \/
  exists (status : Z) (message : string),
    List.In status [400; 401; 405; 406; 426] /\
    forall upstream c,
      fetch request env upstream (mkWorld c []) =
      (Value (errorEnvelope status message), mkWorld c []).
Proof.
  intros Henv.
  destruct (validate_outcome request env') as [H|(status & message & Hin & H)];
    [now left|right].
  exists status, message. split; [exact Hin|]. intros upstream c.
  apply (fetch_rejects _ _ env'); [exact Henv|apply H].
Qed.

Lemma X9_refusals_touch_nothing_witness :
  validated traceRequest sampleEnv' \/
  exists (status : Z) (message : string),
    List.In status [400; 401; 405; 406; 426] /\
    forall upstream c,
      fetch traceRequest sampleEnv upstream (mkWorld c []) =
      (Value (errorEnvelope status message), mkWorld c []).
Proof.
  apply (X9_refusals_touch_nothing traceRequest sampleEnv sampleEnv').
  intros w; reflexivity.
Defined.

(** *** The configuration and the [catch] block *)

Lemma conclude_recover e w : conclude (Thrown e, w) = recover e w.
Proof. unfold conclude. now destruct (recover_returns e w) as [r ->]. Qed.

Lemma recover_other e w :
  message e <> "fetch failed" \/ cause e = None ->
  recover e w =
  (Value (errorEnvelope 500 "Proxy Error"),
   mkWorld (cache w) (events w ++ [ConsoleLog e])%list).
Proof.
  intros H. unfold recover.
  erewrite bind_Value by reflexivity.
  destruct (String.eqb_spec (message e) "fetch failed") as [Hm|Hm];
    destruct (cause e) as [k|]; try reflexivity.
  destruct H; [contradiction|discriminate].
Qed.

Lemma recover_code e k w :
  message e = "fetch failed" -> cause e = Some k ->
  recover e w =
  (let is_code c' := match code k with Some c => String.eqb c c' | None => false end in
   if is_code "ENOTFOUND" || is_code "ECONNREFUSED" || is_code "ECONNABORTED"
   then Value (errorEnvelope 503 "Service Unavailable")
   else if is_code "ETIMEDOUT" || is_code "UND_ERR_CONNECT_TIMEOUT" ||
           is_code "UND_ERR_HEADERS_TIMEOUT" || is_code "ECONNRESET" ||
           is_code "EHOSTUNREACH" || is_code "EAI_AGAIN"
   then Value (errorEnvelope 504 "Gateway Timeout")
   else Value (errorEnvelope 502 "Bad Gateway"),
   mkWorld (cache w) (events w ++ [ConsoleLog e])%list).
Proof.
  intros Hm Hc. unfold recover.
  erewrite bind_Value by reflexivity.
  rewrite Hm, Hc. cbv zeta. cbn [String.eqb Ascii.eqb Bool.eqb andb].
  repeat match goal with
         | |- context [if ?b then _ else _] => destruct b
         end; reflexivity.
Qed.

Lemma checkEnv_outcome env :
  (exists env', configured env env') \/
  (exists msg, forall w, checkEnv env w = (Thrown (Error msg), w)).
Proof.
  unfold configured, checkEnv.
  unfold mbind, M_bind, when, throw, mret, M_ret.
  repeat match goal with
         | |- context [if ?b then _ else _] =>
             destruct b; [right; eexists; intros w; reflexivity|]
         end.
  left. eexists. intros w. reflexivity.
Qed.

Lemma checkEnv_refuses env :
  targetHostname env = "" \/
  (exists p, targetPort env = Some p /\ (p < 0 \/ 65535 < p)) \/
  (toLowerCase (targetProtocol env) <> "http" /\
   toLowerCase (targetProtocol env) <> "https") \/
  ttl env = None \/ (exists n, ttl env = Some n /\ n <= 0) \/
  (exists t, requestTimeout env = Some t /\ t < 0) ->
  exists msg, forall w, checkEnv env w = (Thrown (Error msg), w).
Proof.
  intros Hbad.
  destruct (checkEnv_outcome env) as [[env' Henv]|Hthrown]; [exfalso|exact Hthrown].
  apply configured_iff in Henv
    as (Hhost & Hport & Hproto & (n & Hn & Hpos) & Htime & _).
  destruct Hbad as [H|[(p & Hp & H)|[(H1 & H2)|[H|[(n' & Hn' & H)|(t & Ht & H)]]]]].
  - contradiction.
  - specialize (Hport p Hp). lia.
  - destruct Hproto; contradiction.
  - congruence.
  - rewrite Hn in Hn'. injection Hn' as <-. lia.
  - specialize (Htime t Ht). lia.
Qed.

(** X10: the configurations the handler accepts are those with a target
    host, a port that is not a number outside 0..65535, the scheme http or
    https in any case, a positive numeric ttl and no negative timeout;
    [requireHTTPS] then defaults to true, [allowBinaryData] to false and
    a timeout that is unset or 0 to 100 seconds. *)
Theorem X10_accepted_configurations env env' :
  configured env env' <->
  targetHostname env <> "" /\
  (forall p, targetPort env = Some p -> 0 <= p <= 65535) /\
  (toLowerCase (targetProtocol env) = "http" \/
   toLowerCase (targetProtocol env) = "https") /\
  (exists n, ttl env = Some n /\ 0 < n) /\
  (forall t, requestTimeout env = Some t -> 0 <= t) /\
  env' = mkEnv (ttl env) (targetProtocol env) (targetHostname env)
               (targetPort env) (targetPathPrefix env)
               (Some (default true (requireHTTPS env)))
               (Some (default false (allowBinaryData env)))
               (Some (match requestTimeout env with
                      | Some 0 | None => 100
                      | Some t => t
                      end)).
Proof. apply configured_iff. Qed.

(** X11: under a configuration that fails a check, every request, valid
    or not, is answered 500 "Proxy Error"; the message that names the
    parameter is only logged, and neither the cache nor the upstream is
    touched. *)
Theorem X11_refused_configuration_gives_500 env :
  targetHostname env = "" \/
  (exists p, targetPort env = Some p /\ (p < 0 \/ 65535 < p)) \/
  (toLowerCase (targetProtocol env) <> "http" /\
   toLowerCase (targetProtocol env) <> "https") \/
  ttl env = None \/ (exists n, ttl env = Some n /\ n <= 0) \/
  (exists t, requestTimeout env = Some t /\ t < 0) ->
  exists msg, forall request upstream c,
    fetch request env upstream (mkWorld c []) =
    (Value (errorEnvelope 500 "Proxy Error"), mkWorld c [ConsoleLog (Error msg)]).
Proof.
  intros Hbad. destruct (checkEnv_refuses env Hbad) as [msg Hmsg].
  exists msg. intros request upstream c.
  rewrite fetch_conclude. unfold attempt.
  rewrite (bind_Thrown _ _ _ _ _ (Hmsg _)).
  rewrite conclude_recover. apply recover_other. now right.
Qed.

Lemma X11_refused_configuration_gives_500_witness :
  exists msg, forall request upstream c,
    fetch request hostlessEnv upstream (mkWorld c []) =
    (Value (errorEnvelope 500 "Proxy Error"), mkWorld c [ConsoleLog (Error msg)]).
Proof.
  apply (X11_refused_configuration_gives_500 hostlessEnv). left; reflexivity.
Defined.

Lemma fetch_upstream_rejects request env env' upstream c ms e :
  configured env env' -> validated request env' -> misses request env' c ->
  upstream (targetRequestOf request env') = Rejects ms e ->
  Z.of_N ms <= deadline env' ->
  fetch request env upstream (mkWorld c []) =
  recover e (mkWorld (afterLookup request env' c)
                     [lookupEvent request env'; UpstreamFetch (targetRequestOf request env')]).
Proof.
  intros Henv Hval Hmiss Hup Htime.
  rewrite fetch_conclude, (attempt_miss _ _ env') by assumption.
  erewrite proxy_rejected by eassumption.
  apply conclude_recover.
Qed.

(** X12: when the upstream call fails in time with "fetch failed" and
    the cause ENOTFOUND, ECONNREFUSED or ECONNABORTED, the answer is 503
    "Service Unavailable"; the exception is logged and nothing is
    stored. *)
Theorem X12_unreachable_upstream_gives_503 request env env' upstream c ms code :
  configured env env' -> validated request env' -> misses request env' c ->
  upstream (targetRequestOf request env') = Rejects ms (fetchFailed code) ->
  Z.of_N ms <= deadline env' ->
  List.In code ["ENOTFOUND"; "ECONNREFUSED"; "ECONNABORTED"] ->
  fetch request env upstream (mkWorld c []) =
  (Value (errorEnvelope 503 "Service Unavailable"),
   mkWorld (afterLookup request env' c)
           [lookupEvent request env'; UpstreamFetch (targetRequestOf request env');
            ConsoleLog (fetchFailed code)]).
Proof.
  intros Henv Hval Hmiss Hup Htime Hcode.
  rewrite (fetch_upstream_rejects _ _ env' _ _ ms (fetchFailed code)) by assumption.
  rewrite (recover_code _ (mkCause (Some code))) by reflexivity.
  cbn [List.In] in Hcode.
  destruct Hcode as [<-|[<-|[<-|[]]]]; reflexivity.
Qed.

Lemma X12_unreachable_upstream_gives_503_witness :
  fetch sampleGet sampleEnv (failing (fetchFailed "ECONNREFUSED")) (mkWorld emptyCache []) =
  (Value (errorEnvelope 503 "Service Unavailable"),
   mkWorld (afterLookup sampleGet sampleEnv' emptyCache)
           [lookupEvent sampleGet sampleEnv';
            UpstreamFetch (targetRequestOf sampleGet sampleEnv');
            ConsoleLog (fetchFailed "ECONNREFUSED")]).
Proof.
  apply (X12_unreachable_upstream_gives_503 sampleGet sampleEnv sampleEnv'
           (failing (fetchFailed "ECONNREFUSED")) emptyCache 10%N "ECONNREFUSED");
    [intros w; reflexivity | intros w; reflexivity | right; reflexivity
    | reflexivity | vm_compute; discriminate | right; left; reflexivity].
Defined.

(** X13: when the upstream call fails in time with "fetch failed" and
    the cause ETIMEDOUT, UND_ERR_CONNECT_TIMEOUT, UND_ERR_HEADERS_TIMEOUT,
    ECONNRESET, EHOSTUNREACH or EAI_AGAIN, the answer is 504 "Gateway
    Timeout"; the exception is logged and nothing is stored. *)
Theorem X13_slow_upstream_failure_gives_504 request env env' upstream c ms code :
  configured env env' -> validated request env' -> misses request env' c ->
  upstream (targetRequestOf request env') = Rejects ms (fetchFailed code) ->
  Z.of_N ms <= deadline env' ->
  List.In code ["ETIMEDOUT"; "UND_ERR_CONNECT_TIMEOUT"; "UND_ERR_HEADERS_TIMEOUT";
                "ECONNRESET"; "EHOSTUNREACH"; "EAI_AGAIN"] ->
  fetch request env upstream (mkWorld c []) =
  (Value (errorEnvelope 504 "Gateway Timeout"),
   mkWorld (afterLookup request env' c)
           [lookupEvent request env'; UpstreamFetch (targetRequestOf request env');
            ConsoleLog (fetchFailed code)]).
Proof.
  intros Henv Hval Hmiss Hup Htime Hcode.
  rewrite (fetch_upstream_rejects _ _ env' _ _ ms (fetchFailed code)) by assumption.
  rewrite (recover_code _ (mkCause (Some code))) by reflexivity.
  cbn [List.In] in Hcode.
  destruct Hcode as [<-|[<-|[<-|[<-|[<-|[<-|[]]]]]]]; reflexivity.
Qed.

Lemma X13_slow_upstream_failure_gives_504_witness :
  fetch sampleGet sampleEnv (failing (fetchFailed "ECONNRESET")) (mkWorld emptyCache []) =
  (Value (errorEnvelope 504 "Gateway Timeout"),
   mkWorld (afterLookup sampleGet sampleEnv' emptyCache)
           [lookupEvent sampleGet sampleEnv';
            UpstreamFetch (targetRequestOf sampleGet sampleEnv');
            ConsoleLog (fetchFailed "ECONNRESET")]).
Proof.
  apply (X13_slow_upstream_failure_gives_504 sampleGet sampleEnv sampleEnv'
           (failing (fetchFailed "ECONNRESET")) emptyCache 10%N "ECONNRESET");
    [intros w; reflexivity | intros w; reflexivity | right; reflexivity
    | reflexivity | vm_compute; discriminate | do 3 right; left; reflexivity].
Defined.

(** X14: a "fetch failed" whose cause carries another code, or none, is
    answered 502 "Bad Gateway". *)
Theorem X14_other_fetch_failure_gives_502 request env env' upstream c ms code :
  configured env env' -> validated request env' -> misses request env' c ->
  upstream (targetRequestOf request env') =
    Rejects ms (mkException "fetch failed" (Some (mkCause code))) ->
  Z.of_N ms <= deadline env' ->
  (forall k, code = Some k ->
     ~ List.In k ["ENOTFOUND"; "ECONNREFUSED"; "ECONNABORTED"; "ETIMEDOUT";
                  "UND_ERR_CONNECT_TIMEOUT"; "UND_ERR_HEADERS_TIMEOUT";
                  "ECONNRESET"; "EHOSTUNREACH"; "EAI_AGAIN"]) ->
  fetch request env upstream (mkWorld c []) =
  (Value (errorEnvelope 502 "Bad Gateway"),
   mkWorld (afterLookup request env' c)
           [lookupEvent request env'; UpstreamFetch (targetRequestOf request env');
            ConsoleLog (mkException "fetch failed" (Some (mkCause code)))]).
Proof.
  intros Henv Hval Hmiss Hup Htime Hcode.
  rewrite (fetch_upstream_rejects _ _ env' _ _ ms
             (mkException "fetch failed" (Some (mkCause code)))) by assumption.
  rewrite (recover_code _ (mkCause code)) by reflexivity.
  destruct code as [k|]; [|reflexivity].
  specialize (Hcode k eq_refl). cbn [List.In] in Hcode. cbv zeta. cbn [Worker.code].
  repeat match goal with
         | |- context [String.eqb k ?s] =>
             destruct (String.eqb_spec k s) as [Hk|_];
               [exfalso; apply Hcode; rewrite Hk; auto 12|]
         end.
  reflexivity.
Qed.

Lemma X14_other_fetch_failure_gives_502_witness :
  fetch sampleGet sampleEnv (failing (fetchFailed "EPIPE")) (mkWorld emptyCache []) =
  (Value (errorEnvelope 502 "Bad Gateway"),
   mkWorld (afterLookup sampleGet sampleEnv' emptyCache)
           [lookupEvent sampleGet sampleEnv';
            UpstreamFetch (targetRequestOf sampleGet sampleEnv');
            ConsoleLog (fetchFailed "EPIPE")]).
Proof.
  apply (X14_other_fetch_failure_gives_502 sampleGet sampleEnv sampleEnv'
           (failing (fetchFailed "EPIPE")) emptyCache 10%N (Some "EPIPE"));
    [intros w; reflexivity | intros w; reflexivity | right; reflexivity
    | reflexivity | vm_compute; discriminate
    | intros k [= <-]; cbn [List.In]; intuition discriminate].
Defined.

(** X15: any other exception of the upstream call (another message, or
    no cause) is answered 500 "Proxy Error" and logged. *)
Theorem X15_other_exception_gives_500 request env env' upstream c ms e :
  configured env env' -> validated request env' -> misses request env' c ->
  upstream (targetRequestOf request env') = Rejects ms e ->
  Z.of_N ms <= deadline env' ->
  message e <> "fetch failed" \/ cause e = None ->
  fetch request env upstream (mkWorld c []) =
  (Value (errorEnvelope 500 "Proxy Error"),
   mkWorld (afterLookup request env' c)
           [lookupEvent request env'; UpstreamFetch (targetRequestOf request env');
            ConsoleLog e]).
Proof.
  intros Henv Hval Hmiss Hup Htime He.
  rewrite (fetch_upstream_rejects _ _ env' _ _ ms e) by assumption.
  now rewrite recover_other.
Qed.

Lemma X15_other_exception_gives_500_witness :
  fetch sampleGet sampleEnv (failing (Error "boom")) (mkWorld emptyCache []) =
  (Value (errorEnvelope 500 "Proxy Error"),
   mkWorld (afterLookup sampleGet sampleEnv' emptyCache)
           [lookupEvent sampleGet sampleEnv';
            UpstreamFetch (targetRequestOf sampleGet sampleEnv');
            ConsoleLog (Error "boom")]).
Proof.
  apply (X15_other_exception_gives_500 sampleGet sampleEnv sampleEnv'
           (failing (Error "boom")) emptyCache 10%N (Error "boom"));
    [intros w; reflexivity | intros w; reflexivity | right; reflexivity
    | reflexivity | vm_compute; discriminate | right; reflexivity].
Defined.

(** *** What is made of the upstream's JSON errors *)

Lemma fetch_json_error request env env' upstream c ms response :
  configured env env' -> validated request env' -> misses request env' c ->
  upstream (targetRequestOf request env') = Fulfils ms response ->
  Z.of_N ms <= deadline env' ->
  Response.status response <> 200 ->
  Headers.get_or_empty "content-type" (Response.headers response) = "application/json" ->
  fetch request env upstream (mkWorld c []) =
  let w1 := mkWorld (afterLookup request env' c)
                    [lookupEvent request env';
                     UpstreamFetch (targetRequestOf request env')] in
  match fst (normalize response w1) with
  | Value _ => (Value response, w1)
  | Returned r => (Value r, w1)
  | Thrown e => recover e w1
  end.
Proof.
  intros Henv Hval Hmiss Hup Htime Hstatus Htype.
  rewrite fetch_conclude, (attempt_miss _ _ env') by assumption.
  erewrite proxy_non200 by eassumption.
  cbv zeta. rewrite Htype. cbn [String.eqb Ascii.eqb Bool.eqb andb app events cache].
  destruct (fst (normalize response _)) as [[]|r|e];
    [reflexivity | reflexivity | apply conclude_recover].
Qed.

Lemma normalize_unparsed response text w :
  Response.body response = Response.Readable text None ->
  200 <= Response.status response <= 599 ->
  Response.null_body_status (Response.status response) = false ->
  normalize response w =
  (Returned (errorEnvelope (Response.status response) text), w).
Proof.
  intros Hb Hrange Hnull. unfold normalize. rewrite Hb.
  apply bind_Returned. unfold try_catch.
  now rewrite return_errorResponse_ok.
Qed.

Lemma normalize_undecodable response w :
  Response.body response = Response.Unreadable \/
  (exists text, Response.body response = Response.Readable text None /\
                Response.null_body_status (Response.status response) = true) ->
  normalize response w =
  (Returned (errorEnvelope 500 "Error decoding response from server"), w).
Proof.
  intros [Hb|(text & Hb & Hnull)]; unfold normalize; rewrite Hb; apply bind_Returned.
  - now rewrite return_errorResponse_ok.
  - unfold try_catch, return_errorResponse at 1, errorResponse, new_Response.
    unfold Response.null_body_status in Hnull.
    assert (Hs : List.In (Response.status response) [101; 103; 204; 205; 304]).
    { cbn [List.In]. rewrite !orb_true_iff, !Z.eqb_eq in Hnull. intuition auto. }
    cbn [List.In] in Hs.
    destruct Hs as [<-|[<-|[<-|[<-|[<-|[]]]]]];
      (erewrite bind_Thrown by reflexivity); now rewrite return_errorResponse_ok.
Qed.

Lemma normalize_empty_message response text json outer w :
  Response.body response = Response.Readable text (Some json) ->
  truthy (get "threads" (Some json)) = false ->
  first (get "error_list" (get "response_map" (Some json))) = Some outer ->
  get "message" (Some outer) = Some (JStr "") ->
  200 <= Response.status response <= 599 ->
  Response.null_body_status (Response.status response) = false ->
  normalize response w =
  (Returned (errorEnvelope (Response.status response)
               "Server returned empty response error message"), w).
Proof.
  intros Hb Ht Hfirst Hmsg Hrange Hnull. unfold normalize. rewrite Hb.
  pose proof (first_Some_truthy _ _ Hfirst) as Hlist.
  assert (Hmap : truthy (get "response_map" (Some json)) = true).
  { destruct (get "error_list" (get "response_map" (Some json))) as [l|] eqn:E;
      [|discriminate]. exact (get_Some_truthy _ _ _ E). }
  destruct json; try discriminate.
  rewrite bind_ret. erewrite bind_Value by reflexivity.
  rewrite Ht. erewrite bind_Value by reflexivity.
  rewrite Hmap, Hlist, Hfirst, Hmsg. cbn [andb].
  now rewrite guard_step.
Qed.

Lemma normalize_plain response text json w :
  Response.body response = Response.Readable text (Some json) ->
  json <> JNull ->
  truthy (get "threads" (Some json)) = false ->
  truthy (get "response_map" (Some json)) = false ->
  normalize response w = (Value tt, w).
Proof.
  intros Hb Hjson Ht Hmap. unfold normalize. rewrite Hb.
  rewrite bind_ret. destruct json; try congruence.
  all: erewrite bind_Value by reflexivity;
    rewrite Ht; erewrite bind_Value by reflexivity;
    rewrite Hmap; reflexivity.
Qed.

Lemma normalize_null response text w :
  Response.body response = Response.Readable text (Some JNull) ->
  normalize response w = (Thrown (Error "TypeError"), w).
Proof. intros Hb. unfold normalize. now rewrite Hb. Qed.

(** X16: an upstream answer of another status than 200 whose content
    type is exactly [application/json] but whose body is not JSON is
    replaced by an error document of the same status with the body text
    as its message; nothing is stored. *)
Theorem X16_unparsable_error_is_wrapped request env env' upstream c ms response text :
  configured env env' -> validated request env' -> misses request env' c ->
  upstream (targetRequestOf request env') = Fulfils ms response ->
  Z.of_N ms <= deadline env' ->
  Response.status response <> 200 ->
  200 <= Response.status response <= 599 ->
  Response.null_body_status (Response.status response) = false ->
  Headers.get_or_empty "content-type" (Response.headers response) = "application/json" ->
  Response.body response = Response.Readable text None ->
  fetch request env upstream (mkWorld c []) =
  (Value (errorEnvelope (Response.status response) text),
   mkWorld (afterLookup request env' c)
           [lookupEvent request env'; UpstreamFetch (targetRequestOf request env')]).
Proof.
  intros Henv Hval Hmiss Hup Htime Hstatus Hrange Hnull Htype Hbody.
  rewrite (fetch_json_error _ _ env' _ _ ms response) by assumption.
  cbv zeta. now rewrite (normalize_unparsed _ text).
Qed.

Lemma X16_unparsable_error_is_wrapped_witness :
  fetch sampleGet sampleEnv (answering abortedText) (mkWorld emptyCache []) =
  (Value (errorEnvelope 500 "Pipeline execution failed or was aborted"),
   mkWorld (afterLookup sampleGet sampleEnv' emptyCache)
           [lookupEvent sampleGet sampleEnv';
            UpstreamFetch (targetRequestOf sampleGet sampleEnv')]).
Proof.
  apply (X16_unparsable_error_is_wrapped sampleGet sampleEnv sampleEnv'
           (answering abortedText) emptyCache 10%N abortedText
           "Pipeline execution failed or was aborted");
    [intros w; reflexivity | intros w; reflexivity | right; reflexivity
    | reflexivity | vm_compute; discriminate | discriminate
    | split; vm_compute; discriminate | reflexivity | reflexivity | reflexivity].
Defined.

(** X17: when the body of such an answer cannot be read, or it is not
    JSON and the status (204, 205, 304, ...) admits no body, the client
    gets 500 "Error decoding response from server". *)
Theorem X17_undecodable_error_gives_500 request env env' upstream c ms response :
  configured env env' -> validated request env' -> misses request env' c ->
  upstream (targetRequestOf request env') = Fulfils ms response ->
  Z.of_N ms <= deadline env' ->
  Response.status response <> 200 ->
  Headers.get_or_empty "content-type" (Response.headers response) = "application/json" ->
  Response.body response = Response.Unreadable \/
  (exists text, Response.body response = Response.Readable text None /\
                Response.null_body_status (Response.status response) = true) ->
  fetch request env upstream (mkWorld c []) =
  (Value (errorEnvelope 500 "Error decoding response from server"),
   mkWorld (afterLookup request env' c)
           [lookupEvent request env'; UpstreamFetch (targetRequestOf request env')]).
Proof.
  intros Henv Hval Hmiss Hup Htime Hstatus Htype Hbody.
  rewrite (fetch_json_error _ _ env' _ _ ms response) by assumption.
  cbv zeta. now rewrite normalize_undecodable.
Qed.

Lemma X17_undecodable_error_gives_500_witness :
  fetch sampleGet sampleEnv (answering notModified) (mkWorld emptyCache []) =
  (Value (errorEnvelope 500 "Error decoding response from server"),
   mkWorld (afterLookup sampleGet sampleEnv' emptyCache)
           [lookupEvent sampleGet sampleEnv';
            UpstreamFetch (targetRequestOf sampleGet sampleEnv')]).
Proof.
  apply (X17_undecodable_error_gives_500 sampleGet sampleEnv sampleEnv'
           (answering notModified) emptyCache 10%N notModified);
    [intros w; reflexivity | intros w; reflexivity | right; reflexivity
    | reflexivity | vm_compute; discriminate | discriminate | reflexivity
    | right; exists ""; split; reflexivity].
Defined.

(** X18: a JSON error without [threads] whose first entry of
    [response_map.error_list] has the empty string as message is replaced
    by an error document of the same status saying "Server returned empty
    response error message". *)
Theorem X18_empty_message_is_named request env env' upstream c ms response text json outer :
  configured env env' -> validated request env' -> misses request env' c ->
  upstream (targetRequestOf request env') = Fulfils ms response ->
  Z.of_N ms <= deadline env' ->
  Response.status response <> 200 ->
  200 <= Response.status response <= 599 ->
  Response.null_body_status (Response.status response) = false ->
  Headers.get_or_empty "content-type" (Response.headers response) = "application/json" ->
  Response.body response = Response.Readable text (Some json) ->
  truthy (get "threads" (Some json)) = false ->
  first (get "error_list" (get "response_map" (Some json))) = Some outer ->
  get "message" (Some outer) = Some (JStr "") ->
  fetch request env upstream (mkWorld c []) =
  (Value (errorEnvelope (Response.status response)
            "Server returned empty response error message"),
   mkWorld (afterLookup request env' c)
           [lookupEvent request env'; UpstreamFetch (targetRequestOf request env')]).
Proof.
  intros Henv Hval Hmiss Hup Htime Hstatus Hrange Hnull Htype Hbody Ht Hfirst Hmsg.
  rewrite (fetch_json_error _ _ env' _ _ ms response) by assumption.
  cbv zeta. now rewrite (normalize_empty_message _ text json outer).
Qed.

Lemma X18_empty_message_is_named_witness :
  fetch sampleGet sampleEnv (answering (jsonError 500 emptyMessageDoc))
        (mkWorld emptyCache []) =
  (Value (errorEnvelope 500 "Server returned empty response error message"),
   mkWorld (afterLookup sampleGet sampleEnv' emptyCache)
           [lookupEvent sampleGet sampleEnv';
            UpstreamFetch (targetRequestOf sampleGet sampleEnv')]).
Proof.
  apply (X18_empty_message_is_named sampleGet sampleEnv sampleEnv'
           (answering (jsonError 500 emptyMessageDoc)) emptyCache 10%N
           (jsonError 500 emptyMessageDoc) (stringify emptyMessageDoc) emptyMessageDoc
           (JObj [("message", JStr "")]));
    [intros w; reflexivity | intros w; reflexivity | right; reflexivity
    | reflexivity | vm_compute; discriminate | discriminate
    | split; vm_compute; discriminate | reflexivity | reflexivity | reflexivity
    | reflexivity | reflexivity | reflexivity].
Defined.

(** X19: a JSON error that is not [null] and has neither a truthy
    [threads] nor a truthy [response_map] reaches the client as the
    upstream sent it, and is not stored. *)
Theorem X19_plain_json_error_passes request env env' upstream c ms response text json :
  configured env env' -> validated request env' -> misses request env' c ->
  upstream (targetRequestOf request env') = Fulfils ms response ->
  Z.of_N ms <= deadline env' ->
  Response.status response <> 200 ->
  Headers.get_or_empty "content-type" (Response.headers response) = "application/json" ->
  Response.body response = Response.Readable text (Some json) ->
  json <> JNull ->
  truthy (get "threads" (Some json)) = false ->
  truthy (get "response_map" (Some json)) = false ->
  fetch request env upstream (mkWorld c []) =
  (Value response,
   mkWorld (afterLookup request env' c)
           [lookupEvent request env'; UpstreamFetch (targetRequestOf request env')]).
Proof.
  intros Henv Hval Hmiss Hup Htime Hstatus Htype Hbody Hjson Ht Hmap.
  rewrite (fetch_json_error _ _ env' _ _ ms response) by assumption.
  cbv zeta. now rewrite (normalize_plain _ text json).
Qed.

Lemma X19_plain_json_error_passes_witness :
  fetch sampleGet sampleEnv (answering (jsonError 404 plainDoc)) (mkWorld emptyCache []) =
  (Value (jsonError 404 plainDoc),
   mkWorld (afterLookup sampleGet sampleEnv' emptyCache)
           [lookupEvent sampleGet sampleEnv';
            UpstreamFetch (targetRequestOf sampleGet sampleEnv')]).
Proof.
  apply (X19_plain_json_error_passes sampleGet sampleEnv sampleEnv'
           (answering (jsonError 404 plainDoc)) emptyCache 10%N
           (jsonError 404 plainDoc) (stringify plainDoc) plainDoc);
    [intros w; reflexivity | intros w; reflexivity | right; reflexivity
    | reflexivity | vm_compute; discriminate | discriminate | reflexivity
    | reflexivity | discriminate | reflexivity | reflexivity].
Defined.

(** X20: an upstream error in the format of [errorResponse] itself, with
    a non-empty message, reaches the client unchanged: the documents the
    handler builds are fixed by its own normalizer. *)
Theorem X20_own_error_format_passes request env env' upstream c ms response text
    (status : JSON) (message : string) :
  configured env env' -> validated request env' -> misses request env' c ->
  upstream (targetRequestOf request env') = Fulfils ms response ->
  Z.of_N ms <= deadline env' ->
  Response.status response <> 200 ->
  Headers.get_or_empty "content-type" (Response.headers response) = "application/json" ->
  Response.body response = Response.Readable text (Some (envelope status message)) ->
  message <> "" ->
  fetch request env upstream (mkWorld c []) =
  (Value response,
   mkWorld (afterLookup request env' c)
           [lookupEvent request env'; UpstreamFetch (targetRequestOf request env')]).
Proof.
  intros Henv Hval Hmiss Hup Htime Hstatus Htype Hbody Hmsg.
  rewrite (fetch_json_error _ _ env' _ _ ms response) by assumption.
  cbv zeta.
  assert (Hnorm : forall w, normalize response w = (Value tt, w)).
  { intros w. unfold normalize. rewrite Hbody. rewrite bind_ret.
    erewrite bind_Value by reflexivity.
    erewrite bind_Value by reflexivity.
    destruct message as [|a message]; [congruence|].
    reflexivity. }
  now rewrite Hnorm.
Qed.

Lemma X20_own_error_format_passes_witness :
  fetch sampleGet sampleEnv (answering (errorEnvelope 503 "Service Unavailable"))
        (mkWorld emptyCache []) =
  (Value (errorEnvelope 503 "Service Unavailable"),
   mkWorld (afterLookup sampleGet sampleEnv' emptyCache)
           [lookupEvent sampleGet sampleEnv';
            UpstreamFetch (targetRequestOf sampleGet sampleEnv')]).
Proof.
  apply (X20_own_error_format_passes sampleGet sampleEnv sampleEnv'
           (answering (errorEnvelope 503 "Service Unavailable")) emptyCache 10%N
           (errorEnvelope 503 "Service Unavailable")
           (stringify (envelope 503 "Service Unavailable")) 503 "Service Unavailable");
    [intros w; reflexivity | intros w; reflexivity | right; reflexivity
    | reflexivity | vm_compute; discriminate | discriminate | reflexivity
    | reflexivity | discriminate].
Defined.

(** X21: a JSON error that is the document [null] makes the handler
    throw while reading [threads]; the client gets 500 "Proxy Error" and
    the exception is logged. *)
Theorem X21_null_document_gives_500 request env env' upstream c ms response text :
  configured env env' -> validated request env' -> misses request env' c ->
  upstream (targetRequestOf request env') = Fulfils ms response ->
  Z.of_N ms <= deadline env' ->
  Response.status response <> 200 ->
  Headers.get_or_empty "content-type" (Response.headers response) = "application/json" ->
  Response.body response = Response.Readable text (Some JNull) ->
  fetch request env upstream (mkWorld c []) =
  (Value (errorEnvelope 500 "Proxy Error"),
   mkWorld (afterLookup request env' c)
           [lookupEvent request env'; UpstreamFetch (targetRequestOf request env');
            ConsoleLog (Error "TypeError")]).
Proof.
  intros Henv Hval Hmiss Hup Htime Hstatus Htype Hbody.
  rewrite (fetch_json_error _ _ env' _ _ ms response) by assumption.
  cbv zeta. rewrite (normalize_null _ text) by assumption.
  cbn [fst]. rewrite recover_other by (right; reflexivity). reflexivity.
Qed.

Lemma X21_null_document_gives_500_witness :
  fetch sampleGet sampleEnv (answering (jsonError 500 JNull)) (mkWorld emptyCache []) =
  (Value (errorEnvelope 500 "Proxy Error"),
   mkWorld (afterLookup sampleGet sampleEnv' emptyCache)
           [lookupEvent sampleGet sampleEnv';
            UpstreamFetch (targetRequestOf sampleGet sampleEnv');
            ConsoleLog (Error "TypeError")]).
Proof.
  apply (X21_null_document_gives_500 sampleGet sampleEnv sampleEnv'
           (answering (jsonError 500 JNull)) emptyCache 10%N
           (jsonError 500 JNull) (stringify JNull));
    [intros w; reflexivity | intros w; reflexivity | right; reflexivity
    | reflexivity | vm_compute; discriminate | discriminate | reflexivity
    | reflexivity].
Defined.

(** *** The shape of a run *)

Lemma fetch_run request env upstream c :
  let res := fetch request env upstream (mkWorld c []) in
  (exists r evs, res = (Value r, mkWorld c evs) /\ fetches evs = [] /\ cacheKeys evs = []) \/
  exists env', configured env env' /\ validated request env' /\
    ((exists hit, wantsFresh request = false /\
                  c !! cacheKeyOf request env' = Some hit /\
                  res = (Value hit, mkWorld c [CacheMatch (cacheKeyOf request env')])) \/
     (misses request env' c /\
      exists more,
        events (snd res) =
          lookupEvent request env' :: UpstreamFetch (targetRequestOf request env') :: more /\
        (((more = [] \/ exists e, more = [ConsoleLog e]) /\
          cache (snd res) = afterLookup request env' c) \/
         (exists ms response,
            upstream (targetRequestOf request env') = Fulfils ms response /\
            Z.of_N ms <= deadline env' /\ Response.status response = 200 /\
            more = [CachePut (cacheKeyOf request env') (storedCopy response env')] /\
            cache (snd res) =
              <[cacheKeyOf request env' := storedCopy response env']>
                (afterLookup request env' c))))).
Proof.
  cbv zeta.
  destruct (checkEnv_outcome env) as [[env' Henv]|[msg Hmsg]].
  2:{ left. exists (errorEnvelope 500 "Proxy Error"), [ConsoleLog (Error msg)].
      split; [|split; reflexivity].
      rewrite fetch_conclude. unfold attempt.
      rewrite (bind_Thrown _ _ _ _ _ (Hmsg _)).
      rewrite conclude_recover. apply recover_other. now right. }
  destruct (validate_outcome request env') as [Hval|(status & message & _ & Hrej)].
  2:{ left. exists (errorEnvelope status message), []. split; [|split; reflexivity].
      apply (fetch_rejects _ _ env'); [exact Henv|apply Hrej]. }
  right. exists env'. split; [exact Henv|]. split; [exact Hval|].
  assert (Hmiss : forall Hm : misses request env' c,
             misses request env' c /\
             exists more,
               events (snd (fetch request env upstream (mkWorld c []))) =
               lookupEvent request env' :: UpstreamFetch (targetRequestOf request env') :: more /\
               (((more = [] \/ exists e, more = [ConsoleLog e]) /\
                 cache (snd (fetch request env upstream (mkWorld c []))) =
                 afterLookup request env' c) \/
                (exists ms response,
                   upstream (targetRequestOf request env') = Fulfils ms response /\
                   Z.of_N ms <= deadline env' /\ Response.status response = 200 /\
                   more = [CachePut (cacheKeyOf request env') (storedCopy response env')] /\
                   cache (snd (fetch request env upstream (mkWorld c []))) =
                   <[cacheKeyOf request env' := storedCopy response env']>
                     (afterLookup request env' c)))).
  { intros Hm. split; [exact Hm|].
    rewrite fetch_conclude, (attempt_miss _ _ env') by assumption.
    match goal with |- context [conclude (proxy ?r ?u ?k ?e ?up ?w)] =>
      destruct (proxy_shapes r u k e up w) as (more & Hev & Hmore) end.
    exists more. split; [exact Hev|].
    destruct Hmore as [[-> Hc]|[(e & -> & Hc)|(ms & response & Hu & Ht & Hs & -> & Hc)]].
    - left. split; [now left|exact Hc].
    - left. split; [right; now exists e|exact Hc].
    - right. exists ms, response. auto 10. }
  destruct (wantsFresh request) eqn:Hf;
    [|destruct (c !! cacheKeyOf request env') as [hit|] eqn:Hh].
  - right. apply Hmiss. now left.
  - left. exists hit. split; [reflexivity|]. split; [reflexivity|].
    rewrite fetch_conclude.
    now rewrite (attempt_hit _ _ env' _ _ _ hit) by assumption.
  - right. apply Hmiss. now right.
Qed.

Lemma configured_unique env env1 env2 :
  configured env env1 -> configured env env2 -> env1 = env2.
Proof.
  intros H1 H2. specialize (H1 (mkWorld ∅ [])). specialize (H2 (mkWorld ∅ [])).
  congruence.
Qed.

Lemma fetches_lookupEvent request env evs :
  fetches (lookupEvent request env :: evs) = fetches evs.
Proof. unfold lookupEvent. now destruct (wantsFresh request). Qed.

Lemma buildTargetUrl_search request env :
  Url.search (buildTargetUrl request env) = Url.search (Request.url request).
Proof.
  unfold buildTargetUrl, Url.set_port, Url.set_hostname, Url.set_protocol,
    Url.set_pathname.
  repeat match goal with
         | |- context [if ?b then _ else _] => destruct b
         | |- context [match ?o with Some _ => _ | None => _ end] => destruct o
         end; reflexivity.
Qed.

Lemma buildTargetUrl_same_url r1 r2 env :
  Request.url r1 = Request.url r2 -> buildTargetUrl r1 env = buildTargetUrl r2 env.
Proof. unfold buildTargetUrl. now intros ->. Qed.

Lemma cacheKeyOf_same r1 r2 env :
  Request.url r1 = Request.url r2 ->
  toUpperCase (Request.method r1) = toUpperCase (Request.method r2) ->
  bodyBytes r1 = bodyBytes r2 ->
  cacheKeyOf r1 env = cacheKeyOf r2 env.
Proof.
  intros Hurl Hmethod Hbody. unfold cacheKeyOf, getCacheKey.
  rewrite (buildTargetUrl_same_url r1 r2) by assumption.
  rewrite Hurl, Hmethod.
  replace (match Request.body r1 with
           | Some b => Bytes.encode (Request.bytes b)
           | None => []
           end) with (Bytes.encode (bodyBytes r1))
    by (unfold bodyBytes; now destruct (Request.body r1)).
  replace (match Request.body r2 with
           | Some b => Bytes.encode (Request.bytes b)
           | None => []
           end) with (Bytes.encode (bodyBytes r2))
    by (unfold bodyBytes; now destruct (Request.body r2)).
  now rewrite Hbody.
Qed.

Lemma fetch_200 request env env' upstream c ms response :
  configured env env' -> validated request env' -> misses request env' c ->
  upstream (targetRequestOf request env') = Fulfils ms response ->
  Z.of_N ms <= deadline env' ->
  Response.status response = 200 ->
  fetch request env upstream (mkWorld c []) =
  (Value (storedCopy response env'),
   mkWorld (<[cacheKeyOf request env' := storedCopy response env']>
              (afterLookup request env' c))
           [lookupEvent request env'; UpstreamFetch (targetRequestOf request env');
            CachePut (cacheKeyOf request env') (storedCopy response env')]).
Proof.
  intros Henv Hval Hmiss Hup Htime Hstatus.
  rewrite fetch_conclude, (attempt_miss _ _ env') by assumption.
  now erewrite proxy_200 by eassumption.
Qed.

(** *** The upstream call and the cache *)

(** X22: every request the handler sends upstream has the method and the
    body of the inbound request and its query string, carries no
    [accept-encoding] header and carries every other header (the
    [authorization] header among them) as it came in. *)
Theorem X22_upstream_request_shape request env upstream c req :
  List.In req (fetches (events (snd (fetch request env upstream (mkWorld c []))))) ->
  Request.method req = Request.method request /\
  Request.body req = Request.body request /\
  Url.search (Request.url req) = Url.search (Request.url request) /\
  Headers.get "accept-encoding" (Request.headers req) = None /\
  forall name, Headers.same_name name "accept-encoding" = false ->
               Headers.get name (Request.headers req) =
               Headers.get name (Request.headers request).
Proof.
  intros Hin.
  assert (Hreq : exists env', req = targetRequestOf request env').
  { destruct (fetch_run request env upstream c)
      as [(r & evs & Hres & Hnone & _)|(env' & _ & _ & [(hit & _ & _ & Hres)|(_ & more & Hev & Hmore)])].
    - rewrite Hres in Hin. cbn [snd events] in Hin. rewrite Hnone in Hin. contradiction.
    - rewrite Hres in Hin. contradiction.
    - rewrite Hev, fetches_lookupEvent in Hin. cbn [fetches] in Hin.
      exists env'.
      destruct Hmore as [[[->|(e & ->)] _]|(ms & response & _ & _ & _ & -> & _)];
        cbn [fetches List.In] in Hin; destruct Hin as [<-|[]]; reflexivity. }
  destruct Hreq as [env' ->]. unfold targetRequestOf, rewrite.
  cbn [Request.method Request.body Request.url Request.headers].
  repeat split.
  - apply buildTargetUrl_search.
  - unfold Headers.get. now rewrite values_delete_same.
  - intros name Hname. unfold Headers.get. now rewrite values_delete_other.
Qed.

Lemma X22_upstream_request_shape_witness :
  Request.method (targetRequestOf sampleGet sampleEnv') = Request.method sampleGet /\
  Request.body (targetRequestOf sampleGet sampleEnv') = Request.body sampleGet /\
  Url.search (Request.url (targetRequestOf sampleGet sampleEnv')) =
    Url.search (Request.url sampleGet) /\
  Headers.get "accept-encoding" (Request.headers (targetRequestOf sampleGet sampleEnv')) =
    None /\
  forall name, Headers.same_name name "accept-encoding" = false ->
               Headers.get name (Request.headers (targetRequestOf sampleGet sampleEnv')) =
               Headers.get name (Request.headers sampleGet).
Proof.
  apply (X22_upstream_request_shape sampleGet sampleEnv (answering sampleOk) emptyCache).
  vm_compute. left; reflexivity.
Defined.

(** X23: the handler calls the upstream at most once, and only for a
    request that passed the checks under an accepted configuration and
    that the cache did not answer; the call is then the rewritten
    request. *)
Theorem X23_at_most_one_upstream_call request env upstream c :
  let evs := events (snd (fetch request env upstream (mkWorld c []))) in
  fetches evs = [] \/
  exists env', configured env env' /\ validated request env' /\
               misses request env' c /\
               fetches evs = [targetRequestOf request env'].
Proof.
  cbv zeta.
  destruct (fetch_run request env upstream c)
    as [(r & evs & Hres & Hnone & _)|(env' & Henv & Hval & [(hit & _ & _ & Hres)|(Hmiss & more & Hev & Hmore)])].
  - left. now rewrite Hres.
  - left. now rewrite Hres.
  - right. exists env'. repeat (split; [assumption|]).
    rewrite Hev, fetches_lookupEvent.
    now destruct Hmore as [[[->|(e & ->)] _]|(ms & response & _ & _ & _ & -> & _)].
Qed.

(** X24: the cache key depends on the inbound URL, the upper-cased method
    and the bytes of the body only: requests that differ in their headers
    (another token, say) or in the case of the method share a key. *)
Theorem X24_key_ignores_headers r1 r2 env :
  Request.url r1 = Request.url r2 ->
  toUpperCase (Request.method r1) = toUpperCase (Request.method r2) ->
  bodyBytes r1 = bodyBytes r2 ->
  cacheKeyOf r1 env = cacheKeyOf r2 env.
Proof. apply cacheKeyOf_same. Qed.

Lemma X24_key_ignores_headers_witness :
  cacheKeyOf sampleGet sampleEnv' = cacheKeyOf sampleGetOther sampleEnv'.
Proof.
  apply (X24_key_ignores_headers sampleGet sampleGetOther sampleEnv'); reflexivity.
Defined.

(** X25: once a 200 answer is stored for a request, and while the entry
    stays in the cache, a later request with the same URL, method and
    body that passes the checks and does not ask for [no-cache] is
    answered with the stored copy, whatever its headers and without a
    call to the upstream. *)
Theorem X25_stored_answer_serves_later_requests r1 r2 env env' upstream upstream' c
    ms response :
  configured env env' -> validated r1 env' -> misses r1 env' c ->
  upstream (targetRequestOf r1 env') = Fulfils ms response ->
  Z.of_N ms <= deadline env' ->
  Response.status response = 200 ->
  validated r2 env' -> wantsFresh r2 = false ->
  Request.url r2 = Request.url r1 ->
  toUpperCase (Request.method r2) = toUpperCase (Request.method r1) ->
  bodyBytes r2 = bodyBytes r1 ->
  let c1 := cache (snd (fetch r1 env upstream (mkWorld c []))) in
  fetch r2 env upstream' (mkWorld c1 []) =
  (Value (storedCopy response env'), mkWorld c1 [CacheMatch (cacheKeyOf r1 env')]).
Proof.
  intros Henv Hval1 Hmiss Hup Htime Hstatus Hval2 Hfresh Hurl Hmethod Hbody c1.
  subst c1. rewrite (fetch_200 r1 env env' upstream c ms response) by assumption.
  cbn [snd cache].
  rewrite <- (cacheKeyOf_same r2 r1 env' Hurl Hmethod Hbody).
  rewrite fetch_conclude.
  rewrite (attempt_hit r2 env env' upstream' _ [] (storedCopy response env'));
    [reflexivity|assumption|assumption|assumption|].
  apply lookup_insert_eq.
Qed.

Lemma X25_stored_answer_serves_later_requests_witness :
  let c1 := cache (snd (fetch sampleGet sampleEnv (answering sampleOk)
                          (mkWorld emptyCache []))) in
  fetch sampleGetOther sampleEnv (fun _ => Pending) (mkWorld c1 []) =
  (Value (storedCopy sampleOk sampleEnv'),
   mkWorld c1 [CacheMatch (cacheKeyOf sampleGet sampleEnv')]).
Proof.
  apply (X25_stored_answer_serves_later_requests sampleGet sampleGetOther sampleEnv
           sampleEnv' (answering sampleOk) (fun _ => Pending) emptyCache 10%N sampleOk);
    [intros w; reflexivity | intros w; reflexivity | right; reflexivity
    | reflexivity | vm_compute; discriminate | reflexivity
    | intros w; reflexivity | reflexivity | reflexivity | reflexivity | reflexivity].
Defined.

(** X26: a [no-cache] request that passes the checks and whose upstream
    call does not bring a 200 answer in time leaves the cache without an
    entry under its key: the entry that was there is lost, nothing
    replaces it. *)
Theorem X26_failed_refresh_evicts request env env' upstream c :
  configured env env' -> validated request env' ->
  wantsFresh request = true ->
  (forall ms response,
     upstream (targetRequestOf request env') = Fulfils ms response ->
     Z.of_N ms <= deadline env' -> Response.status response <> 200) ->
  cache (snd (fetch request env upstream (mkWorld c []))) =
    base.delete (cacheKeyOf request env') c /\
  cache (snd (fetch request env upstream (mkWorld c []))) !! cacheKeyOf request env' = None.
Proof.
  intros Henv Hval Hfresh Hno.
  assert (Hcache : cache (snd (fetch request env upstream (mkWorld c []))) =
                   base.delete (cacheKeyOf request env') c).
  { destruct (fetch_run request env upstream c)
      as [(r & evs & Hres & Hnone & _)|(env2 & Henv2 & _ & [(hit & Hf & _ & _)|(_ & more & _ & Hmore)])].
    - exfalso.
      assert (Hm : misses request env' c) by now left.
      pose proof (attempt_miss request env env' upstream c [] Henv Hval Hm) as Hatt.
      rewrite fetch_conclude, Hatt in Hres.
      match type of Hres with conclude (proxy ?r ?u ?k ?e ?up ?w) = _ =>
        destruct (proxy_shapes r u k e up w) as (more & Hev & _) end.
      rewrite Hres in Hev. cbn [snd events app] in Hev.
      apply (f_equal fetches) in Hev. rewrite fetches_lookupEvent in Hev.
      cbn [fetches] in Hev. congruence.
    - congruence.
    - rewrite (configured_unique _ _ _ Henv2 Henv) in Hmore.
      destruct Hmore as [[_ Hc]|(ms & response & Hu & Ht & Hs & _ & _)].
      + rewrite Hc. unfold afterLookup. now rewrite Hfresh.
      + now destruct (Hno ms response Hu Ht). }
  split; [exact Hcache|]. rewrite Hcache. apply lookup_delete_eq.
Qed.

Lemma X26_failed_refresh_evicts_witness :
  cache (snd (fetch sampleGetFresh sampleEnv (answering sampleNotFound)
                (mkWorld emptyCache []))) =
    base.delete (cacheKeyOf sampleGetFresh sampleEnv') emptyCache /\
  cache (snd (fetch sampleGetFresh sampleEnv (answering sampleNotFound)
                (mkWorld emptyCache []))) !! cacheKeyOf sampleGetFresh sampleEnv' = None.
Proof.
  apply (X26_failed_refresh_evicts sampleGetFresh sampleEnv sampleEnv'
           (answering sampleNotFound) emptyCache);
    [intros w; reflexivity | intros w; reflexivity | reflexivity
    | intros ms response [= _ <-]; discriminate].
Defined.

(** X27: whatever happens, the handler leaves every cache entry alone
    whose key is not the key of the request. *)
Theorem X27_other_entries_are_untouched request env env' upstream c k :
  configured env env' ->
  k <> cacheKeyOf request env' ->
  cache (snd (fetch request env upstream (mkWorld c []))) !! k = c !! k.
Proof.
  intros Henv Hk.
  assert (Hafter : afterLookup request env' c !! k = c !! k).
  { unfold afterLookup. destruct (wantsFresh request); [|reflexivity].
    now apply lookup_delete_ne. }
  destruct (fetch_run request env upstream c)
    as [(r & evs & -> & _ & _)|(env2 & Henv2 & _ & [(hit & _ & _ & ->)|(_ & more & _ & Hmore)])];
    [reflexivity|reflexivity|].
  rewrite (configured_unique _ _ _ Henv2 Henv) in Hmore.
  destruct Hmore as [[_ ->]|(ms & response & _ & _ & _ & _ & ->)]; [exact Hafter|].
  rewrite lookup_insert_ne by congruence. exact Hafter.
Qed.

Lemma X27_other_entries_are_untouched_witness :
  cache (snd (fetch sampleGet sampleEnv (answering sampleOk)
                (mkWorld (<["other" := sampleNotFound]> emptyCache) []))) !! "other" =
  <["other" := sampleNotFound]> emptyCache !! "other".
Proof.
  apply (X27_other_entries_are_untouched sampleGet sampleEnv sampleEnv');
    [intros w; reflexivity | vm_compute; discriminate].
Defined.



(** X29: no exception escapes the handler: whatever the request, the
    configuration, the upstream and the cache, a response comes back (the
    cause of an exception being absent or an object). *)
Theorem X29_no_exception_escapes request env upstream w :
  exists r, fst (fetch request env upstream w) = Value r.
Proof. apply fetch_answers. Qed.

(** X30: whatever the request, the configuration, the upstream and the
    cache, every write to the cache is the copy of an upstream answer of
    status 200 that came in time, for a request that passed the checks,
    under the key of that request. *)
Theorem X30_every_write_is_a_timely_200 request env upstream c k r :
  List.In (k, r) (puts (events (snd (fetch request env upstream (mkWorld c []))))) ->
  exists env' ms response,
    configured env env' /\ validated request env' /\
    upstream (targetRequestOf request env') = Fulfils ms response /\
    Z.of_N ms <= deadline env' /\ Response.status response = 200 /\
    k = cacheKeyOf request env' /\ r = storedCopy response env'.
Proof. apply only_200_is_stored. Qed.

Lemma X30_every_write_is_a_timely_200_witness :
  exists env' ms response,
    configured sampleEnv env' /\ validated sampleGet env' /\
    answering sampleOk (targetRequestOf sampleGet env') = Fulfils ms response /\
    Z.of_N ms <= deadline env' /\ Response.status response = 200 /\
    cacheKeyOf sampleGet sampleEnv' = cacheKeyOf sampleGet env' /\
    storedCopy sampleOk sampleEnv' = storedCopy response env'.
Proof.
  apply (X30_every_write_is_a_timely_200 sampleGet sampleEnv (answering sampleOk)
           emptyCache).
  vm_compute. left; reflexivity.
Defined.
